(** * npm-package-tester: the scenario engine and the executor's demultiplexer

    A shallow embedding of

    - [DockerManager.executeCommand] (src/application/DockerManager.ts): the
      demultiplexing of docker's framed output stream and the exit code, and
    - [ScenarioRunner] (src/application/ScenarioRunner.ts): [setupScenario],
      [validateScenario] and [runScenario],

    with the properties the specification states about them.

    JavaScript strings are modelled as [string] (code units below 256),
    numbers that hold exit codes and time stamps as [Z], an [Error] as a
    record with its [message], what is thrown as an [Error], [undefined] or
    [null], [Promise]-returning methods as functions from a state to an
    outcome ([inl] what was thrown, [inr] a value) and the next state: an
    exception does not roll the state back. *)

From Stdlib Require Import ZArith List String Ascii Bool Lia DecimalString.
From Stdlib Require Import Strings.Byte.
Import ListNotations.
Open Scope list_scope.
Open Scope string_scope.

(** ** JavaScript built-ins the code relies on *)

Module JS.

(** An [Error] object; the code only ever reads its [message]. *)
Record Error := mkError { message : string }.

(** What a [throw] statement or a rejected promise carries, and a [catch]
    receives: an [Error], or no error at all, [undefined] or [null] (a
    promise rejected by [stream.on('error', reject)] carries whatever the
    stream emits). A thrown value of another kind, a string or an object
    whose [message] is not a string, is not modelled. *)
Inductive Thrown :=
| Exception (e : Error)
| ThrownUndefined
| ThrownNull.

(** The [TypeError] of reading the property [key] of [undefined] or of
    [null], with the message Node gives it. *)
Definition propertyTypeError (base key : string) : Error :=
  mkError ("Cannot read properties of " ++ base ++ " (reading '" ++ key ++ "')").

(** [(error as Error).message] for a caught [error]. The cast is erased by
    the compiler: on [undefined] and on [null] the read throws. *)
Definition messageOf (error : Thrown) : Thrown + string :=
  match error with
  | Exception e => inr (message e)
  | ThrownUndefined => inl (Exception (propertyTypeError "undefined" "message"))
  | ThrownNull => inl (Exception (propertyTypeError "null" "message"))
  end.

(** The thrown value is [undefined] or [null]. *)
Definition isNullish (error : Thrown) : bool :=
  match error with
  | Exception _ => false
  | ThrownUndefined | ThrownNull => true
  end.

(** [WhiteSpace] and [LineTerminator] code units below 256: TAB, LF, VT, FF,
    CR, SP and NBSP. They are what [String.prototype.trim] strips. *)
Definition isWhiteSpace (c : ascii) : bool :=
  let n := nat_of_ascii c in
  (Nat.eqb n 9 || Nat.eqb n 10 || Nat.eqb n 11 || Nat.eqb n 12 ||
   Nat.eqb n 13 || Nat.eqb n 32 || Nat.eqb n 160)%bool.

Fixpoint trimStart (s : string) : string :=
  match s with
  | EmptyString => EmptyString
  | String c s' => if isWhiteSpace c then trimStart s' else s
  end.

Fixpoint trimEnd (s : string) : string :=
  match s with
  | EmptyString => EmptyString
  | String c s' =>
      match trimEnd s' with
      | EmptyString => if isWhiteSpace c then EmptyString else String c EmptyString
      | t => String c t
      end
  end.

(** [s.trim()] *)
Definition trim (s : string) : string := trimEnd (trimStart s).

(** [s] is made of white space only, begins with it, ends with it. *)
Fixpoint isBlank (s : string) : bool :=
  match s with
  | EmptyString => true
  | String c s' => (isWhiteSpace c && isBlank s')%bool
  end.

Definition startsWhite (s : string) : bool :=
  match s with
  | EmptyString => false
  | String c _ => isWhiteSpace c
  end.

Fixpoint endsWhite (s : string) : bool :=
  match s with
  | EmptyString => false
  | String c EmptyString => isWhiteSpace c
  | String _ s' => endsWhite s'
  end.

(** [s.includes(pat)]: [pat] occurs in [s] as a contiguous substring. *)
Fixpoint includes (s pat : string) : bool :=
  (String.prefix pat s ||
   match s with
   | EmptyString => false
   | String _ s' => includes s' pat
   end)%bool.

(** [arr.join(sep)] on an array of strings. *)
Definition join (sep : string) (arr : list string) : string :=
  String.concat sep arr.

(** [`${n}`] for an integral number [n]. *)
Definition numberToString (n : Z) : string :=
  NilZero.string_of_int (Z.to_int n).

Fixpoint lastIndexOf_from (s : string) (c : ascii) (i best : Z) : Z :=
  match s with
  | EmptyString => best
  | String a s' =>
      lastIndexOf_from s' c (i + 1) (if Ascii.eqb a c then i else best)
  end.

(** [s.lastIndexOf(c)] for a one-character search string; [-1] when absent. *)
Definition lastIndexOf (s : string) (c : ascii) : Z :=
  lastIndexOf_from s c 0 (-1).

(** [s.substring(0, e)]: a negative [e] counts as 0, one beyond the length as
    the length. *)
Definition substring0 (s : string) (e : Z) : string :=
  String.substring 0 (Z.to_nat e) s.

(** The line feed, ["\n"]. *)
Definition LF : string := String "010"%char EmptyString.

(** [x ?? d] *)
Definition nullish {A : Type} (x : option A) (d : A) : A :=
  match x with
  | Some v => v
  | None => d
  end.

End JS.

(** ** DockerManager.executeCommand *)

Module DockerManager.

Import JS.

(** A Node [Buffer]. *)
Definition Buffer := list byte.

(** What [executeCommand] resolves to. *)
Record ExecResult := mkExecResult {
  exitCode : Z;
  stdout : string;
  stderr : string
}.

(** [exec.inspect()]'s answer, as far as the code reads it: [ExitCode] is a
    number or [null]. *)
Record ExecInspectInfo := mkInspect { ExitCode : option Z }.

(** Everything dockerode answers during one [executeCommand]:
    [container.exec], [exec.start], the ['data'] events of the stream in
    arrival order, how the stream closes (['end'], or ['error'] with what
    it emits) and [exec.inspect]. *)
Record ExecSession := mkSession {
  exec_create : Thrown + unit;
  exec_start : Thrown + unit;
  stream_data : list Buffer;
  stream_close : Thrown + unit;
  exec_inspect : Thrown + ExecInspectInfo
}.

(** The docker daemon: the session a container gives for a command. *)
Definition Docker := string -> list string -> ExecSession.

Section Demux.

(** [Buffer.prototype.toString()], the decoding of bytes to text. *)
Variable toString : Buffer -> string.

(** [chunk.readUInt8(0)]; [None] stands for the [RangeError] on an empty
    buffer, which the guard [chunk.length > 8] rules out. *)
Definition readUInt8 (chunk : Buffer) (offset : nat) : option N :=
  option_map Byte.to_N (nth_error chunk offset).

(** [chunk.slice(8)] *)
Definition slice (from : nat) (chunk : Buffer) : Buffer := skipn from chunk.

(** The ['data'] handler: [acc] is the pair of the local variables
    [stdout] and [stderr]. *)
Definition onData (acc : string * string) (chunk : Buffer) : string * string :=
  let '(out, err) := acc in
  if (8 <? List.length chunk)%nat then
    match readUInt8 chunk 0 with
    | Some header =>
        let data := toString (slice 8 chunk) in
        if (header =? 1)%N then (out ++ data, err)
        else if (header =? 2)%N then (out, err ++ data)
        else (out, err)
    | None => (out, err)
    end
  else (out, err).

(** The state of [stdout] and [stderr] once the stream has delivered all
    its chunks. *)
Definition collectOutput (chunks : list Buffer) : string * string :=
  fold_left onData chunks (EmptyString, EmptyString).

Definition executeCommand (docker : Docker) (containerId : string)
    (command : list string) : Thrown + ExecResult :=
  let session := docker containerId command in
  match exec_create session with
  | inl e => inl e
  | inr _ =>
  match exec_start session with
  | inl e => inl e
  | inr _ =>
  let '(out, err) := collectOutput (stream_data session) in
  match stream_close session with
  | inl e => inl e
  | inr _ =>
  match exec_inspect session with
  | inl e => inl e
  | inr inspectResult =>
      let exitCode := nullish (ExitCode inspectResult) 0%Z in
      inr {| exitCode := exitCode; stdout := trim out; stderr := trim err |}
  end end end end.

(** *** The framing, in the specification's words *)

(** Byte 0 of a chunk, its channel tag. *)
Definition channelTag (chunk : Buffer) : option N := readUInt8 chunk 0.

(** Bytes 8..N of a chunk, its payload. *)
Definition payload (chunk : Buffer) : Buffer := skipn 8 chunk.

Definition onChannel (tag : N) (chunk : Buffer) : bool :=
  match channelTag chunk with
  | Some t => (t =? tag)%N
  | None => false
  end.

(** What one chunk contributes to channel [tag]: nothing when it is shorter
    than 8 bytes or tagged otherwise, its decoded payload when not. *)
Definition contribution (tag : N) (chunk : Buffer) : string :=
  if (List.length chunk <? 8)%nat then EmptyString
  else if onChannel tag chunk then toString (payload chunk)
  else EmptyString.

(** The text of channel [tag]: the contributions in arrival order. *)
Fixpoint channelText (tag : N) (chunks : list Buffer) : string :=
  match chunks with
  | [] => EmptyString
  | c :: cs => contribution tag c ++ channelText tag cs
  end.

End Demux.

(** The session [session] with [chunks] on its stream. *)
Definition withData (session : ExecSession) (chunks : list Buffer) : ExecSession :=
  {| exec_create := exec_create session;
     exec_start := exec_start session;
     stream_data := chunks;
     stream_close := stream_close session;
     exec_inspect := exec_inspect session |}.

End DockerManager.

(** ** domain/models/types.ts, the part the scenario engine uses

    An optional field [f?: T] is an [option T]; each interface is a record [t]
    in a module of the interface's name, so that fields keep their names. *)

Module CommandType.
Inductive t := PRIMARY | ALIAS | UTILITY.
End CommandType.

Module CLICommand.
Record t := mk { name : string; path : string; type : CommandType.t }.
End CLICommand.

Module TestStage.
Inductive t :=
| ANALYZING | DETECTING_COMMANDS | PULLING_IMAGE | CREATING_CONTAINER
| INSTALLING_PACKAGE | TESTING_COMMAND | CLEANING_UP | COMPLETED | ERROR.
End TestStage.

Module ProgressEvent.
Record t := mk {
  stage : TestStage.t;
  message : string;
  progress : option Z;
  currentCommand : option string
}.
End ProgressEvent.

(** A [RegExp] object, by what the code asks of it: [test] on a text and the
    text [`${pattern}`] prints. [test] is taken without the global and sticky
    flags, in which case it is a function of the text alone. *)
Module RegExp.
Record t := mk { test : string -> bool; toString : string }.
End RegExp.

(** [string | RegExp], told apart in the code by [typeof pattern]. *)
Inductive Matcher :=
| Literal (text : string)
| Pattern (re : RegExp.t).

Module TestFile.
Record t := mk { path : string; content : string }.
End TestFile.

Module TestSetup.
Record t := mk {
  files : option (list TestFile.t);
  directories : option (list string);
  dependencies : option (list string);
  initNpm : option bool
}.
End TestSetup.

Module FileContentValidation.
Record t := mk {
  path : string;
  contains : option (list Matcher);
  notContains : option (list Matcher);
  equals : option string
}.
End FileContentValidation.

Module TestValidation.
Record t := mk {
  exitCode : option Z;
  stdout : option (list Matcher);
  stderr : option (list Matcher);
  filesExist : option (list string);
  filesNotExist : option (list string);
  fileContents : option (list FileContentValidation.t)
}.
End TestValidation.

Module TestScenario.
Record t := mk {
  name : string;
  description : option string;
  setup : option TestSetup.t;
  command : string;
  args : option (list string);
  validate : TestValidation.t
}.
End TestScenario.

(** The fields [runScenario] sets; it leaves [scenarioName], [testType] and
    [args] out. *)
Module CommandTestResult.
Record t := mk {
  command : CLICommand.t;
  nodeVersion : string;
  passed : bool;
  duration : Z;
  exitCode : Z;
  stdout : string;
  stderr : string;
  error : option string;
  hasHelpOutput : bool;
  hasVersionOutput : bool
}.
End CommandTestResult.

(** What [validateScenario] resolves to: [{ passed: boolean; error?: string }]. *)
Module Verdict.
Record t := mk { passed : bool; error : option string }.
End Verdict.

(** ** application/ScenarioRunner.ts *)

Module ScenarioRunner.

Import JS.

Definition ExecResult := DockerManager.ExecResult.

(** A method call the runner makes on its [dockerManager]. *)
Inductive Call :=
| ExecuteCommand (containerId : string) (command : list string)
| CreateDirectory (containerId : string) (path : string)
| CreateFile (containerId : string) (path : string) (content : string)
| FileExists (containerId : string) (path : string)
| ReadFile (containerId : string) (path : string).

(** The double quote of the message templates. *)
Definition dquote : string := String "034"%char EmptyString.

Definition push (errors : list string) (msg : string) : list string :=
  (errors ++ [msg])%list.

Section Engine.

(** The world outside the runner: the containers with their file systems,
    the daemon, the clock. *)
Variable World : Type.

(** An awaited call either throws or yields a value, and moves the world on. *)
Definition Async (A : Type) : Type := World -> (Thrown + A) * World.

(** The [dockerManager] the runner is constructed with. Its methods are
    parameters: whatever they answer, the runner does what follows. *)
Record DockerManager := mkManager {
  executeCommand : string -> list string -> Async ExecResult;
  createDirectory : string -> string -> Async unit;
  createFile : string -> string -> string -> Async unit;
  fileExists : string -> string -> Async bool;
  readFile : string -> string -> Async string
}.

Variable dockerManager : DockerManager.

(** [Date.now()], read off the world. *)
Variable clock : World -> Z.

(** The runner's state: the world and the calls made so far on the manager,
    oldest first. *)
Record State := mkState { world : World; calls : list Call }.

(** An [async] computation of the runner. *)
Definition M (A : Type) : Type := State -> (Thrown + A) * State.

Definition ret {A : Type} (a : A) : M A := fun s => (inr a, s).

(** An expression that yields a value or throws, and touches nothing. *)
Definition eval {A : Type} (r : Thrown + A) : M A := fun s => (r, s).

Definition bind {A B : Type} (m : M A) (k : A -> M B) : M B :=
  fun s =>
    match m s with
    | (inl e, s') => (inl e, s')
    | (inr a, s') => k a s'
    end.

(** [try { body } catch (error) { handler }] *)
Definition tryCatch {A : Type} (body : M A) (handler : Thrown -> M A) : M A :=
  fun s =>
    match body s with
    | (inl e, s') => handler e s'
    | (inr a, s') => (inr a, s')
    end.

Notation "x <- m ;; k" := (bind m (fun x => k))
  (at level 100, m at next level, right associativity).
Notation "m ;; k" := (bind m (fun _ => k))
  (at level 100, right associativity).

(** [for (const x of xs) { await body(x) }] *)
Fixpoint forOf {A : Type} (xs : list A) (body : A -> M unit) : M unit :=
  match xs with
  | [] => ret tt
  | x :: xs' => body x ;; forOf xs' body
  end.

(** The same loop when its body pushes onto the local array [errors]. *)
Fixpoint forOfErrors {A : Type} (xs : list A)
    (body : A -> list string -> M (list string)) (errors : list string)
    : M (list string) :=
  match xs with
  | [] => ret errors
  | x :: xs' => errors' <- body x errors ;; forOfErrors xs' body errors'
  end.

(** An awaited method call: it is recorded, then answered by the manager. *)
Definition await {A : Type} (c : Call) (method : Async A) : M A :=
  fun s =>
    let '(r, w') := method (world s) in
    (r, {| world := w'; calls := (calls s ++ [c])%list |}).

Definition dateNow : M Z := fun s => (inr (clock (world s)), s).

(** The optional [onProgress] callback; it runs in the world and may throw. *)
Definition Listener := option (ProgressEvent.t -> Async unit).

Definition notify (onProgress : Listener) (event : ProgressEvent.t) : M unit :=
  match onProgress with
  | Some callback =>
      fun s =>
        let '(r, w') := callback event (world s) in
        (r, {| world := w'; calls := calls s |})
  | None => ret tt
  end.

(** *** setupScenario *)

(** The directory part of [filePath]:
    [filePath.substring(0, filePath.lastIndexOf('/'))]. *)
Definition parentDirOf (filePath : string) : string :=
  substring0 filePath (lastIndexOf filePath "/"%char).

Definition setupScenario (containerId : string) (setup : option TestSetup.t)
    : M unit :=
  match setup with
  | None => ret tt
  | Some setup =>
      (* Create directories *)
      match TestSetup.directories setup with
      | Some directories =>
          forOf directories (fun dir =>
            await (CreateDirectory containerId ("/test/" ++ dir))
                  (createDirectory dockerManager containerId ("/test/" ++ dir)))
      | None => ret tt
      end ;;
      (* Create files *)
      match TestSetup.files setup with
      | Some files =>
          forOf files (fun file =>
            let filePath := "/test/" ++ TestFile.path file in
            let parentDir := parentDirOf filePath in
            (if negb (parentDir =? "/test") then
               await (CreateDirectory containerId parentDir)
                     (createDirectory dockerManager containerId parentDir)
             else ret tt) ;;
            await (CreateFile containerId filePath (TestFile.content file))
                  (createFile dockerManager containerId filePath
                     (TestFile.content file)))
      | None => ret tt
      end ;;
      (* Initialize npm project *)
      match TestSetup.initNpm setup with
      | Some true =>
          let command := ["sh"; "-c"; "cd /test && npm init -y"] in
          await (ExecuteCommand containerId command)
                (executeCommand dockerManager containerId command) ;;
          ret tt
      | _ => ret tt
      end ;;
      (* Install dependencies *)
      match TestSetup.dependencies setup with
      | Some dependencies =>
          if (0 <? List.length dependencies)%nat then
            let deps := join " " dependencies in
            let command := ["sh"; "-c"; "cd /test && npm install " ++ deps] in
            await (ExecuteCommand containerId command)
                  (executeCommand dockerManager containerId command) ;;
            ret tt
          else ret tt
      | None => ret tt
      end
  end.

(** *** validateScenario *)

(** Check exit code *)
Definition checkExitCode (validation : TestValidation.t) (result : ExecResult)
    (errors : list string) : list string :=
  let expectedExitCode := nullish (TestValidation.exitCode validation) 0%Z in
  if negb (DockerManager.exitCode result =? expectedExitCode)%Z then
    push errors ("Expected exit code " ++ numberToString expectedExitCode ++
                 ", got " ++ numberToString (DockerManager.exitCode result))
  else errors.

(** Check stdout patterns *)
Definition checkStdout (validation : TestValidation.t) (result : ExecResult)
    (errors : list string) : list string :=
  match TestValidation.stdout validation with
  | Some patterns =>
      fold_left (fun errors pattern =>
        match pattern with
        | Literal pattern =>
            if negb (includes (DockerManager.stdout result) pattern) then
              push errors ("Stdout missing expected text: " ++ dquote ++
                           pattern ++ dquote)
            else errors
        | Pattern pattern =>
            if negb (RegExp.test pattern (DockerManager.stdout result)) then
              push errors ("Stdout doesn't match pattern: " ++
                           RegExp.toString pattern)
            else errors
        end) patterns errors
  | None => errors
  end.

(** Check stderr patterns *)
Definition checkStderr (validation : TestValidation.t) (result : ExecResult)
    (errors : list string) : list string :=
  match TestValidation.stderr validation with
  | Some patterns =>
      fold_left (fun errors pattern =>
        match pattern with
        | Literal pattern =>
            if negb (includes (DockerManager.stderr result) pattern) then
              push errors ("Stderr missing expected text: " ++ dquote ++
                           pattern ++ dquote)
            else errors
        | Pattern pattern =>
            if negb (RegExp.test pattern (DockerManager.stderr result)) then
              push errors ("Stderr doesn't match pattern: " ++
                           RegExp.toString pattern)
            else errors
        end) patterns errors
  | None => errors
  end.

(** Check files exist *)
Definition checkFilesExist (containerId : string)
    (validation : TestValidation.t) (errors : list string) : M (list string) :=
  match TestValidation.filesExist validation with
  | Some paths =>
      forOfErrors paths (fun filePath errors =>
        exists_ <- await (FileExists containerId ("/test/" ++ filePath))
                     (fileExists dockerManager containerId ("/test/" ++ filePath)) ;;
        if negb exists_ then
          ret (push errors ("Expected file not found: " ++ filePath))
        else ret errors) errors
  | None => ret errors
  end.

(** Check files don't exist *)
Definition checkFilesNotExist (containerId : string)
    (validation : TestValidation.t) (errors : list string) : M (list string) :=
  match TestValidation.filesNotExist validation with
  | Some paths =>
      forOfErrors paths (fun filePath errors =>
        exists_ <- await (FileExists containerId ("/test/" ++ filePath))
                     (fileExists dockerManager containerId ("/test/" ++ filePath)) ;;
        if exists_ then
          ret (push errors ("File should not exist: " ++ filePath))
        else ret errors) errors
  | None => ret errors
  end.

(** The three checks on the content of one file, once it has been read. *)
Definition checkContent (fileCheck : FileContentValidation.t) (content : string)
    (errors : list string) : list string :=
  let path := FileContentValidation.path fileCheck in
  (* Check exact match *)
  let errors :=
    match FileContentValidation.equals fileCheck with
    | Some equals =>
        if negb (trim content =? trim equals) then
          push errors ("File " ++ path ++ " content doesn't match expected")
        else errors
    | None => errors
    end in
  (* Check contains patterns *)
  let errors :=
    match FileContentValidation.contains fileCheck with
    | Some patterns =>
        fold_left (fun errors pattern =>
          match pattern with
          | Literal pattern =>
              if negb (includes content pattern) then
                push errors ("File " ++ path ++ " missing expected text: " ++
                             dquote ++ pattern ++ dquote)
              else errors
          | Pattern pattern =>
              if negb (RegExp.test pattern content) then
                push errors ("File " ++ path ++ " doesn't match pattern: " ++
                             RegExp.toString pattern)
              else errors
          end) patterns errors
    | None => errors
    end in
  (* Check not contains patterns *)
  match FileContentValidation.notContains fileCheck with
  | Some patterns =>
      fold_left (fun errors pattern =>
        match pattern with
        | Literal pattern =>
            if includes content pattern then
              push errors ("File " ++ path ++ " contains unexpected text: " ++
                           dquote ++ pattern ++ dquote)
            else errors
        | Pattern pattern =>
            if RegExp.test pattern content then
              push errors ("File " ++ path ++ " matches unexpected pattern: " ++
                           RegExp.toString pattern)
            else errors
        end) patterns errors
  | None => errors
  end.

(** Check file contents. Inside the [try] only [readFile] can throw, and it
    is the first statement: when the handler runs, [errors] is what it was
    when the iteration began. The handler reads the message of what it
    caught, and throws where there is none to read. *)
Definition checkFileContents (containerId : string)
    (validation : TestValidation.t) (errors : list string) : M (list string) :=
  match TestValidation.fileContents validation with
  | Some checks =>
      forOfErrors checks (fun fileCheck errors =>
        let path := FileContentValidation.path fileCheck in
        tryCatch
          (content <- await (ReadFile containerId ("/test/" ++ path))
                        (readFile dockerManager containerId ("/test/" ++ path)) ;;
           ret (checkContent fileCheck content errors))
          (fun error =>
             message <- eval (messageOf error) ;;
             ret (push errors ("Failed to read file " ++ path ++ ": " ++
                               message)))) errors
  | None => ret errors
  end.

(** The array [errors] when [validateScenario] reaches its last statement. *)
Definition collectErrors (containerId : string) (scenario : TestScenario.t)
    (result : ExecResult) : M (list string) :=
  let validation := TestScenario.validate scenario in
  let errors := [] in
  let errors := checkExitCode validation result errors in
  let errors := checkStdout validation result errors in
  let errors := checkStderr validation result errors in
  errors <- checkFilesExist containerId validation errors ;;
  errors <- checkFilesNotExist containerId validation errors ;;
  errors <- checkFileContents containerId validation errors ;;
  ret errors.

(** The [return] statements of [validateScenario]. *)
Definition verdictOf (errors : list string) : Verdict.t :=
  if (0 <? List.length errors)%nat then
    {| Verdict.passed := false; Verdict.error := Some (join "; " errors) |}
  else {| Verdict.passed := true; Verdict.error := None |}.

Definition validateScenario (containerId : string) (scenario : TestScenario.t)
    (result : ExecResult) : M Verdict.t :=
  errors <- collectErrors containerId scenario result ;;
  ret (verdictOf errors).

(** *** runScenario *)

(** The result of the [catch] block, [message] being what
    [(error as Error).message] gave. *)
Definition failedResult (command : CLICommand.t) (nodeVersion : string)
    (duration : Z) (message : string) : CommandTestResult.t :=
  {| CommandTestResult.command := command;
     CommandTestResult.nodeVersion := nodeVersion;
     CommandTestResult.passed := false;
     CommandTestResult.duration := duration;
     CommandTestResult.exitCode := 1;
     CommandTestResult.stdout := EmptyString;
     CommandTestResult.stderr := message;
     CommandTestResult.error := Some message;
     CommandTestResult.hasHelpOutput := false;
     CommandTestResult.hasVersionOutput := false |}.

(** The two events [runScenario] reports to its listener. *)
Definition settingUpEvent (commandName : string) (scenario : TestScenario.t)
    : ProgressEvent.t :=
  {| ProgressEvent.stage := TestStage.TESTING_COMMAND;
     ProgressEvent.message :=
       "Setting up scenario: " ++ TestScenario.name scenario;
     ProgressEvent.progress := None;
     ProgressEvent.currentCommand := Some commandName |}.

Definition runningEvent (commandName : string) (scenario : TestScenario.t)
    : ProgressEvent.t :=
  {| ProgressEvent.stage := TestStage.TESTING_COMMAND;
     ProgressEvent.message :=
       "Running scenario: " ++ TestScenario.name scenario;
     ProgressEvent.progress := None;
     ProgressEvent.currentCommand := Some commandName |}.

(** Setup phase *)
Definition setupPhase (containerId commandName : string)
    (scenario : TestScenario.t) (onProgress : Listener) : M unit :=
  match TestScenario.setup scenario with
  | Some _ =>
      notify onProgress (settingUpEvent commandName scenario) ;;
      setupScenario containerId (TestScenario.setup scenario)
  | None => ret tt
  end.

(** [[scenario.command, ...(scenario.args || [])]] *)
Definition fullCommandOf (scenario : TestScenario.t) : list string :=
  TestScenario.command scenario ::
  match TestScenario.args scenario with
  | Some args => args
  | None => []
  end.

(** Execute command *)
Definition invokePhase (containerId commandName : string)
    (scenario : TestScenario.t) (onProgress : Listener) : M ExecResult :=
  notify onProgress (runningEvent commandName scenario) ;;
  let fullCommand := fullCommandOf scenario in
  await (ExecuteCommand containerId fullCommand)
        (executeCommand dockerManager containerId fullCommand).

(** The [try] block of [runScenario]. *)
Definition runScenarioTry (startTime : Z) (containerId commandName : string)
    (scenario : TestScenario.t) (nodeVersion : string) (command : CLICommand.t)
    (onProgress : Listener) : M CommandTestResult.t :=
  setupPhase containerId commandName scenario onProgress ;;
  result <- invokePhase containerId commandName scenario onProgress ;;
  (* Validate results *)
  validationResult <- validateScenario containerId scenario result ;;
  now <- dateNow ;;
  let duration := (now - startTime)%Z in
  ret {| CommandTestResult.command := command;
         CommandTestResult.nodeVersion := nodeVersion;
         CommandTestResult.passed := Verdict.passed validationResult;
         CommandTestResult.duration := duration;
         CommandTestResult.exitCode := DockerManager.exitCode result;
         CommandTestResult.stdout := DockerManager.stdout result;
         CommandTestResult.stderr := DockerManager.stderr result;
         CommandTestResult.error := Verdict.error validationResult;
         CommandTestResult.hasHelpOutput := false;
         CommandTestResult.hasVersionOutput := false |}.

Definition runScenario (containerId _packageName commandName : string)
    (scenario : TestScenario.t) (nodeVersion : string) (command : CLICommand.t)
    (onProgress : Listener) : M CommandTestResult.t :=
  startTime <- dateNow ;;
  tryCatch
    (runScenarioTry startTime containerId commandName scenario nodeVersion
       command onProgress)
    (fun error =>
       now <- dateNow ;;
       let duration := (now - startTime)%Z in
       message <- eval (messageOf error) ;;
       ret (failedResult command nodeVersion duration message)).

(** *** The provisioner's steps, in the specification's words *)

Definition orEmpty {A : Type} (field : option (list A)) : list A :=
  match field with
  | Some xs => xs
  | None => []
  end.

(** 1. Create every declared directory, in the order declared. *)
Definition directorySteps (containerId : string) (setup : TestSetup.t)
    : list Call :=
  map (fun dir => CreateDirectory containerId ("/test/" ++ dir))
      (orEmpty (TestSetup.directories setup)).

(** 2. For one declared file: its parent directory first, unless that is the
    working root, then the file with its content. *)
Definition fileSteps (containerId : string) (file : TestFile.t) : list Call :=
  let filePath := "/test/" ++ TestFile.path file in
  ((if parentDirOf filePath =? "/test" then []
    else [CreateDirectory containerId (parentDirOf filePath)]) ++
   [CreateFile containerId filePath (TestFile.content file)])%list.

Definition initCommand : list string := ["sh"; "-c"; "cd /test && npm init -y"].

(** 3. Project initialization, if requested. *)
Definition initSteps (containerId : string) (setup : TestSetup.t) : list Call :=
  match TestSetup.initNpm setup with
  | Some true => [ExecuteCommand containerId initCommand]
  | _ => []
  end.

Definition installCommand (dependencies : list string) : list string :=
  ["sh"; "-c"; "cd /test && npm install " ++ join " " dependencies].

(** 4. One invocation that installs all the dependencies, if there are any. *)
Definition installSteps (containerId : string) (setup : TestSetup.t)
    : list Call :=
  match TestSetup.dependencies setup with
  | Some (d :: ds) => [ExecuteCommand containerId (installCommand (d :: ds))]
  | _ => []
  end.

Definition provisioningPlan (containerId : string) (setup : TestSetup.t)
    : list Call :=
  (directorySteps containerId setup ++
   flat_map (fileSteps containerId) (orEmpty (TestSetup.files setup)) ++
   initSteps containerId setup ++
   installSteps containerId setup)%list.

(** Performing one step: the manager's method of the call is applied to the
    world; what it resolves to is dropped. *)
Definition perform (step : Call) : Async unit :=
  fun w =>
    match step with
    | ExecuteCommand containerId command =>
        match executeCommand dockerManager containerId command w with
        | (inl error, w') => (inl error, w')
        | (inr _, w') => (inr tt, w')
        end
    | CreateDirectory containerId path =>
        createDirectory dockerManager containerId path w
    | CreateFile containerId path content =>
        createFile dockerManager containerId path content w
    | FileExists containerId path =>
        match fileExists dockerManager containerId path w with
        | (inl error, w') => (inl error, w')
        | (inr _, w') => (inr tt, w')
        end
    | ReadFile containerId path =>
        match readFile dockerManager containerId path w with
        | (inl error, w') => (inl error, w')
        | (inr _, w') => (inr tt, w')
        end
    end.

(** Performing the steps of [plan] one after the other from the state [s]:
    each step is performed in the world the step before it left and is
    recorded; the first step that throws ends it, with what it threw. *)
Fixpoint performAll (plan : list Call) (s : State) : (Thrown + unit) * State :=
  match plan with
  | [] => (inr tt, s)
  | step :: rest =>
      match perform step (world s) with
      | (inl error, w') =>
          (inl error, {| world := w'; calls := (calls s ++ [step])%list |})
      | (inr _, w') =>
          performAll rest {| world := w'; calls := (calls s ++ [step])%list |}
      end
  end.

(** A computation keeps to [plan] when the calls it makes are [plan] if it
    returns, and the steps of [plan] up to the one that threw if it throws. *)
Definition keepsTo {A : Type} (plan : list Call) (m : M A) : Prop :=
  forall s,
    match m s with
    | (inr _, s') => calls s' = (calls s ++ plan)%list
    | (inl _, s') =>
        exists n, (n < List.length plan)%nat /\
                  calls s' = (calls s ++ firstn (S n) plan)%list
    end.

(** *** The validator's categories, in the specification's words *)

(** A matcher holds of a text: containment for a literal, a match for a
    pattern. *)
Definition matches (text : string) (m : Matcher) : bool :=
  match m with
  | Literal t => includes text t
  | Pattern re => RegExp.test re text
  end.

Definition unmatched (text : string) (matchers : list Matcher) : list Matcher :=
  filter (fun m => negb (matches text m)) matchers.

Definition matched (text : string) (matchers : list Matcher) : list Matcher :=
  filter (matches text) matchers.

Definition expectedExitCodeOf (validation : TestValidation.t) : Z :=
  nullish (TestValidation.exitCode validation) 0%Z.

Definition exitCodeMessage (expected actual : Z) : string :=
  "Expected exit code " ++ numberToString expected ++ ", got " ++
  numberToString actual.

(** A message of the exit-code category: it opens with these words, and the
    messages of the other categories do not. *)
Definition isExitCodeMessage (msg : string) : bool :=
  String.prefix "Expected exit code " msg.

Definition exitCodeMessages (validation : TestValidation.t)
    (result : ExecResult) : list string :=
  if (DockerManager.exitCode result =? expectedExitCodeOf validation)%Z then []
  else [exitCodeMessage (expectedExitCodeOf validation)
          (DockerManager.exitCode result)].

Definition stdoutMessage (m : Matcher) : string :=
  match m with
  | Literal t => "Stdout missing expected text: " ++ dquote ++ t ++ dquote
  | Pattern re => "Stdout doesn't match pattern: " ++ RegExp.toString re
  end.

Definition stderrMessage (m : Matcher) : string :=
  match m with
  | Literal t => "Stderr missing expected text: " ++ dquote ++ t ++ dquote
  | Pattern re => "Stderr doesn't match pattern: " ++ RegExp.toString re
  end.

Definition missingTextMessage (path : string) (m : Matcher) : string :=
  match m with
  | Literal t =>
      "File " ++ path ++ " missing expected text: " ++ dquote ++ t ++ dquote
  | Pattern re =>
      "File " ++ path ++ " doesn't match pattern: " ++ RegExp.toString re
  end.

Definition unexpectedTextMessage (path : string) (m : Matcher) : string :=
  match m with
  | Literal t =>
      "File " ++ path ++ " contains unexpected text: " ++ dquote ++ t ++ dquote
  | Pattern re =>
      "File " ++ path ++ " matches unexpected pattern: " ++ RegExp.toString re
  end.

(** [equals]: exact match after trimming both sides. *)
Definition equalsMessages (fileCheck : FileContentValidation.t)
    (content : string) : list string :=
  match FileContentValidation.equals fileCheck with
  | Some expected =>
      if trim content =? trim expected then []
      else ["File " ++ FileContentValidation.path fileCheck ++
            " content doesn't match expected"]
  | None => []
  end.

(** [contains]: every matcher that does not hold of the content as read. *)
Definition containsMessages (fileCheck : FileContentValidation.t)
    (content : string) : list string :=
  map (missingTextMessage (FileContentValidation.path fileCheck))
      (unmatched content (orEmpty (FileContentValidation.contains fileCheck))).

(** [notContains]: every matcher that holds of the content as read. *)
Definition notContainsMessages (fileCheck : FileContentValidation.t)
    (content : string) : list string :=
  map (unexpectedTextMessage (FileContentValidation.path fileCheck))
      (matched content (orEmpty (FileContentValidation.notContains fileCheck))).

(** The queries of the validator neither throw nor change the world [w]:
    [fileExists] answers, [readFile] answers or throws an [Error], and [w]
    stays. *)
Definition quiescent (containerId : string) (w : World) : Prop :=
  (forall path, exists b,
      fileExists dockerManager containerId path w = (inr b, w)) /\
  (forall path, snd (readFile dockerManager containerId path w) = w) /\
  (forall path error,
      fst (readFile dockerManager containerId path w) = inl error ->
      isNullish error = false).

(** Whether [path], relative to the working root, exists in [w]. *)
Definition existsIn (containerId : string) (w : World) (path : string) : bool :=
  match fileExists dockerManager containerId ("/test/" ++ path) w with
  | (inr b, _) => b
  | (inl _, _) => false
  end.

Definition missingFiles (containerId : string) (w : World)
    (paths : list string) : list string :=
  filter (fun path => negb (existsIn containerId w path)) paths.

Definition presentFiles (containerId : string) (w : World)
    (paths : list string) : list string :=
  filter (existsIn containerId w) paths.

(** The messages of one [fileContents] entry in [w]; a read that gives
    neither a content nor an [Error] gives no message. *)
Definition fileContentMessages (containerId : string) (w : World)
    (fileCheck : FileContentValidation.t) : list string :=
  let path := FileContentValidation.path fileCheck in
  match fst (readFile dockerManager containerId ("/test/" ++ path) w) with
  | inr content =>
      (equalsMessages fileCheck content ++
       containsMessages fileCheck content ++
       notContainsMessages fileCheck content)%list
  | inl (Exception error) =>
      ["Failed to read file " ++ path ++ ": " ++ message error]
  | inl _ => []
  end.

(** All the messages of a validation in [w], category after category. *)
Definition violationMessages (containerId : string) (w : World)
    (validation : TestValidation.t) (result : ExecResult) : list string :=
  (exitCodeMessages validation result ++
   map stdoutMessage
     (unmatched (DockerManager.stdout result)
        (orEmpty (TestValidation.stdout validation))) ++
   map stderrMessage
     (unmatched (DockerManager.stderr result)
        (orEmpty (TestValidation.stderr validation))) ++
   map (fun path => ("Expected file not found: " ++ path)%string)
     (missingFiles containerId w (orEmpty (TestValidation.filesExist validation))) ++
   map (fun path => ("File should not exist: " ++ path)%string)
     (presentFiles containerId w
        (orEmpty (TestValidation.filesNotExist validation))) ++
   flat_map (fileContentMessages containerId w)
     (orEmpty (TestValidation.fileContents validation)))%list.

(** The calls a validation makes. *)
Definition validationCalls (containerId : string)
    (validation : TestValidation.t) : list Call :=
  (map (fun path => FileExists containerId ("/test/" ++ path)%string)
     (orEmpty (TestValidation.filesExist validation)) ++
   map (fun path => FileExists containerId ("/test/" ++ path)%string)
     (orEmpty (TestValidation.filesNotExist validation)) ++
   map (fun fileCheck =>
          ReadFile containerId ("/test/" ++ FileContentValidation.path fileCheck)%string)
     (orEmpty (TestValidation.fileContents validation)))%list.

(** *** A step of [runScenario] throws *)

(** From state [s], the provisioning, the invocation or the validation of
    the scenario throws [e] and leaves state [s']. *)
Inductive stepThrew (containerId commandName : string)
    (scenario : TestScenario.t) (onProgress : Listener)
    (s : State) (e : Thrown) (s' : State) : Prop :=
| provisioningThrew :
    setupPhase containerId commandName scenario onProgress s = (inl e, s') ->
    stepThrew containerId commandName scenario onProgress s e s'
| invocationThrew s1 :
    setupPhase containerId commandName scenario onProgress s = (inr tt, s1) ->
    invokePhase containerId commandName scenario onProgress s1 = (inl e, s') ->
    stepThrew containerId commandName scenario onProgress s e s'
| validationThrew s1 result s2 :
    setupPhase containerId commandName scenario onProgress s = (inr tt, s1) ->
    invokePhase containerId commandName scenario onProgress s1 = (inr result, s2) ->
    validateScenario containerId scenario result s2 = (inl e, s') ->
    stepThrew containerId commandName scenario onProgress s e s'.

End Engine.

Arguments mkState {World}.
Arguments world {World}.
Arguments calls {World}.
Arguments ret {World A}.
Arguments eval {World A}.
Arguments bind {World A B}.
Arguments tryCatch {World A}.
Arguments forOf {World A}.
Arguments forOfErrors {World A}.
Arguments await {World A}.
Arguments keepsTo {World A}.
Arguments notify {World}.
Arguments orEmpty {A}.

End ScenarioRunner.

(** ** A container in memory

    A small manager to run the engine on: files are kept in an association
    list, [echo] prints its arguments, [false] exits with 1, any other command
    exits with 0 and prints nothing; the daemon answers [answers] more
    commands and then loses the connection. Its queries leave the world as
    it is. *)

Module InMemory.

Import JS.

Record World := mkWorld {
  files : list (string * string);
  answers : nat;
  time : Z
}.

Fixpoint lookup (path : string) (fs : list (string * string)) : option string :=
  match fs with
  | [] => None
  | (p, c) :: fs' => if p =? path then Some c else lookup path fs'
  end.

Definition runCommand (command : list string) : DockerManager.ExecResult :=
  match command with
  | "echo" :: args =>
      {| DockerManager.exitCode := 0; DockerManager.stdout := join " " args;
         DockerManager.stderr := EmptyString |}
  | ["false"] =>
      {| DockerManager.exitCode := 1; DockerManager.stdout := EmptyString;
         DockerManager.stderr := EmptyString |}
  | _ =>
      {| DockerManager.exitCode := 0; DockerManager.stdout := EmptyString;
         DockerManager.stderr := EmptyString |}
  end.

Definition executeCommand (containerId : string) (command : list string)
    : ScenarioRunner.Async World DockerManager.ExecResult :=
  fun w =>
    match answers w with
    | O => (inl (Exception (mkError "connection lost")), w)
    | S n =>
        (inr (runCommand command),
         {| files := files w; answers := n; time := time w + 1 |})
    end.

Definition createDirectory (containerId path : string)
    : ScenarioRunner.Async World unit :=
  fun w => (inr tt, w).

Definition createFile (containerId path content : string)
    : ScenarioRunner.Async World unit :=
  fun w =>
    (inr tt,
     {| files := (path, content) :: files w; answers := answers w;
        time := time w |}).

Definition fileExists (containerId path : string)
    : ScenarioRunner.Async World bool :=
  fun w =>
    (inr (match lookup path (files w) with Some _ => true | None => false end),
     w).

Definition readFile (containerId path : string)
    : ScenarioRunner.Async World string :=
  fun w =>
    match lookup path (files w) with
    | Some content => (inr content, w)
    | None =>
        (inl (Exception
                (mkError ("cat: " ++ path ++ ": No such file or directory"))),
         w)
    end.

Definition manager : ScenarioRunner.DockerManager World :=
  {| ScenarioRunner.executeCommand := executeCommand;
     ScenarioRunner.createDirectory := createDirectory;
     ScenarioRunner.createFile := createFile;
     ScenarioRunner.fileExists := fileExists;
     ScenarioRunner.readFile := readFile |}.

(** A fresh container whose daemon answers [n] commands. *)
Definition fresh (n : nat) : ScenarioRunner.State World :=
  ScenarioRunner.mkState {| files := []; answers := n; time := 0 |} [].

(** A container that holds the files [fs]. *)
Definition holding (fs : list (string * string)) : ScenarioRunner.State World :=
  ScenarioRunner.mkState {| files := fs; answers := 8; time := 0 |} [].

Definition noValidation : TestValidation.t :=
  {| TestValidation.exitCode := None; TestValidation.stdout := None;
     TestValidation.stderr := None; TestValidation.filesExist := None;
     TestValidation.filesNotExist := None;
     TestValidation.fileContents := None |}.

Definition noSetup : TestSetup.t :=
  {| TestSetup.files := None; TestSetup.directories := None;
     TestSetup.dependencies := None; TestSetup.initNpm := None |}.

Definition scenarioOf (setup : option TestSetup.t) (command : string)
    (args : option (list string)) (validate : TestValidation.t)
    : TestScenario.t :=
  {| TestScenario.name := "scenario"; TestScenario.description := None;
     TestScenario.setup := setup; TestScenario.command := command;
     TestScenario.args := args; TestScenario.validate := validate |}.

Definition cli : CLICommand.t :=
  {| CLICommand.name := "tool"; CLICommand.path := "./cli.js";
     CLICommand.type := CommandType.PRIMARY |}.

(** [runScenario] on this manager for the command [cli] under Node 20,
    without a progress listener. *)
Definition run (scenario : TestScenario.t) (s : ScenarioRunner.State World)
    : (Thrown + CommandTestResult.t) * ScenarioRunner.State World :=
  ScenarioRunner.runScenario World manager time "box" "pkg" "tool" scenario
    "20" cli None s.

(** The byte-for-byte decoding of a buffer, which is [toString] on ASCII. *)
Definition asciiToString (b : DockerManager.Buffer) : string :=
  string_of_list_byte b.

(** A frame: the 8-byte header with the channel tag, then the payload. *)
Definition frame (tag : byte) (text : string) : DockerManager.Buffer :=
  ((tag :: [x00; x00; x00; x00; x00; x00; x00]) ++ list_byte_of_string text)%list.

(** A daemon whose every command streams [chunks] and reports [code]. *)
Definition streaming (chunks : list DockerManager.Buffer) (code : option Z)
    : DockerManager.Docker :=
  fun _ _ =>
    {| DockerManager.exec_create := inr tt;
       DockerManager.exec_start := inr tt;
       DockerManager.stream_data := chunks;
       DockerManager.stream_close := inr tt;
       DockerManager.exec_inspect := inr {| DockerManager.ExitCode := code |} |}.

(** A daemon whose stream emits ['error'] with no error at all: the promise
    of [executeCommand] is rejected with [undefined]. *)
Definition broken : DockerManager.Docker :=
  fun _ _ =>
    {| DockerManager.exec_create := inr tt;
       DockerManager.exec_start := inr tt;
       DockerManager.stream_data := [];
       DockerManager.stream_close := inl ThrownUndefined;
       DockerManager.exec_inspect := inr {| DockerManager.ExitCode := None |} |}.

(** The manager in memory on that daemon: its [executeCommand] is
    [DockerManager.executeCommand] on [broken]. *)
Definition brokenManager : ScenarioRunner.DockerManager World :=
  {| ScenarioRunner.executeCommand := fun containerId command w =>
       (DockerManager.executeCommand asciiToString broken containerId command,
        w);
     ScenarioRunner.createDirectory := createDirectory;
     ScenarioRunner.createFile := createFile;
     ScenarioRunner.fileExists := fileExists;
     ScenarioRunner.readFile := readFile |}.

(** *** Scenarios to run *)

Definition exampleChunks : list DockerManager.Buffer :=
  [frame x01 "  out1"; frame x02 "err"; frame x03 "zzz"; [x01; x00];
   frame x01 "out2 "].

(** [{command: "echo", args: ["hi"], validate: {exitCode: 0, stdout: ["hi"]}}] *)
Definition echoScenario : TestScenario.t :=
  scenarioOf None "echo" (Some ["hi"])
    {| TestValidation.exitCode := Some 0%Z;
       TestValidation.stdout := Some [Literal "hi"];
       TestValidation.stderr := None; TestValidation.filesExist := None;
       TestValidation.filesNotExist := None;
       TestValidation.fileContents := None |}.

(** [{command: "false", validate: {exitCode: 0, filesExist: ["out.txt"]}}] *)
Definition falseScenario : TestScenario.t :=
  scenarioOf None "false" None
    {| TestValidation.exitCode := Some 0%Z; TestValidation.stdout := None;
       TestValidation.stderr := None;
       TestValidation.filesExist := Some ["out.txt"];
       TestValidation.filesNotExist := None;
       TestValidation.fileContents := None |}.

(** Three assertions that the run of [false] violates at once. *)
Definition threeAssertions : TestScenario.t :=
  scenarioOf None "false" None
    {| TestValidation.exitCode := Some 0%Z;
       TestValidation.stdout := Some [Literal "done"];
       TestValidation.stderr := None;
       TestValidation.filesExist := Some ["out.txt"];
       TestValidation.filesNotExist := None;
       TestValidation.fileContents := None |}.

Definition shellSetup : TestSetup.t :=
  {| TestSetup.files :=
       Some [{| TestFile.path := "src/a.txt"; TestFile.content := "x" |};
             {| TestFile.path := "b.txt"; TestFile.content := "y" |}];
     TestSetup.directories := Some ["out"];
     TestSetup.dependencies := Some ["left-pad"; "chalk"];
     TestSetup.initNpm := Some true |}.

(** A scenario whose command is the shell line the provisioner itself runs
    to initialize the project. *)
Definition shellScenario : TestScenario.t :=
  scenarioOf (Some shellSetup) "sh" (Some ["-c"; "cd /test && npm init -y"])
    noValidation.

End InMemory.

(** ** More of JavaScript's strings and arrays *)

Module JSString.

Import JS.

(** [s.startsWith(pat)] *)
Definition startsWith (s pat : string) : bool := String.prefix pat s.

(** [s.charAt(0)]: the first character, or the empty string. *)
Definition charAt0 (s : string) : string :=
  match s with
  | EmptyString => EmptyString
  | String c _ => String c EmptyString
  end.

(** [s.split(sep)] for a one-character separator: never empty, and with an
    empty part wherever two separators meet or one stands at an end. *)
Fixpoint split (sep : ascii) (s : string) : list string :=
  match s with
  | EmptyString => [EmptyString]
  | String c s' =>
      if Ascii.eqb c sep then EmptyString :: split sep s'
      else
        match split sep s' with
        | part :: parts => String c part :: parts
        | [] => [String c EmptyString]
        end
  end.

(** [arr.includes(x)] on an array of strings. *)
Definition arrayIncludes (arr : list string) (x : string) : bool :=
  existsb (fun y => y =? x) arr.

(** The lower-case form of a code unit below 256: [A]-[Z] and the capital
    letters of Latin-1 (192 to 222 but the multiplication sign, 215) move
    up by 32. *)
Definition lowerChar (c : ascii) : ascii :=
  let n := nat_of_ascii c in
  if ((65 <=? n) && (n <=? 90) ||
      (192 <=? n) && (n <=? 222) && negb (n =? 215))%nat%bool
  then ascii_of_nat (n + 32)
  else c.

(** [s.toLowerCase()] *)
Fixpoint toLowerCase (s : string) : string :=
  match s with
  | EmptyString => EmptyString
  | String c s' => String (lowerChar c) (toLowerCase s')
  end.

End JSString.

(** ** Regular expressions

    The part of the language of JavaScript's patterns that the code uses:
    characters, the class [\d], sequence, alternative and repetition, from
    which [?] and [+] derive. [test] searches the text for a match, by
    derivatives. *)

Module Regex.

Inductive t :=
| Never
| Empty
| Char (c : ascii)
| Digit
| Seq (r1 r2 : t)
| Alt (r1 r2 : t)
| Star (r : t).

(** [r?] and [r+] *)
Definition Opt (r : t) : t := Alt Empty r.
Definition Plus (r : t) : t := Seq r (Star r).

(** [\d]: the digits [0] to [9]. *)
Definition isDigit (c : ascii) : bool :=
  let n := nat_of_ascii c in ((48 <=? n) && (n <=? 57))%nat%bool.

Fixpoint nullable (r : t) : bool :=
  match r with
  | Never => false
  | Empty => true
  | Char _ => false
  | Digit => false
  | Seq r1 r2 => (nullable r1 && nullable r2)%bool
  | Alt r1 r2 => (nullable r1 || nullable r2)%bool
  | Star _ => true
  end.

(** What is left of [r] to match once [c] has been read. *)
Fixpoint deriv (c : ascii) (r : t) : t :=
  match r with
  | Never => Never
  | Empty => Never
  | Char d => if Ascii.eqb c d then Empty else Never
  | Digit => if isDigit c then Empty else Never
  | Seq r1 r2 =>
      if nullable r1 then Alt (Seq (deriv c r1) r2) (deriv c r2)
      else Seq (deriv c r1) r2
  | Alt r1 r2 => Alt (deriv c r1) (deriv c r2)
  | Star r1 => Seq (deriv c r1) (Star r1)
  end.

(** Some prefix of [s] matches [r]. *)
Fixpoint matchesPrefix (r : t) (s : string) : bool :=
  (nullable r ||
   match s with
   | EmptyString => false
   | String c s' => matchesPrefix (deriv c r) s'
   end)%bool.

(** [r.test(s)]: [r] matches somewhere in [s]. *)
Fixpoint test (r : t) (s : string) : bool :=
  (matchesPrefix r s ||
   match s with
   | EmptyString => false
   | String _ s' => test r s'
   end)%bool.

(** The texts [r] matches. *)
Inductive lang : t -> string -> Prop :=
| lang_Empty : lang Empty EmptyString
| lang_Char c : lang (Char c) (String c EmptyString)
| lang_Digit c : isDigit c = true -> lang Digit (String c EmptyString)
| lang_Seq r1 r2 s1 s2 : lang r1 s1 -> lang r2 s2 -> lang (Seq r1 r2) (s1 ++ s2)
| lang_Alt_l r1 r2 s : lang r1 s -> lang (Alt r1 r2) s
| lang_Alt_r r1 r2 s : lang r2 s -> lang (Alt r1 r2) s
| lang_Star_nil r : lang (Star r) EmptyString
| lang_Star_cons r s1 s2 :
    lang r s1 -> lang (Star r) s2 -> lang (Star r) (s1 ++ s2).

(** A text of digits only. *)
Fixpoint allDigits (s : string) : bool :=
  match s with
  | EmptyString => true
  | String c s' => (isDigit c && allDigits s')%bool
  end.

(** One digit or more. *)
Definition isNumber (s : string) : bool :=
  match s with
  | EmptyString => false
  | String _ _ => allDigits s
  end.

End Regex.

(** ** application/PackageAnalyzer.ts *)

Module CLIExample.
Record t := mk { command : string; description : string }.
End CLIExample.

Module PackageAnalyzer.

Import JS JSString.

(** A value as [JSON.parse] yields it. Of a number the code asks only
    whether it is zero. *)
#[warnings="-register-all"] Inductive Json :=
| JNull
| JBool (b : bool)
| JNumber (n : Z)
| JString (s : string)
| JArray (items : list Json)
| JObject (members : list (string * Json)).

(** [!!v] *)
Definition truthy (v : Json) : bool :=
  match v with
  | JNull => false
  | JBool b => b
  | JNumber n => negb (n =? 0)%Z
  | JString s => negb (s =? EmptyString)
  | JArray _ => true
  | JObject _ => true
  end.

Fixpoint lookup (key : string) (members : list (string * Json)) : option Json :=
  match members with
  | [] => None
  | (k, v) :: members' => if k =? key then Some v else lookup key members'
  end.

(** The [TypeError] of reading a property of [null]. *)
Definition nullTypeError (key : string) : Error :=
  mkError ("Cannot read properties of null (reading '" ++ key ++ "')").

(** [v.key] for a key no prototype defines: a member of an object,
    [undefined] ([None]) on any other value, a [TypeError] on [null]. *)
Definition getMember (v : Json) (key : string) : Error + option Json :=
  match v with
  | JNull => inl (nullTypeError key)
  | JObject members => inr (lookup key members)
  | _ => inr None
  end.

(** [typeof v.key === 'string'] *)
Definition hasStringMember (v : Json) (key : string) : Error + bool :=
  match getMember v key with
  | inl e => inl e
  | inr (Some (JString _)) => inr true
  | inr _ => inr false
  end.

(** [v.key as string], where the filter has found a string. *)
Definition stringMember (v : Json) (key : string) : string :=
  match getMember v key with
  | inr (Some (JString s)) => s
  | _ => EmptyString
  end.

(** The callback of [examples.filter]:
    [typeof ex.command === 'string' && typeof ex.description === 'string']. *)
Definition isExample (ex : Json) : Error + bool :=
  match hasStringMember ex "command" with
  | inl e => inl e
  | inr false => inr false
  | inr true => hasStringMember ex "description"
  end.

(** [arr.filter(f)] when [f] may throw: the first throw ends it. *)
Fixpoint filterThrowing {A : Type} (f : A -> Error + bool) (xs : list A)
    : Error + list A :=
  match xs with
  | [] => inr []
  | x :: xs' =>
      match f x with
      | inl e => inl e
      | inr keep =>
          match filterThrowing f xs' with
          | inl e => inl e
          | inr kept => inr (if keep then x :: kept else kept)
          end
      end
  end.

(** Extract examples from the [npt.examples] field; [None] is [undefined]. *)
Definition extractExamples (packageJson : list (string * Json))
    : Error + option (list CLIExample.t) :=
  match lookup "npt" packageJson with
  | None => inr None
  | Some npt =>
      if negb (truthy npt) then inr None
      else
        match getMember npt "examples" with
        | inl e => inl e
        | inr None => inr None
        | inr (Some examples) =>
            if negb (truthy examples) then inr None
            else
              match examples with
              | JArray items =>
                  match filterThrowing isExample items with
                  | inl e => inl e
                  | inr kept =>
                      inr (Some (map (fun ex =>
                        {| CLIExample.command := stringMember ex "command";
                           CLIExample.description :=
                             stringMember ex "description" |}) kept))
                  end
              | _ => inr None
              end
        end
  end.

(** Determine command type (primary, alias, utility) *)
Definition determineCommandType (commandName packageName : string)
    (isFirst : bool) : CommandType.t :=
  (* If command name matches package name, it's primary *)
  if commandName =? packageName then CommandType.PRIMARY
  (* If it's a shortened version of package name, it's an alias *)
  else if (includes packageName commandName ||
           includes commandName packageName)%bool then
    (if isFirst then CommandType.PRIMARY else CommandType.ALIAS)
  else
    (* Check if command name is an abbreviation *)
    let packageParts := split "-"%char packageName in
    let initials := join EmptyString (map charAt0 packageParts) in
    let isAbbreviation :=
      (startsWith commandName initials ||
       existsb (fun part => startsWith commandName (substring0 part 3))
         packageParts)%bool in
    if (isAbbreviation && negb isFirst)%bool then CommandType.ALIAS
    (* First command is usually primary *)
    else if isFirst then CommandType.PRIMARY
    else CommandType.UTILITY.

(** The [bin] field of a package.json, as the code's casts type it. *)
Inductive Bin :=
| BinAbsent                                  (* undefined, null, false, 0 *)
| BinPath (path : string)                    (* a string *)
| BinMap (entries : list (string * string))  (* Object.entries(bin), in its order *)
| BinOther.                                  (* true, a number other than 0 *)

(** [binEntries.forEach(([cmdName, cmdPath], index) => ...)] from [index]
    on. *)
Fixpoint commandsFrom (packageName : string) (index : nat)
    (binEntries : list (string * string)) : list CLICommand.t :=
  match binEntries with
  | [] => []
  | (cmdName, cmdPath) :: rest =>
      {| CLICommand.name := cmdName;
         CLICommand.path := cmdPath;
         CLICommand.type :=
           determineCommandType cmdName packageName (Nat.eqb index 0) |}
      :: commandsFrom packageName (S index) rest
  end.

(** Extract CLI commands from bin field; [name] is [packageJson.name]. *)
Definition extractCommands (name : string) (bin : Bin) : list CLICommand.t :=
  match bin with
  | BinAbsent => []
  | BinPath path =>
      if path =? EmptyString then []
      else [{| CLICommand.name := name; CLICommand.path := path;
               CLICommand.type := CommandType.PRIMARY |}]
  | BinMap binEntries => commandsFrom name 0 binEntries
  | BinOther => []
  end.

(** *** The examples, in plain words *)

(** An entry that is an object with a string [command] and a string
    [description]. *)
Definition wellFormedExample (ex : Json) : bool :=
  match ex with
  | JObject members =>
      match lookup "command" members, lookup "description" members with
      | Some (JString _), Some (JString _) => true
      | _, _ => false
      end
  | _ => false
  end.

Definition toExample (ex : Json) : CLIExample.t :=
  {| CLIExample.command := stringMember ex "command";
     CLIExample.description := stringMember ex "description" |}.

Definition isNull (v : Json) : bool :=
  match v with
  | JNull => true
  | _ => false
  end.

End PackageAnalyzer.

(** ** More of domain/models/types.ts *)

Module AIProvider.
Inductive t := ANTHROPIC | OPENAI | GOOGLE | GROQ.
End AIProvider.

Module AIConfig.
Record t := mk {
  provider : AIProvider.t;
  apiKey : string;
  model : option string;
  baseUrl : option string
}.
End AIConfig.

Module TestExpectation.
Record t := mk {
  exitCode : option Z;
  stdout : option Matcher;
  stderr : option Matcher;
  completes : option bool
}.
End TestExpectation.

Module CustomTest.
Record t := mk { name : string; command : string; expect : TestExpectation.t }.
End CustomTest.

(** [Partial<TestConfig>], with the fields [prepareConfig] reads. *)
Module PartialTestConfig.
Record t := mk {
  package : option string;
  nodeVersions : option (list string);
  parallel : option bool;
  timeout : option Z;
  keepContainers : option bool;
  customTests : option (list CustomTest.t);
  scenarios : option (list TestScenario.t);
  skipDefaultTests : option bool;
  ai : option AIConfig.t
}.
End PartialTestConfig.

(** [TestConfig], with the fields [prepareConfig] sets. *)
Module TestConfig.
Record t := mk {
  package : string;
  nodeVersions : list string;
  parallel : bool;
  timeout : Z;
  keepContainers : bool;
  customTests : option (list CustomTest.t);
  scenarios : option (list TestScenario.t);
  skipDefaultTests : option bool;
  ai : option AIConfig.t
}.
End TestConfig.

Module PackageInfo.
Record t := mk {
  name : string;
  version : string;
  description : option string;
  commands : list CLICommand.t;
  dependencies : list (string * string);
  peerDependencies : option (list (string * string));
  engines : option (list (string * string));
  examples : option (list CLIExample.t)
}.
End PackageInfo.

Module PackageTestSummary.
Record t := mk {
  package : PackageInfo.t;
  results : list CommandTestResult.t;
  total : nat;
  passed : nat;
  failed : nat;
  success : bool;
  duration : Z
}.
End PackageTestSummary.

Module PackageManager.
Inductive t := NPM | YARN | PNPM.
End PackageManager.

Module TestEnvironment.
Record t := mk {
  nodeVersion : string;
  packageManager : PackageManager.t;
  baseImage : string;
  setup : option (list string)
}.
End TestEnvironment.

Module ContainerStatus.
Inductive t := created | running | exited | error.
End ContainerStatus.

Module ContainerState.
Record t := mk {
  id : string;
  nodeVersion : string;
  packageName : string;
  status : ContainerStatus.t
}.
End ContainerState.

(** ** application/TestRunner.ts: the functions without effects *)

Module TestRunnerPure.

Import JS JSString.

(** Determine if test passed *)
Definition isTestPassed (result : DockerManager.ExecResult) (args : list string)
    : bool :=
  (* For --help and --version, exit code 0 is expected *)
  if (arrayIncludes args "--help" || arrayIncludes args "--version")%bool then
    (DockerManager.exitCode result =? 0)%Z
  (* For no args, we just check it doesn't crash completely *)
  else ((DockerManager.exitCode result =? 0)%Z ||
        (DockerManager.exitCode result =? 1)%Z)%bool.

(** Check if output contains help information *)
Definition hasHelpOutput (stdout stderr : string) : bool :=
  let output := toLowerCase (stdout ++ stderr) in
  (includes output "usage" || includes output "options" ||
   includes output "commands" || includes output "help")%bool.

(** [/v?\d+\.\d+\.\d+/] *)
Definition versionPattern : Regex.t :=
  Regex.Seq (Regex.Opt (Regex.Char "v"))
    (Regex.Seq (Regex.Plus Regex.Digit)
       (Regex.Seq (Regex.Char ".")
          (Regex.Seq (Regex.Plus Regex.Digit)
             (Regex.Seq (Regex.Char ".") (Regex.Plus Regex.Digit))))).

(** Check if output contains version information *)
Definition hasVersionOutput (stdout stderr : string) : bool :=
  let output := toLowerCase (stdout ++ stderr) in
  Regex.test versionPattern output.

(** [x || d] on an optional string, number, array. *)
Definition orString (x : option string) (d : string) : string :=
  match x with
  | Some s => if s =? EmptyString then d else s
  | None => d
  end.

Definition orNumber (x : option Z) (d : Z) : Z :=
  match x with
  | Some n => if (n =? 0)%Z then d else n
  | None => d
  end.

Definition orArray {A : Type} (x : option (list A)) (d : list A) : list A :=
  match x with
  | Some xs => xs
  | None => d
  end.

Definition orBool (x : option bool) (d : bool) : bool :=
  match x with
  | Some true => true
  | _ => d
  end.

(** Prepare test configuration with defaults *)
Definition prepareConfig (partial : PartialTestConfig.t) : TestConfig.t :=
  {| TestConfig.package := orString (PartialTestConfig.package partial) EmptyString;
     TestConfig.nodeVersions :=
       orArray (PartialTestConfig.nodeVersions partial) ["20"];
     TestConfig.parallel :=
       match PartialTestConfig.parallel partial with
       | Some parallel => parallel
       | None => false
       end;
     TestConfig.timeout := orNumber (PartialTestConfig.timeout partial) 30000;
     TestConfig.keepContainers :=
       match PartialTestConfig.keepContainers partial with
       | Some keepContainers => keepContainers
       | None => false
       end;
     TestConfig.customTests :=
       Some (orArray (PartialTestConfig.customTests partial) []);
     TestConfig.scenarios := PartialTestConfig.scenarios partial;
     TestConfig.skipDefaultTests :=
       Some (orBool (PartialTestConfig.skipDefaultTests partial) false);
     TestConfig.ai := PartialTestConfig.ai partial |}.

(** A configuration handed in again as a partial one. *)
Definition asPartial (config : TestConfig.t) : PartialTestConfig.t :=
  {| PartialTestConfig.package := Some (TestConfig.package config);
     PartialTestConfig.nodeVersions := Some (TestConfig.nodeVersions config);
     PartialTestConfig.parallel := Some (TestConfig.parallel config);
     PartialTestConfig.timeout := Some (TestConfig.timeout config);
     PartialTestConfig.keepContainers := Some (TestConfig.keepContainers config);
     PartialTestConfig.customTests := TestConfig.customTests config;
     PartialTestConfig.scenarios := TestConfig.scenarios config;
     PartialTestConfig.skipDefaultTests := TestConfig.skipDefaultTests config;
     PartialTestConfig.ai := TestConfig.ai config |}.

(** Create summary *)
Definition summaryOf (packageInfo : PackageInfo.t)
    (results : list CommandTestResult.t) (duration : Z) : PackageTestSummary.t :=
  {| PackageTestSummary.package := packageInfo;
     PackageTestSummary.results := results;
     PackageTestSummary.total := List.length results;
     PackageTestSummary.passed :=
       List.length (filter (fun r => CommandTestResult.passed r) results);
     PackageTestSummary.failed :=
       List.length (filter (fun r => negb (CommandTestResult.passed r)) results);
     PackageTestSummary.success :=
       forallb (fun r => CommandTestResult.passed r) results;
     PackageTestSummary.duration := duration |}.

(** The keywords [hasHelpOutput] looks for. *)
Definition helpKeywords : list string := ["usage"; "options"; "commands"; "help"].

End TestRunnerPure.

(** ** What to ask of a manager, and what it is for a validation to hold *)

Module RunnerConditions.

Import JS ScenarioRunner.

Section WithManager.

Variable World : Type.
Variable dockerManager : DockerManager World.

(** The computation [m] returns from every state. *)
Definition returns {A : Type} (m : M World A) : Prop :=
  forall s, exists a s', m s = (inr a, s').

(** The three methods the provisioner calls never throw; what
    [executeCommand] resolves to is left open. *)
Definition provisioningNeverThrows : Prop :=
  (forall containerId command w, exists result w',
      executeCommand World dockerManager containerId command w =
      (inr result, w')) /\
  (forall containerId path w, exists w',
      createDirectory World dockerManager containerId path w = (inr tt, w')) /\
  (forall containerId path content w, exists w',
      createFile World dockerManager containerId path content w = (inr tt, w')).

Definition fileExistsNeverThrows : Prop :=
  forall containerId path w, exists b w',
    fileExists World dockerManager containerId path w = (inr b, w').

(** What [readFile] rejects with is never [undefined] or [null]. *)
Definition readFileThrowsErrors : Prop :=
  forall containerId path w error w',
    readFile World dockerManager containerId path w = (inl error, w') ->
    isNullish error = false.

(** An entry of [fileContents] holds in [w]: its file can be read, and the
    content agrees with [equals] after trimming, satisfies every matcher of
    [contains] and none of [notContains]. *)
Definition entryHolds (containerId : string) (w : World)
    (fileCheck : FileContentValidation.t) : Prop :=
  exists content,
    fst (readFile World dockerManager containerId
           ("/test/" ++ FileContentValidation.path fileCheck) w) = inr content /\
    (forall expected,
        FileContentValidation.equals fileCheck = Some expected ->
        trim content = trim expected) /\
    (forall m, In m (orEmpty (FileContentValidation.contains fileCheck)) ->
               matches content m = true) /\
    (forall m, In m (orEmpty (FileContentValidation.notContains fileCheck)) ->
               matches content m = false).

(** Every assertion of [validation] holds of [result] in [w]. *)
Definition assertionsHold (containerId : string) (w : World)
    (validation : TestValidation.t) (result : ExecResult) : Prop :=
  DockerManager.exitCode result = expectedExitCodeOf validation /\
  (forall m, In m (orEmpty (TestValidation.stdout validation)) ->
             matches (DockerManager.stdout result) m = true) /\
  (forall m, In m (orEmpty (TestValidation.stderr validation)) ->
             matches (DockerManager.stderr result) m = true) /\
  (forall path, In path (orEmpty (TestValidation.filesExist validation)) ->
                existsIn World dockerManager containerId w path = true) /\
  (forall path, In path (orEmpty (TestValidation.filesNotExist validation)) ->
                existsIn World dockerManager containerId w path = false) /\
  (forall fileCheck,
      In fileCheck (orEmpty (TestValidation.fileContents validation)) ->
      entryHolds containerId w fileCheck).

(** The calls of a run that nothing interrupts. *)
Definition runCalls (containerId : string) (scenario : TestScenario.t)
    : list Call :=
  (match TestScenario.setup scenario with
   | Some setup => provisioningPlan containerId setup
   | None => []
   end ++
   [ExecuteCommand containerId (fullCommandOf scenario)] ++
   validationCalls containerId (TestScenario.validate scenario))%list.

End WithManager.

Arguments returns {World A}.

(** A manager on the container in memory whose every command fails, with
    exit code 1, without throwing. *)
Definition failingCommands : DockerManager InMemory.World :=
  {| executeCommand := fun _ _ w =>
       (inr {| DockerManager.exitCode := 1;
               DockerManager.stdout := EmptyString;
               DockerManager.stderr := "npm ERR!" |}, w);
     createDirectory := InMemory.createDirectory;
     createFile := InMemory.createFile;
     fileExists := InMemory.fileExists;
     readFile := InMemory.readFile |}.

(** [validate] blocks that differ in their [fileContents] only. *)
Definition withFileContents (validation : TestValidation.t)
    (checks : list FileContentValidation.t) : TestValidation.t :=
  {| TestValidation.exitCode := TestValidation.exitCode validation;
     TestValidation.stdout := TestValidation.stdout validation;
     TestValidation.stderr := TestValidation.stderr validation;
     TestValidation.filesExist := TestValidation.filesExist validation;
     TestValidation.filesNotExist := TestValidation.filesNotExist validation;
     TestValidation.fileContents := Some checks |}.

(** A scenario that creates a file and asks for what [echo] prints and for
    the file. *)
Definition greetingScenario : TestScenario.t :=
  InMemory.scenarioOf
    (Some {| TestSetup.files :=
               Some [{| TestFile.path := "in/name.txt";
                        TestFile.content := "world" ++ LF |}];
             TestSetup.directories := None;
             TestSetup.dependencies := None;
             TestSetup.initNpm := None |})
    "echo" (Some ["hello"; "world"])
    {| TestValidation.exitCode := None;
       TestValidation.stdout := Some [Literal "hello"];
       TestValidation.stderr := None;
       TestValidation.filesExist := Some ["in/name.txt"];
       TestValidation.filesNotExist := Some ["out.txt"];
       TestValidation.fileContents :=
         Some [{| FileContentValidation.path := "in/name.txt";
                  FileContentValidation.contains := Some [Literal "wor"];
                  FileContentValidation.notContains := Some [Literal "error"];
                  FileContentValidation.equals := Some "world" |}] |}.

End RunnerConditions.

(** ** DockerManager: containers and the installation of the package *)

Module DockerLifecycle.

Import JS.

(** [container.create]'s options, as [createTestContainer] sets them. *)
Record CreateOptions := mkCreateOptions {
  Image : string;
  Cmd : list string;
  Labels : list (string * string);
  WorkingDir : string
}.

(** [container.inspect()]'s answer, as far as the code reads it. *)
Record ContainerInspectInfo := mkInspectInfo { Id : string }.

(** [containers.add(id)] on a [Set] kept in insertion order. *)
Definition setAdd (id : string) (containers : list string) : list string :=
  if existsb (fun x => x =? id) containers then containers
  else (containers ++ [id])%list.

Section Api.

(** The daemon and what else the callbacks may touch. *)
Variable World : Type.

(** The stream of a pull and the handle of a container. *)
Variables Stream Container : Type.

(** dockerode: each call throws or answers, and moves the world on.
    [pull] stands for [docker.pull(image, callback)] and [followProgress]
    for [docker.modem.followProgress(stream, onFinished, onProgress)], each
    with the error or the value handed to its callback; [runExec] for the
    session of [container.exec], [exec.start], the stream and
    [exec.inspect]. *)
Record Dockerode := mkDockerode {
  ping : ScenarioRunner.Async World unit;
  pull : string -> ScenarioRunner.Async World Stream;
  followProgress : Stream -> ScenarioRunner.Async World unit;
  createContainer : CreateOptions -> ScenarioRunner.Async World Container;
  inspect : Container -> ScenarioRunner.Async World ContainerInspectInfo;
  start : Container -> ScenarioRunner.Async World unit;
  runExec : string -> list string -> World -> DockerManager.ExecSession * World
}.

Variable docker : Dockerode.
Variable toString : DockerManager.Buffer -> string.

(** The manager's state: the world and its private field [containers]. *)
Record ManagerState := mkManagerState {
  daemon : World;
  containers : list string
}.

Definition D (A : Type) : Type := ManagerState -> (Thrown + A) * ManagerState.

Definition dret {A : Type} (a : A) : D A := fun s => (inr a, s).

Definition dbind {A B : Type} (m : D A) (k : A -> D B) : D B :=
  fun s =>
    match m s with
    | (inl e, s') => (inl e, s')
    | (inr a, s') => k a s'
    end.

Definition dtry {A : Type} (body : D A) (handler : Thrown -> D A) : D A :=
  fun s =>
    match body s with
    | (inl e, s') => handler e s'
    | (inr a, s') => (inr a, s')
    end.

Notation "x <- m ;; k" := (dbind m (fun x => k))
  (at level 100, m at next level, right associativity).
Notation "m ;; k" := (dbind m (fun _ => k))
  (at level 100, right associativity).

(** A call on dockerode, or of a callback: it cannot reach [containers]. *)
Definition api {A : Type} (call : ScenarioRunner.Async World A) : D A :=
  fun s =>
    let '(r, w') := call (daemon s) in
    (r, {| daemon := w'; containers := containers s |}).

Definition emit (onProgress : ScenarioRunner.Listener World)
    (event : ProgressEvent.t) : D unit :=
  match onProgress with
  | Some callback => api (callback event)
  | None => dret tt
  end.

(** [this.containers.add(containerId)] *)
Definition track (containerId : string) : D unit :=
  fun s =>
    (inr tt,
     {| daemon := daemon s; containers := setAdd containerId (containers s) |}).

(** Check if Docker is available *)
Definition isDockerAvailable : D bool :=
  dtry (api (ping docker) ;; dret true) (fun _ => dret false).

(** Pull Docker image *)
Definition pullImage (image : string) : D unit :=
  stream <- api (pull docker image) ;;
  api (followProgress docker stream).

(** Create a test container *)
Definition createTestContainer (environment : TestEnvironment.t)
    (packageName : string) (onProgress : ScenarioRunner.Listener World)
    : D ContainerState.t :=
  (* Pull image *)
  emit onProgress
    {| ProgressEvent.stage := TestStage.PULLING_IMAGE;
       ProgressEvent.message :=
         "Pulling " ++ TestEnvironment.baseImage environment;
       ProgressEvent.progress := None;
       ProgressEvent.currentCommand := None |} ;;
  pullImage (TestEnvironment.baseImage environment) ;;
  (* Create container *)
  emit onProgress
    {| ProgressEvent.stage := TestStage.CREATING_CONTAINER;
       ProgressEvent.message :=
         "Creating container for Node " ++
         TestEnvironment.nodeVersion environment;
       ProgressEvent.progress := None;
       ProgressEvent.currentCommand := None |} ;;
  container <- api (createContainer docker
    {| Image := TestEnvironment.baseImage environment;
       Cmd := ["sleep"; "infinity"];
       Labels := [("npm-package-tester", "true");
                  ("node-version", TestEnvironment.nodeVersion environment);
                  ("package", packageName)];
       WorkingDir := "/test" |}) ;;
  info <- api (inspect docker container) ;;
  let containerId := Id info in
  (* Start container *)
  api (start docker container) ;;
  (* Track container *)
  track containerId ;;
  dret {| ContainerState.id := containerId;
          ContainerState.nodeVersion := TestEnvironment.nodeVersion environment;
          ContainerState.packageName := packageName;
          ContainerState.status := ContainerStatus.running |}.

(** Execute command in container: the session the daemon gives, read as
    [DockerManager.executeCommand] reads it. *)
Definition executeCommand (containerId : string) (command : list string)
    : D DockerManager.ExecResult :=
  fun s =>
    let '(session, w') := runExec docker containerId command (daemon s) in
    (DockerManager.executeCommand toString (fun _ _ => session)
       containerId command,
     {| daemon := w'; containers := containers s |}).

(** Install package in container *)
Definition installPackage (containerId packageName : string)
    (onProgress : ScenarioRunner.Listener World) : D unit :=
  emit onProgress
    {| ProgressEvent.stage := TestStage.INSTALLING_PACKAGE;
       ProgressEvent.message := "Installing " ++ packageName;
       ProgressEvent.progress := None;
       ProgressEvent.currentCommand := None |} ;;
  executeCommand containerId ["npm"; "install"; "-g"; packageName] ;;
  dret tt.

(** A computation that leaves [containers] as it is, whether it returns or
    throws. *)
Definition keepsContainers {A : Type} (m : D A) : Prop :=
  forall s, containers (snd (m s)) = containers s.

End Api.

Arguments keepsContainers {World A}.
Arguments daemon {World}.
Arguments containers {World}.
Arguments mkManagerState {World}.

(** *** A daemon to run it on

    Its world counts the calls it still answers before it throws; a
    container is its identifier, every command exits with [code]. *)

Definition countdown {A : Type} (a : A) : ScenarioRunner.Async nat A :=
  fun w =>
    match w with
    | O => (inl (Exception (mkError "daemon unreachable")), O)
    | S n => (inr a, n)
    end.

Definition countingDaemon (code : option Z) : Dockerode nat unit string :=
  {| ping := countdown tt;
     pull := fun _ => countdown tt;
     followProgress := fun _ => countdown tt;
     createContainer := fun _ => countdown "c0ffee";
     inspect := fun container => countdown {| Id := container |};
     start := fun _ => countdown tt;
     runExec := fun _ _ w =>
       (InMemory.streaming [InMemory.frame x02 "npm ERR! 404"] code
          EmptyString [], w) |}.

Definition node20 : TestEnvironment.t :=
  {| TestEnvironment.nodeVersion := "20";
     TestEnvironment.packageManager := PackageManager.NPM;
     TestEnvironment.baseImage := "node:20-alpine";
     TestEnvironment.setup := None |}.

End DockerLifecycle.

(** ** application/TestRunner.ts: the functions with effects *)

Module TestRunner.

Import JS JSString TestRunnerPure.

(** What the runner asks of its collaborators, the manager's methods that
    the scenario runner calls among them. *)
Inductive Event :=
| Analyze (packageSource : string)
| IsDockerAvailable
| CreateTestContainer (environment : TestEnvironment.t) (packageName : string)
| InstallPackage (containerId packageName : string)
| GenerateScenarios (packageName containerId : string)
| Cleanup (keepContainers : bool)
| OnManager (call : ScenarioRunner.Call).

(** The [TypeError] of [command.name] when [packageInfo.commands[0]] is
    [undefined]. *)
Definition undefinedCommandError : Error :=
  mkError "Cannot read properties of undefined (reading 'name')".

Definition dockerUnavailableError : Error :=
  mkError "Docker is not available. Please ensure Docker is installed and running.".

Section Runner.

Variable World : Type.

(** The collaborators the runner constructs: the Docker manager, the
    package analyzer and the scenario generator. Their methods are
    parameters. *)
Record Collaborators := mkCollaborators {
  dockerManager : ScenarioRunner.DockerManager World;
  isDockerAvailable : ScenarioRunner.Async World bool;
  createTestContainer :
    TestEnvironment.t -> string -> ScenarioRunner.Listener World ->
    ScenarioRunner.Async World ContainerState.t;
  installPackage :
    string -> string -> ScenarioRunner.Listener World ->
    ScenarioRunner.Async World unit;
  cleanup : bool -> ScenarioRunner.Async World unit;
  analyze : string -> ScenarioRunner.Async World PackageInfo.t;
  generateScenarios :
    PackageInfo.t -> AIConfig.t -> option string ->
    ScenarioRunner.Async World (list TestScenario.t)
}.

Variable parts : Collaborators.

(** [Date.now()], read off the world. *)
Variable clock : World -> Z.

(** The runner's state: the world and what was asked so far, oldest
    first. *)
Record RunState := mkRunState { rworld : World; rlog : list Event }.

Definition T (A : Type) : Type := RunState -> (Thrown + A) * RunState.

Definition tret {A : Type} (a : A) : T A := fun s => (inr a, s).

(** [throw e], and an expression that yields a value or throws. *)
Definition throw {A : Type} (e : Thrown) : T A := fun s => (inl e, s).

Definition teval {A : Type} (r : Thrown + A) : T A := fun s => (r, s).

Definition tbind {A B : Type} (m : T A) (k : A -> T B) : T B :=
  fun s =>
    match m s with
    | (inl e, s') => (inl e, s')
    | (inr a, s') => k a s'
    end.

(** [try { body } catch (error) { handler }] *)
Definition ttry {A : Type} (body : T A) (handler : Thrown -> T A) : T A :=
  fun s =>
    match body s with
    | (inl e, s') => handler e s'
    | (inr a, s') => (inr a, s')
    end.

(** [try { body } finally { final }]: [final] runs whatever [body] did, and
    what it throws replaces the outcome of [body]. *)
Definition tfinally {A : Type} (body : T A) (final : T unit) : T A :=
  fun s =>
    let '(r, s1) := body s in
    match final s1 with
    | (inl e, s2) => (inl e, s2)
    | (inr _, s2) => (r, s2)
    end.

Notation "x <- m ;; k" := (tbind m (fun x => k))
  (at level 100, m at next level, right associativity).
Notation "m ;; k" := (tbind m (fun _ => k))
  (at level 100, right associativity).

(** An awaited method of a collaborator: it is recorded, then answered. *)
Definition ask {A : Type} (event : Event) (method : ScenarioRunner.Async World A)
    : T A :=
  fun s =>
    let '(r, w') := method (rworld s) in
    (r, {| rworld := w'; rlog := (rlog s ++ [event])%list |}).

(** A computation of the scenario runner, its calls recorded in order. *)
Definition ofRunner {A : Type} (m : ScenarioRunner.M World A) : T A :=
  fun s =>
    let '(r, s') := m (ScenarioRunner.mkState (rworld s) []) in
    (r, {| rworld := ScenarioRunner.world s';
           rlog := (rlog s ++ map OnManager (ScenarioRunner.calls s'))%list |}).

Definition dateNow : T Z := fun s => (inr (clock (rworld s)), s).

(** Emit progress event *)
Definition emitProgress (callback : ScenarioRunner.Listener World)
    (event : ProgressEvent.t) : T unit :=
  match callback with
  | Some callback =>
      fun s =>
        let '(r, w') := callback event (rworld s) in
        (r, {| rworld := w'; rlog := rlog s |})
  | None => tret tt
  end.

Definition progressOf (stage : TestStage.t) (message : string)
    (currentCommand : option string) : ProgressEvent.t :=
  {| ProgressEvent.stage := stage; ProgressEvent.message := message;
     ProgressEvent.progress := None;
     ProgressEvent.currentCommand := currentCommand |}.

(** Test a single command *)
Definition testCommand (containerId commandName : string) (args : list string)
    (nodeVersion : string) (command : CLICommand.t) : T CommandTestResult.t :=
  startTime <- dateNow ;;
  ttry
    (let fullCommand := commandName :: args in
     result <- ofRunner
       (ScenarioRunner.await
          (ScenarioRunner.ExecuteCommand containerId fullCommand)
          (ScenarioRunner.executeCommand World (dockerManager parts)
             containerId fullCommand)) ;;
     now <- dateNow ;;
     let duration := (now - startTime)%Z in
     (* Determine if test passed *)
     let passed := isTestPassed result args in
     tret {| CommandTestResult.command := command;
             CommandTestResult.nodeVersion := nodeVersion;
             CommandTestResult.passed := passed;
             CommandTestResult.duration := duration;
             CommandTestResult.exitCode := DockerManager.exitCode result;
             CommandTestResult.stdout := DockerManager.stdout result;
             CommandTestResult.stderr := DockerManager.stderr result;
             CommandTestResult.error := None;
             CommandTestResult.hasHelpOutput :=
               hasHelpOutput (DockerManager.stdout result)
                 (DockerManager.stderr result);
             CommandTestResult.hasVersionOutput :=
               hasVersionOutput (DockerManager.stdout result)
                 (DockerManager.stderr result) |})
    (fun error =>
       now <- dateNow ;;
       let duration := (now - startTime)%Z in
       message <- teval (messageOf error) ;;
       tret {| CommandTestResult.command := command;
               CommandTestResult.nodeVersion := nodeVersion;
               CommandTestResult.passed := false;
               CommandTestResult.duration := duration;
               CommandTestResult.exitCode := 1;
               CommandTestResult.stdout := EmptyString;
               CommandTestResult.stderr := message;
               CommandTestResult.error := Some message;
               CommandTestResult.hasHelpOutput := false;
               CommandTestResult.hasVersionOutput := false |}).

(** Run AI-generated scenarios: the loop inside the [try]. It yields the
    array [results] as it stands when the loop ends, and the error if it ends
    by a throw: what was pushed before stays pushed. *)
Fixpoint runAiScenarios (containerId : string) (packageInfo : PackageInfo.t)
    (nodeVersion : string) (onProgress : ScenarioRunner.Listener World)
    (aiScenarios : list TestScenario.t) (results : list CommandTestResult.t)
    : RunState -> (option Thrown * list CommandTestResult.t) * RunState :=
  fun s =>
    match aiScenarios with
    | [] => ((None, results), s)
    | scenario :: rest =>
        (* Use first command *)
        match PackageInfo.commands packageInfo with
        | [] => ((Some (Exception undefinedCommandError), results), s)
        | command :: _ =>
            match ofRunner
                    (ScenarioRunner.runScenario World (dockerManager parts)
                       clock containerId (PackageInfo.name packageInfo)
                       (CLICommand.name command) scenario nodeVersion command
                       onProgress) s with
            | (inl e, s') => ((Some e, results), s')
            | (inr result, s') =>
                runAiScenarios containerId packageInfo nodeVersion onProgress
                  rest (results ++ [result])%list s'
            end
        end
    end.

(** The [catch] of the AI block: the event is built, its message read off
    what was caught, before [emitProgress] is called; [console.error] writes
    to the process's own standard error and is left out. *)
Definition aiFailed (onProgress : ScenarioRunner.Listener World)
    (error : Thrown) (results : list CommandTestResult.t)
    : T (list CommandTestResult.t) :=
  message <- teval (messageOf error) ;;
  emitProgress onProgress
    (progressOf TestStage.ERROR
       ("AI scenario generation failed: " ++ message) None) ;;
  tret results.

(** Generate AI scenarios if configured. The two emoji of the messages
    stand as their UTF-8 bytes. *)
Definition aiPhase (config : TestConfig.t) (containerId : string)
    (packageInfo : PackageInfo.t) (nodeVersion : string)
    (onProgress : ScenarioRunner.Listener World)
    (results : list CommandTestResult.t) : T (list CommandTestResult.t) :=
  match TestConfig.ai config with
  | None => tret results
  | Some ai =>
      emitProgress onProgress
        (progressOf TestStage.TESTING_COMMAND
           "🤖 Generating test scenarios with AI..." None) ;;
      fun s =>
        match ask (GenerateScenarios (PackageInfo.name packageInfo) containerId)
                (generateScenarios parts packageInfo ai (Some containerId)) s with
        | (inl e, s1) => aiFailed onProgress e results s1
        | (inr aiScenarios, s1) =>
            match emitProgress onProgress
                    (progressOf TestStage.TESTING_COMMAND
                       ("✨ Generated " ++
                        numberToString (Z.of_nat (List.length aiScenarios)) ++
                        " AI test scenarios") None) s1 with
            | (inl e, s2) => aiFailed onProgress e results s2
            | (inr _, s2) =>
                match runAiScenarios containerId packageInfo nodeVersion
                        onProgress aiScenarios results s2 with
                | ((Some e, results'), s3) => aiFailed onProgress e results' s3
                | ((None, results'), s3) => (inr results', s3)
                end
            end
        end
  end.

(** Test each command: [--help], [--version], no arguments. *)
Fixpoint testEachCommand (containerId nodeVersion : string)
    (onProgress : ScenarioRunner.Listener World)
    (commands : list CLICommand.t) (results : list CommandTestResult.t)
    : T (list CommandTestResult.t) :=
  match commands with
  | [] => tret results
  | command :: rest =>
      emitProgress onProgress
        (progressOf TestStage.TESTING_COMMAND
           ("Testing " ++ CLICommand.name command ++ " in Node " ++ nodeVersion)
           (Some (CLICommand.name command))) ;;
      helpResult <- testCommand containerId (CLICommand.name command)
                      ["--help"] nodeVersion command ;;
      versionResult <- testCommand containerId (CLICommand.name command)
                         ["--version"] nodeVersion command ;;
      noArgsResult <- testCommand containerId (CLICommand.name command)
                        [] nodeVersion command ;;
      testEachCommand containerId nodeVersion onProgress rest
        (results ++ [helpResult; versionResult; noArgsResult])%list
  end.

(** Run default tests if not skipped *)
Definition defaultPhase (config : TestConfig.t) (containerId : string)
    (packageInfo : PackageInfo.t) (nodeVersion : string)
    (onProgress : ScenarioRunner.Listener World)
    (results : list CommandTestResult.t) : T (list CommandTestResult.t) :=
  match TestConfig.skipDefaultTests config with
  | Some true => tret results
  | _ =>
      testEachCommand containerId nodeVersion onProgress
        (PackageInfo.commands packageInfo) results
  end.

Definition environmentOf (nodeVersion : string) : TestEnvironment.t :=
  {| TestEnvironment.nodeVersion := nodeVersion;
     TestEnvironment.packageManager := PackageManager.NPM;
     TestEnvironment.baseImage := "node:" ++ nodeVersion ++ "-alpine";
     TestEnvironment.setup := None |}.

(** The body of the loop of [runTests] over the Node versions. *)
Definition testVersion (packageInfo : PackageInfo.t) (config : TestConfig.t)
    (onProgress : ScenarioRunner.Listener World) (nodeVersion : string)
    (results : list CommandTestResult.t) : T (list CommandTestResult.t) :=
  let environment := environmentOf nodeVersion in
  (* Create container *)
  container <- ask (CreateTestContainer environment (PackageInfo.name packageInfo))
                 (createTestContainer parts environment
                    (PackageInfo.name packageInfo) onProgress) ;;
  (* Install package *)
  ask (InstallPackage (ContainerState.id container) (PackageInfo.name packageInfo))
      (installPackage parts (ContainerState.id container)
         (PackageInfo.name packageInfo) onProgress) ;;
  results <- aiPhase config (ContainerState.id container) packageInfo
               nodeVersion onProgress results ;;
  defaultPhase config (ContainerState.id container) packageInfo nodeVersion
    onProgress results.

Fixpoint testVersions (packageInfo : PackageInfo.t) (config : TestConfig.t)
    (onProgress : ScenarioRunner.Listener World) (nodeVersions : list string)
    (results : list CommandTestResult.t) : T (list CommandTestResult.t) :=
  match nodeVersions with
  | [] => tret results
  | nodeVersion :: rest =>
      results' <- testVersion packageInfo config onProgress nodeVersion results ;;
      testVersions packageInfo config onProgress rest results'
  end.

(** Run all tests *)
Definition runTests (packageInfo : PackageInfo.t) (config : TestConfig.t)
    (onProgress : ScenarioRunner.Listener World) : T (list CommandTestResult.t) :=
  testVersions packageInfo config onProgress (TestConfig.nodeVersions config) [].

(** The [try] block of [testPackage]. *)
Definition testPackageTry (startTime : Z) (packageSource : string)
    (config : PartialTestConfig.t) (onProgress : ScenarioRunner.Listener World)
    : T PackageTestSummary.t :=
  (* Analyze package *)
  emitProgress onProgress
    (progressOf TestStage.ANALYZING ("Analyzing package: " ++ packageSource)
       None) ;;
  packageInfo <- ask (Analyze packageSource) (analyze parts packageSource) ;;
  emitProgress onProgress
    (progressOf TestStage.DETECTING_COMMANDS
       ("Found " ++
        numberToString
          (Z.of_nat (List.length (PackageInfo.commands packageInfo))) ++
        " CLI command(s)") None) ;;
  (* Check Docker *)
  dockerAvailable <- ask IsDockerAvailable (isDockerAvailable parts) ;;
  if negb dockerAvailable then throw (Exception dockerUnavailableError)
  else
    (* Prepare test config *)
    let testConfig := prepareConfig config in
    (* Run tests *)
    results <- runTests packageInfo testConfig onProgress ;;
    now <- dateNow ;;
    let duration := (now - startTime)%Z in
    (* Create summary *)
    let summary := summaryOf packageInfo results duration in
    emitProgress onProgress
      (progressOf TestStage.COMPLETED
         ("Testing completed: " ++
          numberToString (Z.of_nat (PackageTestSummary.passed summary)) ++ "/" ++
          numberToString (Z.of_nat (PackageTestSummary.total summary)) ++
          " passed") None) ;;
    tret summary.

(** Test a package with given configuration *)
Definition testPackage (packageSource : string) (config : PartialTestConfig.t)
    (onProgress : ScenarioRunner.Listener World) : T PackageTestSummary.t :=
  startTime <- dateNow ;;
  tfinally
    (testPackageTry startTime packageSource config onProgress)
    ((* Cleanup *)
     emitProgress onProgress
       (progressOf TestStage.CLEANING_UP "Cleaning up containers" None) ;;
     let keepContainers :=
       orBool (PartialTestConfig.keepContainers config) false in
     ask (Cleanup keepContainers) (cleanup parts keepContainers)).

(** *** Conditions on the collaborators, and what a run asks *)

(** [createTestContainer] and [installPackage] never throw. *)
Definition containersNeverFail : Prop :=
  (forall environment packageName onProgress w, exists container w',
      createTestContainer parts environment packageName onProgress w =
      (inr container, w')) /\
  (forall containerId packageName onProgress w, exists w',
      installPackage parts containerId packageName onProgress w = (inr tt, w')).

(** What the manager's [executeCommand] rejects with is never [undefined]
    or [null]. *)
Definition executorThrowsErrors : Prop :=
  forall containerId command w error w',
    ScenarioRunner.executeCommand World (dockerManager parts) containerId
      command w = (inl error, w') ->
    isNullish error = false.

(** The computation [m] only ever adds to the record of what was asked. *)
Definition logGrows {A : Type} (m : T A) : Prop :=
  forall s, exists added, rlog (snd (m s)) = (rlog s ++ added)%list.

(** Something was asked of the manager's command and file methods. *)
Definition isOnManager (event : Event) : bool :=
  match event with
  | OnManager _ => true
  | _ => false
  end.

End Runner.

Arguments rworld {World}.
Arguments rlog {World}.
Arguments mkRunState {World}.
Arguments logGrows {World A}.

End TestRunner.

(** ** Collaborators on the container in memory *)

Module InMemoryRunner.

Import JS.

Definition toolInfo : PackageInfo.t :=
  {| PackageInfo.name := "tool"; PackageInfo.version := "1.0.0";
     PackageInfo.description := None;
     PackageInfo.commands := [InMemory.cli];
     PackageInfo.dependencies := [];
     PackageInfo.peerDependencies := None;
     PackageInfo.engines := None;
     PackageInfo.examples := None |}.

(** Docker counts as available while the daemon still answers; containers
    are all named [box]; the generation of scenarios fails for want of a
    key. *)
Definition parts : TestRunner.Collaborators InMemory.World :=
  {| TestRunner.dockerManager := InMemory.manager;
     TestRunner.isDockerAvailable := fun w =>
       (inr (0 <? InMemory.answers w)%nat, w);
     TestRunner.createTestContainer := fun environment packageName _ w =>
       (inr {| ContainerState.id := "box";
               ContainerState.nodeVersion :=
                 TestEnvironment.nodeVersion environment;
               ContainerState.packageName := packageName;
               ContainerState.status := ContainerStatus.running |}, w);
     TestRunner.installPackage := fun _ _ _ w => (inr tt, w);
     TestRunner.cleanup := fun _ w => (inr tt, w);
     TestRunner.analyze := fun _ w => (inr toolInfo, w);
     TestRunner.generateScenarios := fun _ _ _ w =>
       (inl (Exception (mkError "no API key")), w) |}.

Definition start (answers : nat) : TestRunner.RunState InMemory.World :=
  TestRunner.mkRunState
    {| InMemory.files := []; InMemory.answers := answers; InMemory.time := 0 |}
    [].

Definition noConfig : PartialTestConfig.t :=
  {| PartialTestConfig.package := None;
     PartialTestConfig.nodeVersions := Some ["18"; "20"];
     PartialTestConfig.parallel := None;
     PartialTestConfig.timeout := None;
     PartialTestConfig.keepContainers := None;
     PartialTestConfig.customTests := None;
     PartialTestConfig.scenarios := None;
     PartialTestConfig.skipDefaultTests := None;
     PartialTestConfig.ai := None |}.

(** The same configuration, asking for scenarios from a model. *)
Definition aiConfig : PartialTestConfig.t :=
  {| PartialTestConfig.package := None;
     PartialTestConfig.nodeVersions := Some ["18"; "20"];
     PartialTestConfig.parallel := None;
     PartialTestConfig.timeout := None;
     PartialTestConfig.keepContainers := None;
     PartialTestConfig.customTests := None;
     PartialTestConfig.scenarios := None;
     PartialTestConfig.skipDefaultTests := None;
     PartialTestConfig.ai :=
       Some {| AIConfig.provider := AIProvider.ANTHROPIC;
               AIConfig.apiKey := "key";
               AIConfig.model := None;
               AIConfig.baseUrl := None |} |}.

(** Collaborators that fail with no error: the executor's stream emits
    ['error'] with [undefined], and so is the generation of scenarios
    rejected. *)
Definition silentParts : TestRunner.Collaborators InMemory.World :=
  {| TestRunner.dockerManager := InMemory.brokenManager;
     TestRunner.isDockerAvailable := TestRunner.isDockerAvailable _ parts;
     TestRunner.createTestContainer := TestRunner.createTestContainer _ parts;
     TestRunner.installPackage := TestRunner.installPackage _ parts;
     TestRunner.cleanup := TestRunner.cleanup _ parts;
     TestRunner.analyze := TestRunner.analyze _ parts;
     TestRunner.generateScenarios := fun _ _ _ w => (inl ThrownUndefined, w) |}.

(** A listener that throws at the cleaning-up event and at no other. *)
Definition fragileListener (event : ProgressEvent.t)
    : ScenarioRunner.Async InMemory.World unit :=
  fun w =>
    match ProgressEvent.stage event with
    | TestStage.CLEANING_UP => (inl (Exception (mkError "listener failed")), w)
    | _ => (inr tt, w)
    end.

(** A package.json with three entries under [npt.examples], one of them
    well formed. *)
Definition examplesJson : list (string * PackageAnalyzer.Json) :=
  [("name", PackageAnalyzer.JString "tool");
   ("npt",
    PackageAnalyzer.JObject
      [("examples",
        PackageAnalyzer.JArray
          [PackageAnalyzer.JObject
             [("command", PackageAnalyzer.JString "tool --help");
              ("description", PackageAnalyzer.JString "shows the help")];
           PackageAnalyzer.JString "tool";
           PackageAnalyzer.JObject
             [("command", PackageAnalyzer.JNumber 1)]])])].

(** A manager on the container in memory whose every read is rejected with
    [null]. *)
Definition rejectingReads : ScenarioRunner.DockerManager InMemory.World :=
  {| ScenarioRunner.executeCommand := InMemory.executeCommand;
     ScenarioRunner.createDirectory := InMemory.createDirectory;
     ScenarioRunner.createFile := InMemory.createFile;
     ScenarioRunner.fileExists := InMemory.fileExists;
     ScenarioRunner.readFile := fun _ _ w => (inl ThrownNull, w) |}.

Definition unreadable : FileContentValidation.t :=
  {| FileContentValidation.path := "missing.txt";
     FileContentValidation.contains := Some [Literal "x"];
     FileContentValidation.notContains := None;
     FileContentValidation.equals := Some "x" |}.

Definition noEmptyText : FileContentValidation.t :=
  {| FileContentValidation.path := "a.txt";
     FileContentValidation.contains := None;
     FileContentValidation.notContains := Some [Literal EmptyString];
     FileContentValidation.equals := None |}.

End InMemoryRunner.

(** * Properties *)

(** ** Strings *)

Module StringFacts.

Lemma append_nil_r (s : string) : s ++ EmptyString = s.
Proof. induction s as [|c s IH]; simpl; [reflexivity | now rewrite IH]. Qed.

Lemma append_assoc (a b c : string) : (a ++ b) ++ c = a ++ (b ++ c).
Proof. induction a as [|x a IH]; simpl; [reflexivity | now rewrite IH]. Qed.

Import JS.

Lemma trimStart_decompose (s : string) :
  exists l, s = l ++ trimStart s /\ isBlank l = true.
Proof.
  induction s as [|c s (l & Hl & Hb)]; cbn [trimStart].
  - now exists EmptyString.
  - destruct (isWhiteSpace c) eqn:Hc.
    + exists (String c l). cbn. now rewrite Hc, Hb, <- Hl.
    + now exists EmptyString.
Qed.

Lemma trimStart_starts (s : string) : startsWhite (trimStart s) = false.
Proof.
  induction s as [|c s IH]; cbn [trimStart]; [reflexivity|].
  destruct (isWhiteSpace c) eqn:Hc; [exact IH | exact Hc].
Qed.

Lemma trimEnd_decompose (s : string) :
  exists r, s = trimEnd s ++ r /\ isBlank r = true.
Proof.
  induction s as [|c s (r & Hr & Hb)]; cbn [trimEnd].
  - now exists EmptyString.
  - destruct (trimEnd s) as [|d t] eqn:Ht.
    + cbn in Hr. subst s. destruct (isWhiteSpace c) eqn:Hc.
      * exists (String c r). cbn. now rewrite Hc, Hb.
      * now exists r.
    + exists r. cbn. now rewrite Hr.
Qed.

Lemma trimEnd_ends (s : string) : endsWhite (trimEnd s) = false.
Proof.
  induction s as [|c s IH]; cbn [trimEnd]; [reflexivity|].
  destruct (trimEnd s) as [|d t] eqn:Ht.
  - destruct (isWhiteSpace c) eqn:Hc; cbn; [reflexivity | exact Hc].
  - exact IH.
Qed.

Lemma trimEnd_starts (s : string) :
  startsWhite s = false -> startsWhite (trimEnd s) = false.
Proof.
  destruct s as [|c s]; cbn [trimEnd startsWhite]; [reflexivity|].
  intros Hc. destruct (trimEnd s); [rewrite Hc|]; exact Hc.
Qed.

(** [trim] takes white space off both ends and nothing else, and leaves
    none at either end. *)
Lemma trim_spec (s : string) :
  (exists l r, s = l ++ trim s ++ r /\ isBlank l = true /\ isBlank r = true) /\
  startsWhite (trim s) = false /\ endsWhite (trim s) = false.
Proof.
  unfold trim. split; [|split].
  - destruct (trimStart_decompose s) as (l & Hl & Hbl).
    destruct (trimEnd_decompose (trimStart s)) as (r & Hr & Hbr).
    exists l, r. now rewrite <- Hr, <- Hl.
  - apply trimEnd_starts, trimStart_starts.
  - apply trimEnd_ends.
Qed.

End StringFacts.

(** ** The executor's demultiplexer *)

Module DemuxFacts.

Import JS DockerManager StringFacts.

Section WithDecoder.

Variable toString : Buffer -> string.

(** A chunk of at most 8 bytes has no byte 8. *)
Lemma payload_short (chunk : Buffer) :
  (List.length chunk <= 8)%nat -> payload chunk = [].
Proof. intros H. unfold payload. now apply skipn_all2. Qed.

(** A chunk tagged neither 1 nor 2 leaves both buffers as they are. *)
Lemma onData_other_tag (acc : string * string) (chunk : Buffer) :
  channelTag chunk <> Some 1%N -> channelTag chunk <> Some 2%N ->
  onData toString acc chunk = acc.
Proof.
  intros H1 H2. destruct acc as [out err]. unfold onData.
  destruct (8 <? List.length chunk)%nat; [|reflexivity].
  unfold channelTag in H1, H2.
  destruct (readUInt8 chunk 0) as [header|]; [|reflexivity].
  destruct (N.eqb_spec header 1) as [->|_]; [now elim H1|].
  destruct (N.eqb_spec header 2) as [->|_]; [now elim H2|].
  reflexivity.
Qed.

Hypothesis toString_empty : toString [] = EmptyString.

(** One ['data'] event appends to each buffer what the chunk contributes to
    its channel. *)
Lemma onData_contribution (out err : string) (chunk : Buffer) :
  onData toString (out, err) chunk =
  (out ++ contribution toString 1 chunk, err ++ contribution toString 2 chunk).
Proof.
  unfold onData, contribution, onChannel, channelTag, slice.
  destruct (Nat.ltb_spec 8 (List.length chunk)) as [Hlong|Hshort].
  - destruct (Nat.ltb_spec (List.length chunk) 8) as [Habs|_]; [lia|].
    destruct (readUInt8 chunk 0) as [header|].
    + destruct (N.eqb_spec header 1) as [->|Hne1]; simpl.
      * now rewrite append_nil_r.
      * destruct (N.eqb_spec header 2); now rewrite ?append_nil_r.
    + now rewrite !append_nil_r.
  - destruct (Nat.ltb_spec (List.length chunk) 8) as [_|Height].
    + now rewrite !append_nil_r.
    + rewrite (payload_short chunk Hshort), toString_empty.
      destruct (readUInt8 chunk 0) as [header|]; [|now rewrite !append_nil_r].
      destruct (header =? 1)%N, (header =? 2)%N; now rewrite !append_nil_r.
Qed.

Lemma fold_onData_channels (chunks : list Buffer) (out err : string) :
  fold_left (onData toString) chunks (out, err) =
  (out ++ channelText toString 1 chunks, err ++ channelText toString 2 chunks).
Proof.
  revert out err.
  induction chunks as [|c cs IH]; intros out err; cbn [fold_left channelText].
  - now rewrite !append_nil_r.
  - rewrite onData_contribution, IH, !append_assoc. reflexivity.
Qed.

Lemma collectOutput_channels (chunks : list Buffer) :
  collectOutput toString chunks =
  (channelText toString 1 chunks, channelText toString 2 chunks).
Proof. unfold collectOutput. now rewrite fold_onData_channels. Qed.

(** C4. When a command runs to completion, [executeCommand] returns as
    [stdout] the trimmed text of channel 1 and as [stderr] the trimmed text of
    channel 2, where the text of a channel is the decoded payloads (bytes
    8..N) of the chunks tagged with it, appended in arrival order, and a
    chunk shorter than 8 bytes contributes nothing. *)
Theorem executeCommand_demultiplexes (docker : Docker) (containerId : string)
    (command : list string) (info : ExecInspectInfo) :
  let session := docker containerId command in
  exec_create session = inr tt ->
  exec_start session = inr tt ->
  stream_close session = inr tt ->
  exec_inspect session = inr info ->
  executeCommand toString docker containerId command =
  inr {| exitCode := nullish (ExitCode info) 0%Z;
         stdout := trim (channelText toString 1 (stream_data session));
         stderr := trim (channelText toString 2 (stream_data session)) |}.
Proof.
  intros session Hcreate Hstart Hclose Hinspect. unfold executeCommand.
  fold session. rewrite Hcreate, Hstart, collectOutput_channels, Hclose, Hinspect.
  reflexivity.
Qed.

End WithDecoder.

Lemma collectOutput_drop (toString : Buffer -> string)
    (before after : list Buffer) (chunk : Buffer) :
  (forall acc, onData toString acc chunk = acc) ->
  collectOutput toString (before ++ chunk :: after) =
  collectOutput toString (before ++ after).
Proof.
  intros H. unfold collectOutput. rewrite !fold_left_app. simpl.
  now rewrite H.
Qed.

(** C9. A chunk whose tag byte is neither 1 nor 2 is discarded: the ['data']
    handler leaves both buffers unchanged, and what [executeCommand] returns
    is what it returns without that chunk on the stream. *)
Theorem unknown_channel_discarded (toString : Buffer -> string)
    (chunk : Buffer) :
  channelTag chunk <> Some 1%N -> channelTag chunk <> Some 2%N ->
  (forall acc, onData toString acc chunk = acc) /\
  (forall session before after containerId command,
     executeCommand toString
       (fun _ _ => withData session (before ++ chunk :: after))
       containerId command =
     executeCommand toString
       (fun _ _ => withData session (before ++ after)) containerId command).
Proof.
  intros H1 H2.
  assert (Hdrop : forall acc, onData toString acc chunk = acc)
    by (intros acc; now apply onData_other_tag).
  split; [exact Hdrop|].
  intros session before after containerId command.
  unfold executeCommand, withData; simpl.
  now rewrite (collectOutput_drop toString before after chunk Hdrop).
Qed.

(** C10. When the command ran to completion and [exec.inspect()] reports no
    exit code, [executeCommand] returns exit code 0. *)
Theorem absent_exit_code_is_zero (toString : Buffer -> string)
    (docker : Docker) (containerId : string) (command : list string) :
  let session := docker containerId command in
  exec_create session = inr tt ->
  exec_start session = inr tt ->
  stream_close session = inr tt ->
  exec_inspect session = inr {| ExitCode := None |} ->
  exists out err,
    executeCommand toString docker containerId command =
    inr {| exitCode := 0; stdout := out; stderr := err |}.
Proof.
  intros session Hcreate Hstart Hclose Hinspect. unfold executeCommand.
  fold session. rewrite Hcreate, Hstart, Hclose, Hinspect.
  destruct (collectOutput toString (stream_data session)) as [out err].
  exists (trim out), (trim err). reflexivity.
Qed.

End DemuxFacts.

(** ** The provisioner *)

Module ProvisionerFacts.

Import JS ScenarioRunner.

Section WithManager.

Variable World : Type.
Variable dockerManager : DockerManager World.

Lemma keepsTo_eq {A : Type} (p q : list Call) (m : M World A) :
  p = q -> keepsTo p m -> keepsTo q m.
Proof. now intros ->. Qed.

Lemma keepsTo_ret {A : Type} (a : A) : keepsTo [] (ret (World := World) a).
Proof. intros s. simpl. now rewrite app_nil_r. Qed.

Lemma keepsTo_await {A : Type} (c : Call) (method : Async World A) :
  keepsTo [c] (await c method).
Proof.
  intros s. unfold await.
  destruct (method (world s)) as [[e|a] w']; simpl; [|reflexivity].
  exists 0%nat. split; [simpl; lia | reflexivity].
Qed.

Lemma keepsTo_bind {A B : Type} (p1 p2 : list Call) (m : M World A) (k : A -> M World B) :
  keepsTo p1 m -> (forall a, keepsTo p2 (k a)) ->
  keepsTo (p1 ++ p2) (bind m k).
Proof.
  intros Hm Hk s. unfold bind. specialize (Hm s).
  destruct (m s) as [[e|a] s1].
  - destruct Hm as (n & Hn & Hcalls). exists n. split.
    + rewrite length_app. lia.
    + rewrite Hcalls, firstn_app.
      replace (S n - List.length p1)%nat with 0%nat by lia.
      now rewrite firstn_O, app_nil_r.
  - specialize (Hk a s1). destruct (k a s1) as [[e|b] s2].
    + destruct Hk as (n & Hn & Hcalls). exists (List.length p1 + n)%nat. split.
      * rewrite length_app. lia.
      * rewrite Hcalls, Hm, <- app_assoc. f_equal.
        replace (S (List.length p1 + n)) with (List.length p1 + S n)%nat by lia.
        now rewrite firstn_app_2.
    + now rewrite Hk, Hm, app_assoc.
Qed.

Lemma keepsTo_forOf {A : Type} (steps : A -> list Call) (body : A -> M World unit)
    (xs : list A) :
  (forall x, keepsTo (steps x) (body x)) ->
  keepsTo (flat_map steps xs) (forOf xs body).
Proof.
  intros Hbody. induction xs as [|x xs IH]; cbn [flat_map forOf].
  - apply keepsTo_ret.
  - apply keepsTo_bind; [apply Hbody | intros _; exact IH].
Qed.

Lemma flat_map_single {A B : Type} (f : A -> B) (xs : list A) :
  flat_map (fun x => [f x]) xs = map f xs.
Proof. induction xs as [|x xs IH]; simpl; [reflexivity | now rewrite IH]. Qed.

Lemma directories_keepTo (containerId : string) (setup : TestSetup.t) :
  keepsTo (directorySteps containerId setup)
    (match TestSetup.directories setup with
     | Some directories =>
         forOf directories (fun dir =>
           await (CreateDirectory containerId ("/test/" ++ dir))
             (createDirectory World dockerManager containerId ("/test/" ++ dir)))
     | None => ret tt
     end).
Proof.
  unfold directorySteps.
  destruct (TestSetup.directories setup) as [dirs|]; cbn [orEmpty map].
  - rewrite <- flat_map_single. apply keepsTo_forOf.
    intros dir. apply keepsTo_await.
  - apply keepsTo_ret.
Qed.

Lemma files_keepTo (containerId : string) (setup : TestSetup.t) :
  keepsTo (flat_map (fileSteps containerId) (orEmpty (TestSetup.files setup)))
    (match TestSetup.files setup with
     | Some files =>
         forOf files (fun file =>
           let filePath := "/test/" ++ TestFile.path file in
           let parentDir := parentDirOf filePath in
           bind
             (if negb (parentDir =? "/test") then
                await (CreateDirectory containerId parentDir)
                  (createDirectory World dockerManager containerId parentDir)
              else ret tt)
             (fun _ =>
                await (CreateFile containerId filePath (TestFile.content file))
                  (createFile World dockerManager containerId filePath
                     (TestFile.content file))))
     | None => ret tt
     end).
Proof.
  destruct (TestSetup.files setup) as [files|]; cbn [orEmpty flat_map].
  - apply keepsTo_forOf. intros file. unfold fileSteps. cbv zeta.
    remember ("/test/" ++ TestFile.path file) as filePath.
    apply keepsTo_bind; [|intros _; apply keepsTo_await].
    destruct (parentDirOf filePath =? "/test"); cbn [negb].
    + apply keepsTo_ret.
    + apply keepsTo_await.
  - apply keepsTo_ret.
Qed.

Lemma init_keepsTo (containerId : string) (setup : TestSetup.t) :
  keepsTo (initSteps containerId setup)
    (match TestSetup.initNpm setup with
     | Some true =>
         let command := ["sh"; "-c"; "cd /test && npm init -y"] in
         bind
           (await (ExecuteCommand containerId command)
              (executeCommand World dockerManager containerId command))
           (fun _ => ret tt)
     | _ => ret tt
     end).
Proof.
  unfold initSteps. destruct (TestSetup.initNpm setup) as [[|]|].
  - apply (keepsTo_bind [_] []); [apply keepsTo_await | intros _; apply keepsTo_ret].
  - apply keepsTo_ret.
  - apply keepsTo_ret.
Qed.

Lemma install_keepsTo (containerId : string) (setup : TestSetup.t) :
  keepsTo (installSteps containerId setup)
    (match TestSetup.dependencies setup with
     | Some dependencies =>
         if (0 <? List.length dependencies)%nat then
           let deps := join " " dependencies in
           let command := ["sh"; "-c"; "cd /test && npm install " ++ deps] in
           bind
             (await (ExecuteCommand containerId command)
                (executeCommand World dockerManager containerId command))
             (fun _ => ret tt)
         else ret tt
     | None => ret tt
     end).
Proof.
  unfold installSteps. destruct (TestSetup.dependencies setup) as [[|d ds]|].
  - apply keepsTo_ret.
  - apply (keepsTo_bind [_] []); [apply keepsTo_await | intros _; apply keepsTo_ret].
  - apply keepsTo_ret.
Qed.

Lemma setupScenario_keepsTo (containerId : string) (setup : TestSetup.t) :
  keepsTo (provisioningPlan containerId setup)
    (setupScenario World dockerManager containerId (Some setup)).
Proof.
  unfold provisioningPlan, setupScenario.
  apply keepsTo_bind; [apply directories_keepTo | intros _].
  apply keepsTo_bind; [apply files_keepTo | intros _].
  apply keepsTo_bind; [apply init_keepsTo | intros _].
  apply install_keepsTo.
Qed.

(** *** The steps are performed on the manager *)

Lemma performAll_app (p q : list Call) (s : State World) :
  performAll World dockerManager (p ++ q) s =
  match performAll World dockerManager p s with
  | (inl error, s') => (inl error, s')
  | (inr _, s') => performAll World dockerManager q s'
  end.
Proof.
  revert s. induction p as [|step p IH]; intros s; cbn [app performAll].
  - reflexivity.
  - destruct (perform World dockerManager step (world s)) as [[error|u] w'];
      [reflexivity | apply IH].
Qed.

Lemma performs_ret (s : State World) :
  ret tt s = performAll World dockerManager [] s.
Proof. reflexivity. Qed.

(** A call awaited for its effect alone is the step performed. *)
Lemma performs_await (step : Call) (method : Async World unit)
    (s : State World) :
  (forall w, perform World dockerManager step w = method w) ->
  await step method s = performAll World dockerManager [step] s.
Proof.
  intros Hstep. unfold await. cbn [performAll]. rewrite Hstep.
  now destruct (method (world s)) as [[error|[]] w'].
Qed.

(** So is a command awaited, and its result dropped. *)
Lemma performs_command (containerId : string) (command : list string)
    (s : State World) :
  bind (await (ExecuteCommand containerId command)
          (executeCommand World dockerManager containerId command))
       (fun _ => ret tt) s =
  performAll World dockerManager [ExecuteCommand containerId command] s.
Proof.
  unfold bind, await. cbn [performAll perform].
  now destruct (executeCommand World dockerManager containerId command
                  (world s)) as [[error|result] w'].
Qed.

Lemma performs_bind (p q : list Call) (m : M World unit)
    (k : unit -> M World unit) :
  (forall s, m s = performAll World dockerManager p s) ->
  (forall u s, k u s = performAll World dockerManager q s) ->
  forall s, bind m k s = performAll World dockerManager (p ++ q) s.
Proof.
  intros Hm Hk s. rewrite performAll_app. unfold bind. rewrite Hm.
  destruct (performAll World dockerManager p s) as [[error|u] s'];
    [reflexivity | apply Hk].
Qed.

Lemma performs_forOf {A : Type} (steps : A -> list Call)
    (body : A -> M World unit) (xs : list A) :
  (forall x s, body x s = performAll World dockerManager (steps x) s) ->
  forall s, forOf xs body s =
            performAll World dockerManager (flat_map steps xs) s.
Proof.
  intros Hbody. induction xs as [|x xs IH]; cbn [flat_map forOf].
  - reflexivity.
  - apply performs_bind; [apply Hbody | intros _; exact IH].
Qed.

(** [setupScenario] is its plan performed on the manager: the world it
    leaves, the calls it has made and what it throws are those of the steps
    of the plan, performed in order up to the first that throws. *)
Lemma setupScenario_performs (containerId : string) (setup : TestSetup.t)
    (s : State World) :
  setupScenario World dockerManager containerId (Some setup) s =
  performAll World dockerManager (provisioningPlan containerId setup) s.
Proof.
  revert s. unfold provisioningPlan, setupScenario.
  apply performs_bind; [|intros _; apply performs_bind;
                          [|intros _; apply performs_bind; [|intros _]]].
  - unfold directorySteps.
    destruct (TestSetup.directories setup) as [dirs|]; cbn [orEmpty map];
      [|reflexivity].
    rewrite <- flat_map_single. apply performs_forOf.
    intros dir s. now apply performs_await.
  - destruct (TestSetup.files setup) as [files|]; cbn [orEmpty flat_map];
      [|reflexivity].
    apply performs_forOf. intros file. unfold fileSteps. cbv zeta.
    remember ("/test/" ++ TestFile.path file) as filePath.
    apply performs_bind; [|intros _ s; now apply performs_await].
    destruct (parentDirOf filePath =? "/test"); cbn [negb];
      intros s; [reflexivity | now apply performs_await].
  - unfold initSteps. destruct (TestSetup.initNpm setup) as [[|]|];
      intros s; [apply performs_command | reflexivity | reflexivity].
  - unfold installSteps.
    destruct (TestSetup.dependencies setup) as [[|d ds]|];
      intros s; [reflexivity | apply performs_command | reflexivity].
Qed.

(** C7. Provisioning performs its steps in the fixed order of the plan: the
    creation of every declared directory, in the order declared; then per
    declared file the creation of its parent directory, unless that is the
    working root, and the writing of the file with its content; then the
    project initialization if requested; then one single invocation
    installing all the dependencies if there are any. Each step is the
    manager's method applied to the world the step before it left, and the
    first step that throws ends the provisioning with what it threw: the
    world [setupScenario] leaves, the calls it has made and its outcome are
    those of the plan so performed. In particular the calls made are the
    plan when it returns, and the plan up to the failing step when it
    throws. *)
Theorem setupScenario_follows_plan (containerId : string) (setup : TestSetup.t)
    (s : State World) :
  setupScenario World dockerManager containerId (Some setup) s =
  performAll World dockerManager
    (map (fun dir => CreateDirectory containerId ("/test/" ++ dir)%string)
       (orEmpty (TestSetup.directories setup)) ++
     flat_map (fileSteps containerId) (orEmpty (TestSetup.files setup)) ++
     initSteps containerId setup ++
     installSteps containerId setup) s /\
  match setupScenario World dockerManager containerId (Some setup) s with
  | (inr _, s') =>
      calls s' =
      (calls s ++
       map (fun dir => CreateDirectory containerId ("/test/" ++ dir)%string)
         (orEmpty (TestSetup.directories setup)) ++
       flat_map (fileSteps containerId) (orEmpty (TestSetup.files setup)) ++
       initSteps containerId setup ++
       installSteps containerId setup)%list
  | (inl _, s') =>
      exists n, (n < List.length (provisioningPlan containerId setup))%nat /\
        calls s' =
        (calls s ++ firstn (S n) (provisioningPlan containerId setup))%list
  end.
Proof.
  split.
  - exact (setupScenario_performs containerId setup s).
  - exact (setupScenario_keepsTo containerId setup s).
Qed.

End WithManager.

End ProvisionerFacts.

(** ** The engine *)

Module EngineFacts.

Import JS ScenarioRunner.

Section WithManager.

Variable World : Type.
Variable dockerManager : DockerManager World.
Variable clock : World -> Z.

Variables containerId packageName commandName : string.
Variable scenario : TestScenario.t.
Variable nodeVersion : string.
Variable command : CLICommand.t.
Variable onProgress : Listener World.

(** What the [catch] block makes of what the [try] block threw. *)
Lemma runScenario_handled (s s' : State World) (v : Thrown) :
  runScenarioTry World dockerManager clock (clock (world s)) containerId
    commandName scenario nodeVersion command onProgress s = (inl v, s') ->
  runScenario World dockerManager clock containerId packageName commandName
    scenario nodeVersion command onProgress s =
  (match messageOf v with
   | inl typeError => inl typeError
   | inr text =>
       inr (failedResult command nodeVersion
              (clock (world s') - clock (world s)) text)
   end, s').
Proof.
  intros H. unfold runScenario, bind, dateNow, tryCatch, ret, eval.
  rewrite H. now destruct (messageOf v).
Qed.

Lemma runScenario_caught (s s' : State World) (e : Error) :
  runScenarioTry World dockerManager clock (clock (world s)) containerId
    commandName scenario nodeVersion command onProgress s =
  (inl (Exception e), s') ->
  runScenario World dockerManager clock containerId packageName commandName
    scenario nodeVersion command onProgress s =
  (inr (failedResult command nodeVersion (clock (world s') - clock (world s))
          (message e)),
   s').
Proof. intros H. now rewrite (runScenario_handled _ _ _ H). Qed.

Lemma runScenario_returned (s s' : State World) (r : CommandTestResult.t) :
  runScenarioTry World dockerManager clock (clock (world s)) containerId
    commandName scenario nodeVersion command onProgress s = (inr r, s') ->
  runScenario World dockerManager clock containerId packageName commandName
    scenario nodeVersion command onProgress s = (inr r, s').
Proof.
  intros H. unfold runScenario, bind, dateNow, tryCatch, ret. now rewrite H.
Qed.

(** What a step throws, the [try] block throws. *)
Lemma try_block_throws (startTime : Z) (s s' : State World) (e : Thrown) :
  stepThrew World dockerManager containerId commandName scenario onProgress
    s e s' ->
  runScenarioTry World dockerManager clock startTime containerId commandName
    scenario nodeVersion command onProgress s = (inl e, s').
Proof.
  intros [Hsetup | s1 Hsetup Hinvoke | s1 result s2 Hsetup Hinvoke Hvalidate];
    unfold runScenarioTry, bind; rewrite Hsetup; try reflexivity;
    rewrite Hinvoke; try reflexivity.
  now rewrite Hvalidate.
Qed.

(** And the [try] block throws nothing else. *)
Lemma try_block_thrown (startTime : Z) (s s' : State World) (e : Thrown) :
  runScenarioTry World dockerManager clock startTime containerId commandName
    scenario nodeVersion command onProgress s = (inl e, s') ->
  stepThrew World dockerManager containerId commandName scenario onProgress
    s e s'.
Proof.
  unfold runScenarioTry, bind, dateNow, ret.
  destruct (setupPhase World dockerManager containerId commandName scenario
              onProgress s) as [[e1|[]] s1] eqn:Hsetup.
  - intros [= <- <-]. now apply provisioningThrew.
  - destruct (invokePhase World dockerManager containerId commandName scenario
                onProgress s1) as [[e2|result] s2] eqn:Hinvoke.
    + intros [= <- <-]. now apply invocationThrew with s1.
    + destruct (validateScenario World dockerManager containerId scenario
                  result s2) as [[e3|verdict] s3] eqn:Hvalidate.
      * intros [= <- <-]. now apply validationThrew with s1 result s2.
      * discriminate.
Qed.

(** C2, as the code has it. [runScenario] is the error boundary for every
    [Error]: when the provisioning, the invocation or the validation throws
    an [Error] [e], it returns a record with [passed = false],
    [exitCode = 1], an empty [stdout] and the message of [e] as [stderr] and
    as [error], and nothing ran after the step that threw. A step that
    rejects with [undefined] or [null] is not contained: the handler's read
    of its message throws a [TypeError], which [runScenario] throws on. It
    throws in no other case: when no step rejects so, it returns a
    record. *)
Theorem runScenario_contains_errors (s : State World) :
  (forall e s1,
     stepThrew World dockerManager containerId commandName scenario
       onProgress s (Exception e) s1 ->
     exists r,
       runScenario World dockerManager clock containerId packageName
         commandName scenario nodeVersion command onProgress s = (inr r, s1) /\
       CommandTestResult.passed r = false /\
       CommandTestResult.exitCode r = 1%Z /\
       CommandTestResult.stdout r = EmptyString /\
       CommandTestResult.stderr r = message e /\
       CommandTestResult.error r = Some (message e)) /\
  (forall v s1,
     stepThrew World dockerManager containerId commandName scenario
       onProgress s v s1 ->
     isNullish v = true ->
     exists typeError,
       messageOf v = inl (Exception typeError) /\
       runScenario World dockerManager clock containerId packageName
         commandName scenario nodeVersion command onProgress s =
       (inl (Exception typeError), s1)) /\
  ((forall v s1,
      stepThrew World dockerManager containerId commandName scenario
        onProgress s v s1 ->
      isNullish v = false) ->
   exists r s',
     runScenario World dockerManager clock containerId packageName
       commandName scenario nodeVersion command onProgress s = (inr r, s')).
Proof.
  split; [|split].
  - intros e s1 Hstep.
    apply (try_block_throws (clock (world s))) in Hstep.
    exists (failedResult command nodeVersion
              (clock (world s1) - clock (world s)) (message e)).
    split; [now apply runScenario_caught|]. now repeat split.
  - intros v s1 Hstep Hnullish.
    apply (try_block_throws (clock (world s))) in Hstep.
    rewrite (runScenario_handled _ _ _ Hstep).
    destruct v as [e| |]; [discriminate | |]; eexists; split; reflexivity.
  - intros Hsteps.
    destruct (runScenarioTry World dockerManager clock (clock (world s))
                containerId commandName scenario nodeVersion command
                onProgress s) as [[v|r] s'] eqn:Htry.
    + pose proof (Hsteps v s' (try_block_thrown _ _ _ _ Htry)) as Hv.
      destruct v as [e| |]; try discriminate.
      exists (failedResult command nodeVersion
                (clock (world s') - clock (world s)) (message e)), s'.
      now apply runScenario_caught.
    + exists r, s'. now apply runScenario_returned.
Qed.

Lemma notify_calls (event : ProgressEvent.t) (s s1 : State World)
    (r : Thrown + unit) :
  notify onProgress event s = (r, s1) -> calls s1 = calls s.
Proof.
  unfold notify. destruct onProgress as [callback|].
  - destruct (callback event (world s)) as [r' w']. now intros [= _ <-].
  - now intros [= _ <-].
Qed.

(** C3, as the code has it. When the scenario has a setup block and a step
    of its provisioning throws, the run ends there: neither the invocation
    nor the validation is performed, and [runScenario] ends in the state
    the failing step left, which is that of the plan performed up to its
    first failing step, so that no call on the manager follows it. When what
    was thrown is an [Error] [e], the result is the failed record
    ([passed = false], [exitCode = 1], empty [stdout], the message of [e] as
    [stderr] and [error]). Whether the executor has by then received the
    scenario's argv is left open: the provisioning itself goes through
    it. *)
Theorem setup_failure_aborts (setup : TestSetup.t) (s s1 s2 : State World)
    (v : Thrown) :
  TestScenario.setup scenario = Some setup ->
  notify onProgress (settingUpEvent commandName scenario) s = (inr tt, s1) ->
  setupScenario World dockerManager containerId (Some setup) s1 = (inl v, s2) ->
  snd (runScenario World dockerManager clock containerId packageName
         commandName scenario nodeVersion command onProgress s) = s2 /\
  performAll World dockerManager (provisioningPlan containerId setup) s1 =
    (inl v, s2) /\
  (exists n,
     (n < List.length (provisioningPlan containerId setup))%nat /\
     calls s2 =
     (calls s ++ firstn (S n) (provisioningPlan containerId setup))%list) /\
  (forall e,
     v = Exception e ->
     runScenario World dockerManager clock containerId packageName commandName
       scenario nodeVersion command onProgress s =
     (inr {| CommandTestResult.command := command;
             CommandTestResult.nodeVersion := nodeVersion;
             CommandTestResult.passed := false;
             CommandTestResult.duration := clock (world s2) - clock (world s);
             CommandTestResult.exitCode := 1;
             CommandTestResult.stdout := EmptyString;
             CommandTestResult.stderr := message e;
             CommandTestResult.error := Some (message e);
             CommandTestResult.hasHelpOutput := false;
             CommandTestResult.hasVersionOutput := false |}, s2)).
Proof.
  intros Hsetup Hnotify Hfail.
  assert (Htry :
    runScenarioTry World dockerManager clock (clock (world s)) containerId
      commandName scenario nodeVersion command onProgress s = (inl v, s2)).
  { apply try_block_throws. apply provisioningThrew.
    unfold setupPhase, bind. now rewrite Hsetup, Hnotify, Hfail. }
  split; [|split; [|split]].
  - now rewrite (runScenario_handled _ _ _ Htry).
  - now rewrite <- (ProvisionerFacts.setupScenario_performs World dockerManager).
  - pose proof (ProvisionerFacts.setupScenario_keepsTo World dockerManager
                  containerId setup s1) as Hplan.
    rewrite Hfail in Hplan. destruct Hplan as (n & Hn & Hcalls).
    exists n. split; [exact Hn|].
    now rewrite Hcalls, (notify_calls _ _ _ _ Hnotify).
  - intros e ->. now apply runScenario_caught.
Qed.

End WithManager.

End EngineFacts.

(** ** The validator *)

Module ValidatorFacts.

Import JS ScenarioRunner StringFacts.

(** A loop that pushes [g x] for each [x] appends the pushes in order. *)
Lemma fold_left_pushes {A : Type} (f : list string -> A -> list string)
    (g : A -> list string) :
  (forall errors x, f errors x = (errors ++ g x)%list) ->
  forall xs errors, fold_left f xs errors = (errors ++ flat_map g xs)%list.
Proof.
  intros Hf xs. induction xs as [|x xs IH]; intros errors; simpl.
  - now rewrite app_nil_r.
  - now rewrite IH, Hf, app_assoc.
Qed.

Lemma flat_map_filter {A B : Type} (p : A -> bool) (m : A -> B) (xs : list A) :
  flat_map (fun x => if p x then [m x] else []) xs = map m (filter p xs).
Proof.
  induction xs as [|x xs IH]; simpl; [reflexivity|].
  destruct (p x); simpl; now rewrite IH.
Qed.

Lemma checkExitCode_spec validation result errors :
  checkExitCode validation result errors =
  (errors ++ exitCodeMessages validation result)%list.
Proof.
  unfold checkExitCode, exitCodeMessages, expectedExitCodeOf, exitCodeMessage, push.
  destruct (DockerManager.exitCode result =?
            nullish (TestValidation.exitCode validation) 0)%Z; simpl.
  - now rewrite app_nil_r.
  - reflexivity.
Qed.

Lemma checkStdout_spec validation result errors :
  checkStdout validation result errors =
  (errors ++ map stdoutMessage
     (unmatched (DockerManager.stdout result)
        (orEmpty (TestValidation.stdout validation))))%list.
Proof.
  unfold checkStdout, unmatched.
  destruct (TestValidation.stdout validation) as [patterns|]; cbn [orEmpty].
  - rewrite <- flat_map_filter. apply fold_left_pushes.
    intros errs [t|re]; cbn [matches stdoutMessage];
      [destruct (includes _ t) | destruct (RegExp.test re _)];
      cbn [negb]; unfold push; now rewrite ?app_nil_r.
  - simpl. now rewrite app_nil_r.
Qed.

Lemma checkStderr_spec validation result errors :
  checkStderr validation result errors =
  (errors ++ map stderrMessage
     (unmatched (DockerManager.stderr result)
        (orEmpty (TestValidation.stderr validation))))%list.
Proof.
  unfold checkStderr, unmatched.
  destruct (TestValidation.stderr validation) as [patterns|]; cbn [orEmpty].
  - rewrite <- flat_map_filter. apply fold_left_pushes.
    intros errs [t|re]; cbn [matches stderrMessage];
      [destruct (includes _ t) | destruct (RegExp.test re _)];
      cbn [negb]; unfold push; now rewrite ?app_nil_r.
  - simpl. now rewrite app_nil_r.
Qed.

Lemma contains_loop (path content : string) (patterns : list Matcher)
    (errors : list string) :
  fold_left (fun errors pattern =>
    match pattern with
    | Literal pattern =>
        if negb (includes content pattern) then
          push errors ("File " ++ path ++ " missing expected text: " ++
                       dquote ++ pattern ++ dquote)
        else errors
    | Pattern pattern =>
        if negb (RegExp.test pattern content) then
          push errors ("File " ++ path ++ " doesn't match pattern: " ++
                       RegExp.toString pattern)
        else errors
    end) patterns errors =
  (errors ++ map (missingTextMessage path) (unmatched content patterns))%list.
Proof.
  unfold unmatched. rewrite <- flat_map_filter. apply fold_left_pushes.
  intros errs [t|re]; cbn [matches missingTextMessage];
    [destruct (includes content t) | destruct (RegExp.test re content)];
    cbn [negb]; unfold push; now rewrite ?app_nil_r.
Qed.

Lemma notContains_loop (path content : string) (patterns : list Matcher)
    (errors : list string) :
  fold_left (fun errors pattern =>
    match pattern with
    | Literal pattern =>
        if includes content pattern then
          push errors ("File " ++ path ++ " contains unexpected text: " ++
                       dquote ++ pattern ++ dquote)
        else errors
    | Pattern pattern =>
        if RegExp.test pattern content then
          push errors ("File " ++ path ++ " matches unexpected pattern: " ++
                       RegExp.toString pattern)
        else errors
    end) patterns errors =
  (errors ++ map (unexpectedTextMessage path) (matched content patterns))%list.
Proof.
  unfold matched. rewrite <- flat_map_filter. apply fold_left_pushes.
  intros errs [t|re]; cbn [matches unexpectedTextMessage];
    [destruct (includes content t) | destruct (RegExp.test re content)];
    unfold push; now rewrite ?app_nil_r.
Qed.

(** The three checks on a content that was read push, in this order, the
    [equals] message, the [contains] messages and the [notContains]
    messages. *)
Lemma checkContent_spec fileCheck content errors :
  checkContent fileCheck content errors =
  (errors ++ equalsMessages fileCheck content ++
   containsMessages fileCheck content ++
   notContainsMessages fileCheck content)%list.
Proof.
  unfold checkContent, equalsMessages, containsMessages, notContainsMessages.
  cbv zeta.
  destruct (FileContentValidation.equals fileCheck) as [expected|];
    [destruct (trim content =? trim expected)|];
    destruct (FileContentValidation.contains fileCheck) as [cs|];
    destruct (FileContentValidation.notContains fileCheck) as [ns|];
    cbn [negb orEmpty];
    rewrite ?notContains_loop, ?contains_loop; unfold push;
    cbn [unmatched matched filter map app];
    rewrite ?app_nil_r, <- ?app_assoc; reflexivity.
Qed.

Section WithManager.

Variable World : Type.
Variable dockerManager : DockerManager World.
Variable containerId : string.

(** *** In a world the queries leave alone *)

(** A loop whose every iteration pushes [msgs x], makes the call [call x]
    and stays in [w], pushes all the messages and makes all the calls. *)
Lemma forOfErrors_steady {A : Type} (w : World) (call : A -> Call)
    (msgs : A -> list string)
    (body : A -> list string -> M World (list string)) (xs : list A) :
  (forall x errors cs,
     body x errors (mkState w cs) =
     (inr (errors ++ msgs x)%list, mkState w (cs ++ [call x])%list)) ->
  forall errors cs,
    forOfErrors xs body errors (mkState w cs) =
    (inr (errors ++ flat_map msgs xs)%list, mkState w (cs ++ map call xs)%list).
Proof.
  intros Hbody. induction xs as [|x xs IH]; intros errors cs;
    cbn [forOfErrors flat_map map].
  - unfold ret. now rewrite !app_nil_r.
  - unfold bind. rewrite Hbody, IH, <- !app_assoc. reflexivity.
Qed.

Lemma await_fileExists_steady (w : World) (path : string) (cs : list Call) :
  quiescent World dockerManager containerId w ->
  await (FileExists containerId ("/test/" ++ path))
    (fileExists World dockerManager containerId ("/test/" ++ path))
    (mkState w cs) =
  (inr (existsIn World dockerManager containerId w path),
   mkState w (cs ++ [FileExists containerId ("/test/" ++ path)])%list).
Proof.
  intros [Hexists _]. unfold await, existsIn. cbn [world calls].
  destruct (Hexists ("/test/" ++ path)) as [b Hb]. now rewrite Hb.
Qed.

Lemma checkFilesExist_steady validation (w : World) errors cs :
  quiescent World dockerManager containerId w ->
  checkFilesExist World dockerManager containerId validation errors
    (mkState w cs) =
  (inr (errors ++
        map (fun path => "Expected file not found: " ++ path)%string
          (missingFiles World dockerManager containerId w
             (orEmpty (TestValidation.filesExist validation))))%list,
   mkState w
     (cs ++ map (fun path => FileExists containerId ("/test/" ++ path)%string)
              (orEmpty (TestValidation.filesExist validation)))%list).
Proof.
  intros Hq. unfold checkFilesExist, missingFiles.
  destruct (TestValidation.filesExist validation) as [paths|]; cbn [orEmpty].
  - rewrite <- flat_map_filter. apply forOfErrors_steady.
    intros path errs cs'. unfold bind.
    rewrite (await_fileExists_steady w path cs' Hq).
    destruct (existsIn World dockerManager containerId w path);
      cbn [negb]; unfold ret, push; now rewrite ?app_nil_r.
  - unfold ret. cbn [filter map]. now rewrite !app_nil_r.
Qed.

Lemma checkFilesNotExist_steady validation (w : World) errors cs :
  quiescent World dockerManager containerId w ->
  checkFilesNotExist World dockerManager containerId validation errors
    (mkState w cs) =
  (inr (errors ++
        map (fun path => "File should not exist: " ++ path)%string
          (presentFiles World dockerManager containerId w
             (orEmpty (TestValidation.filesNotExist validation))))%list,
   mkState w
     (cs ++ map (fun path => FileExists containerId ("/test/" ++ path)%string)
              (orEmpty (TestValidation.filesNotExist validation)))%list).
Proof.
  intros Hq. unfold checkFilesNotExist, presentFiles.
  destruct (TestValidation.filesNotExist validation) as [paths|]; cbn [orEmpty].
  - rewrite <- flat_map_filter. apply forOfErrors_steady.
    intros path errs cs'. unfold bind.
    rewrite (await_fileExists_steady w path cs' Hq).
    destruct (existsIn World dockerManager containerId w path);
      unfold ret, push; now rewrite ?app_nil_r.
  - unfold ret. cbn [filter map]. now rewrite !app_nil_r.
Qed.

Lemma checkFileContents_steady validation (w : World) errors cs :
  quiescent World dockerManager containerId w ->
  checkFileContents World dockerManager containerId validation errors
    (mkState w cs) =
  (inr (errors ++
        flat_map (fileContentMessages World dockerManager containerId w)
          (orEmpty (TestValidation.fileContents validation)))%list,
   mkState w
     (cs ++ map (fun fileCheck =>
                   ReadFile containerId
                     ("/test/" ++ FileContentValidation.path fileCheck)%string)
              (orEmpty (TestValidation.fileContents validation)))%list).
Proof.
  intros (_ & Hread & Herror). unfold checkFileContents.
  destruct (TestValidation.fileContents validation) as [checks|]; cbn [orEmpty].
  - apply forOfErrors_steady.
    intros fileCheck errs cs'. cbv zeta.
    unfold tryCatch, bind, await, eval, fileContentMessages.
    cbn [world calls].
    specialize (Hread ("/test/" ++ FileContentValidation.path fileCheck)).
    specialize (Herror ("/test/" ++ FileContentValidation.path fileCheck)).
    destruct (readFile World dockerManager containerId
                ("/test/" ++ FileContentValidation.path fileCheck) w)
      as [[v|content] w'].
    + cbn [snd] in Hread. subst w'. cbn [fst] in *.
      specialize (Herror v eq_refl).
      destruct v as [e| |]; [reflexivity | discriminate | discriminate].
    + cbn [snd] in Hread. subst w'. cbn [fst]. unfold ret.
      now rewrite checkContent_spec.
  - unfold ret. cbn [flat_map map]. now rewrite !app_nil_r.
Qed.

(** In a world the queries leave alone, the validator evaluates every
    category and collects the messages of all of them, category after
    category. *)
Lemma collectErrors_steady scenario result (w : World) cs :
  quiescent World dockerManager containerId w ->
  collectErrors World dockerManager containerId scenario result (mkState w cs) =
  (inr (violationMessages World dockerManager containerId w
          (TestScenario.validate scenario) result),
   mkState w
     (cs ++ validationCalls containerId (TestScenario.validate scenario))%list).
Proof.
  intros Hq. unfold collectErrors, violationMessages, validationCalls, bind.
  cbv zeta.
  rewrite checkExitCode_spec, checkStdout_spec, checkStderr_spec.
  rewrite (checkFilesExist_steady _ _ _ _ Hq).
  rewrite (checkFilesNotExist_steady _ _ _ _ Hq).
  rewrite (checkFileContents_steady _ _ _ _ Hq).
  unfold ret. cbn [app]. now rewrite <- !app_assoc.
Qed.

Lemma exitCodeMessages_mismatch validation result :
  DockerManager.exitCode result <> expectedExitCodeOf validation ->
  exitCodeMessages validation result =
  [exitCodeMessage (expectedExitCodeOf validation)
     (DockerManager.exitCode result)].
Proof.
  intros H. unfold exitCodeMessages.
  now destruct (Z.eqb_spec (DockerManager.exitCode result)
                  (expectedExitCodeOf validation)).
Qed.

(** C1. In a world the validator's queries leave alone, [validateScenario]
    evaluates every category and collects the messages of all; so when the
    exit code differs from the expected one, one [stdout] matcher [m] is
    unmatched, one file [p] of [filesExist] is missing and nothing else is
    violated, it collects exactly three messages, one per violation, and
    reports them joined. *)
Theorem validateScenario_collects_all scenario result (s : State World)
    (m : Matcher) (p : string) :
  let validation := TestScenario.validate scenario in
  let w := world s in
  quiescent World dockerManager containerId w ->
  DockerManager.exitCode result <> expectedExitCodeOf validation ->
  unmatched (DockerManager.stdout result)
    (orEmpty (TestValidation.stdout validation)) = [m] ->
  unmatched (DockerManager.stderr result)
    (orEmpty (TestValidation.stderr validation)) = [] ->
  missingFiles World dockerManager containerId w
    (orEmpty (TestValidation.filesExist validation)) = [p] ->
  presentFiles World dockerManager containerId w
    (orEmpty (TestValidation.filesNotExist validation)) = [] ->
  flat_map (fileContentMessages World dockerManager containerId w)
    (orEmpty (TestValidation.fileContents validation)) = [] ->
  let messages :=
    [exitCodeMessage (expectedExitCodeOf validation)
       (DockerManager.exitCode result);
     stdoutMessage m;
     ("Expected file not found: " ++ p)%string] in
  let s' := mkState w (calls s ++ validationCalls containerId validation)%list in
  collectErrors World dockerManager containerId scenario result s =
    (inr messages, s') /\
  List.length messages = 3%nat /\
  validateScenario World dockerManager containerId scenario result s =
    (inr {| Verdict.passed := false;
            Verdict.error := Some (join "; " messages) |}, s').
Proof.
  intros validation w Hq Hexit Hout Herr Hmiss Hpres Hcont messages s'.
  assert (Hcollect :
    collectErrors World dockerManager containerId scenario result s =
    (inr messages, s')).
  { destruct s as [w0 cs]. cbn [world calls] in *. subst w s'.
    rewrite (collectErrors_steady _ _ _ _ Hq). f_equal. f_equal.
    unfold violationMessages. fold validation.
    rewrite (exitCodeMessages_mismatch _ _ Hexit), Hout, Herr, Hmiss, Hpres, Hcont.
    reflexivity. }
  split; [exact Hcollect|]. split; [reflexivity|].
  unfold validateScenario, bind. now rewrite Hcollect.
Qed.

(** *** In any world *)

Lemma stdoutMessage_other (m : Matcher) :
  isExitCodeMessage (stdoutMessage m) = false.
Proof. destruct m; reflexivity. Qed.

Lemma stderrMessage_other (m : Matcher) :
  isExitCodeMessage (stderrMessage m) = false.
Proof. destruct m; reflexivity. Qed.

Lemma missingTextMessage_other (path : string) (m : Matcher) :
  isExitCodeMessage (missingTextMessage path m) = false.
Proof. destruct m; reflexivity. Qed.

Lemma unexpectedTextMessage_other (path : string) (m : Matcher) :
  isExitCodeMessage (unexpectedTextMessage path m) = false.
Proof. destruct m; reflexivity. Qed.

Lemma Forall_map_other {A : Type} (f : A -> string) (xs : list A) :
  (forall x, isExitCodeMessage (f x) = false) ->
  Forall (fun msg => isExitCodeMessage msg = false) (map f xs).
Proof. intros H. apply Forall_map, Forall_forall. intros x _. apply H. Qed.

Lemma checkContent_other fileCheck content :
  Forall (fun msg => isExitCodeMessage msg = false)
    (equalsMessages fileCheck content ++
     containsMessages fileCheck content ++
     notContainsMessages fileCheck content).
Proof.
  apply Forall_app; split; [|apply Forall_app; split].
  - unfold equalsMessages.
    destruct (FileContentValidation.equals fileCheck) as [expected|];
      [destruct (trim content =? trim expected)|]; repeat constructor.
  - apply Forall_map_other, missingTextMessage_other.
  - apply Forall_map_other, unexpectedTextMessage_other.
Qed.

(** The messages a loop has pushed when it returns are those its iterations
    pushed. *)
Lemma forOfErrors_extends {A : Type} (P : string -> Prop)
    (body : A -> list string -> M World (list string)) (xs : list A) :
  (forall x errors s errors' s',
     body x errors s = (inr errors', s') ->
     exists extra, errors' = (errors ++ extra)%list /\ Forall P extra) ->
  forall errors s errors' s',
    forOfErrors xs body errors s = (inr errors', s') ->
    exists extra, errors' = (errors ++ extra)%list /\ Forall P extra.
Proof.
  intros Hbody. induction xs as [|x xs IH]; intros errors s errors' s';
    cbn [forOfErrors].
  - unfold ret. intros [= <- _]. exists []. now rewrite app_nil_r.
  - unfold bind. destruct (body x errors s) as [[e|errors1] s1] eqn:Hx;
      [discriminate|].
    intros Hrest. apply Hbody in Hx. destruct Hx as (extra1 & -> & H1).
    apply IH in Hrest. destruct Hrest as (extra2 & -> & H2).
    exists (extra1 ++ extra2)%list. rewrite app_assoc. split; [reflexivity|].
    now apply Forall_app.
Qed.

Ltac one_or_none :=
  unfold ret, push;
  let H := fresh in
  intros H; injection H as <- _;
  first [ now (exists []; rewrite app_nil_r; split; [reflexivity | constructor])
        | now (eexists [_]; split; [reflexivity | repeat constructor]) ].

Lemma checkFilesExist_extends validation errors (s : State World) errors' s' :
  checkFilesExist World dockerManager containerId validation errors s =
    (inr errors', s') ->
  exists extra, errors' = (errors ++ extra)%list /\
    Forall (fun msg => isExitCodeMessage msg = false) extra.
Proof.
  unfold checkFilesExist.
  destruct (TestValidation.filesExist validation) as [paths|].
  - apply forOfErrors_extends. clear.
    intros path errors s errors' s'. unfold bind, await.
    destruct (fileExists World dockerManager containerId _ (world s))
      as [[e|[|]] w']; [discriminate| |]; cbn [negb]; one_or_none.
  - one_or_none.
Qed.

Lemma checkFilesNotExist_extends validation errors (s : State World) errors' s' :
  checkFilesNotExist World dockerManager containerId validation errors s =
    (inr errors', s') ->
  exists extra, errors' = (errors ++ extra)%list /\
    Forall (fun msg => isExitCodeMessage msg = false) extra.
Proof.
  unfold checkFilesNotExist.
  destruct (TestValidation.filesNotExist validation) as [paths|].
  - apply forOfErrors_extends. clear.
    intros path errors s errors' s'. unfold bind, await.
    destruct (fileExists World dockerManager containerId _ (world s))
      as [[e|[|]] w']; [discriminate| |]; one_or_none.
  - one_or_none.
Qed.

Lemma checkFileContents_extends validation errors (s : State World) errors' s' :
  checkFileContents World dockerManager containerId validation errors s =
    (inr errors', s') ->
  exists extra, errors' = (errors ++ extra)%list /\
    Forall (fun msg => isExitCodeMessage msg = false) extra.
Proof.
  unfold checkFileContents.
  destruct (TestValidation.fileContents validation) as [checks|].
  - apply forOfErrors_extends. clear.
    intros fileCheck errors s errors' s'. cbv zeta.
    unfold tryCatch, bind, await, eval.
    destruct (readFile World dockerManager containerId _ (world s))
      as [[[e| |]|content] w'].
    + one_or_none.
    + discriminate.
    + discriminate.
    + unfold ret. intros [= <- _]. rewrite checkContent_spec.
      eexists. split; [reflexivity | apply checkContent_other].
  - one_or_none.
Qed.

(** Whenever the validator gets to its verdict, the messages it has
    collected are those of the exit-code check followed by messages of the
    other categories. *)
Lemma collectErrors_shape scenario result (s : State World) errors s' :
  collectErrors World dockerManager containerId scenario result s =
    (inr errors, s') ->
  exists rest,
    errors = (exitCodeMessages (TestScenario.validate scenario) result ++ rest)%list /\
    Forall (fun msg => isExitCodeMessage msg = false) rest.
Proof.
  unfold collectErrors, bind. cbv zeta.
  rewrite checkExitCode_spec, checkStdout_spec, checkStderr_spec. cbn [app].
  destruct (checkFilesExist _ _ _ _ _ s) as [[e|errors1] s1] eqn:H1;
    [discriminate|].
  destruct (checkFilesNotExist _ _ _ _ _ s1) as [[e|errors2] s2] eqn:H2;
    [discriminate|].
  destruct (checkFileContents _ _ _ _ _ s2) as [[e|errors3] s3] eqn:H3;
    [discriminate|].
  unfold ret. intros [= <- _].
  apply checkFilesExist_extends in H1. destruct H1 as (x1 & -> & F1).
  apply checkFilesNotExist_extends in H2. destruct H2 as (x2 & -> & F2).
  apply checkFileContents_extends in H3. destruct H3 as (x3 & -> & F3).
  eexists. rewrite <- !app_assoc. split; [reflexivity|].
  apply Forall_app; split; [apply Forall_map_other, stdoutMessage_other|].
  apply Forall_app; split; [apply Forall_map_other, stderrMessage_other|].
  apply Forall_app; split; [exact F1|].
  apply Forall_app; split; [exact F2 | exact F3].
Qed.

Lemma filter_none {A : Type} (f : A -> bool) (xs : list A) :
  Forall (fun x => f x = false) xs -> filter f xs = [].
Proof.
  induction 1 as [|x xs Hx _ IH]; simpl; [reflexivity | now rewrite Hx].
Qed.

(** C5. When the scenario's [validate] block has no [exitCode], the expected
    exit code is 0: with an actual exit code of 0 the collected messages hold
    no exit-code message, and with another one, such as 1, they hold exactly
    one, which names the expected value 0 and the actual value. *)
Theorem default_expected_exit_code scenario result (s : State World) errors s' :
  TestValidation.exitCode (TestScenario.validate scenario) = None ->
  collectErrors World dockerManager containerId scenario result s =
    (inr errors, s') ->
  (DockerManager.exitCode result = 0%Z ->
   filter isExitCodeMessage errors = []) /\
  (DockerManager.exitCode result <> 0%Z ->
   filter isExitCodeMessage errors =
   [("Expected exit code 0, got " ++
     numberToString (DockerManager.exitCode result))%string]) /\
  (DockerManager.exitCode result = 1%Z ->
   filter isExitCodeMessage errors = ["Expected exit code 0, got 1"]).
Proof.
  intros Hnone Hcollect.
  apply collectErrors_shape in Hcollect. destruct Hcollect as (rest & -> & Hrest).
  rewrite filter_app, (filter_none _ _ Hrest), app_nil_r.
  unfold exitCodeMessages, expectedExitCodeOf. rewrite Hnone. cbn [nullish].
  assert (Hne : DockerManager.exitCode result <> 0%Z ->
    filter isExitCodeMessage
      (if (DockerManager.exitCode result =? 0)%Z then []
       else [exitCodeMessage 0 (DockerManager.exitCode result)]) =
    [("Expected exit code 0, got " ++
      numberToString (DockerManager.exitCode result))%string]).
  { intros Hne. destruct (Z.eqb_spec (DockerManager.exitCode result) 0);
      [contradiction | reflexivity]. }
  split; [|split].
  - intros ->. reflexivity.
  - exact Hne.
  - intros H1. rewrite Hne by (rewrite H1; discriminate). now rewrite H1.
Qed.

(** C8. The verdict of the validator: [passed] is true exactly when no
    message was collected; with at least one message [error] is the messages
    joined with ["; "]; with none [error] is absent. The validator throws
    exactly when the collection does. *)
Theorem verdict_of_collected_messages scenario result (s : State World) :
  match collectErrors World dockerManager containerId scenario result s,
        validateScenario World dockerManager containerId scenario result s with
  | (inr errors, s1), (inr verdict, s2) =>
      s1 = s2 /\
      (Verdict.passed verdict = true <-> List.length errors = 0%nat) /\
      (errors <> [] -> Verdict.error verdict = Some (join "; " errors)) /\
      (errors = [] -> Verdict.error verdict = None)
  | (inl e1, s1), (inl e2, s2) => e1 = e2 /\ s1 = s2
  | _, _ => False
  end.
Proof.
  unfold validateScenario, bind.
  destruct (collectErrors World dockerManager containerId scenario result s)
    as [[e|errors] s1]; [now split|].
  unfold ret, verdictOf. destruct errors as [|msg errors]; cbn.
  - repeat split; trivial. now intros [].
  - repeat split; trivial; discriminate.
Qed.

End WithManager.

End ValidatorFacts.

(** ** File contents: [equals] trims, the matchers do not *)

Module FileContentFacts.

Import JS ScenarioRunner StringFacts.

Lemma prefix_spec (p s : string) :
  String.prefix p s = true <-> exists b, s = p ++ b.
Proof.
  revert s. induction p as [|c p IH]; intros s.
  - destruct s; simpl; split; trivial; intros _; eexists; reflexivity.
  - destruct s as [|d s]; simpl.
    + split; [discriminate | intros [b Hb]; discriminate].
    + destruct (ascii_dec c d) as [->|Hne].
      * rewrite IH. split; intros [b Hb]; exists b; congruence.
      * split; [discriminate | intros [b Hb]; congruence].
Qed.

(** [s.includes(t)] holds exactly when [t] occurs in [s]. *)
Lemma includes_spec (s t : string) :
  includes s t = true <-> exists a b, s = a ++ t ++ b.
Proof.
  induction s as [|c s IH]; cbn [includes]; rewrite orb_true_iff, prefix_spec.
  - split.
    + intros [[b Hb] | H]; [|discriminate]. exists EmptyString, b. exact Hb.
    + intros (a & b & H). left. destruct a; [now exists b | discriminate].
  - rewrite IH. split.
    + intros [[b Hb] | (a & b & H)].
      * exists EmptyString, b. exact Hb.
      * exists (String c a), b. simpl. now rewrite H.
    + intros (a & b & H). destruct a as [|d a]; simpl in H.
      * left. now exists b.
      * right. exists a, b. congruence.
Qed.

Section WithManager.

Variable World : Type.
Variable dockerManager : DockerManager World.
Variable containerId : string.

(** C6. For an entry of [fileContents] whose file was read: the messages are
    those of [equals], then of [contains], then of [notContains]; [equals]
    passes exactly when content and expected text agree after trimming each;
    [contains] and [notContains] take the content as it was read, a literal
    holding when it occurs in it and a pattern when it matches it. So the
    content ["hello\n"] passes [equals: "hello"] and [contains: ["hell"]],
    and fails [contains: ["World"]] with one message. *)
Theorem fileContents_checks :
  (forall validation fileCheck errors (s : State World) content w',
     TestValidation.fileContents validation = Some [fileCheck] ->
     readFile World dockerManager containerId
       ("/test/" ++ FileContentValidation.path fileCheck) (world s) =
       (inr content, w') ->
     checkFileContents World dockerManager containerId validation errors s =
     (inr (errors ++ equalsMessages fileCheck content ++
           containsMessages fileCheck content ++
           notContainsMessages fileCheck content)%list,
      mkState w'
        (calls s ++
         [ReadFile containerId
            ("/test/" ++ FileContentValidation.path fileCheck)])%list)) /\
  (forall fileCheck content,
     equalsMessages fileCheck content = [] <->
     forall expected,
       FileContentValidation.equals fileCheck = Some expected ->
       trim content = trim expected) /\
  (forall fileCheck content,
     containsMessages fileCheck content = [] <->
     forall m, In m (orEmpty (FileContentValidation.contains fileCheck)) ->
               matches content m = true) /\
  (forall fileCheck content,
     notContainsMessages fileCheck content = [] <->
     forall m, In m (orEmpty (FileContentValidation.notContains fileCheck)) ->
               matches content m = false) /\
  (forall content t,
     matches content (Literal t) = true <-> exists a b, content = a ++ t ++ b) /\
  (forall content re, matches content (Pattern re) = RegExp.test re content) /\
  (let content := "hello" ++ LF in
   checkContent (FileContentValidation.mk "f" None None (Some "hello"))
     content [] = [] /\
   checkContent (FileContentValidation.mk "f" (Some [Literal "hell"]) None None)
     content [] = [] /\
   checkContent (FileContentValidation.mk "f" (Some [Literal "World"]) None None)
     content [] =
   ["File f missing expected text: " ++ dquote ++ "World" ++ dquote] /\
   checkContent (FileContentValidation.mk "f" (Some [Literal ("o" ++ LF)]) None None)
     content [] = []).
Proof.
  split; [|split; [|split; [|split; [|split; [|split]]]]].
  - intros validation fileCheck errors s content w' Hchecks Hread.
    unfold checkFileContents. rewrite Hchecks. cbn [forOfErrors].
    unfold tryCatch, bind, await, ret. rewrite Hread.
    now rewrite ValidatorFacts.checkContent_spec.
  - intros fileCheck content. unfold equalsMessages.
    destruct (FileContentValidation.equals fileCheck) as [expected|].
    + destruct (String.eqb_spec (trim content) (trim expected)) as [Heq|Hne].
      * split; [now intros _ e [= <-] | reflexivity].
      * split; [discriminate | intros H; elim Hne; now apply H].
    + split; [intros _ e; discriminate | reflexivity].
  - intros fileCheck content. unfold containsMessages, unmatched.
    set (ms := orEmpty (FileContentValidation.contains fileCheck)). clearbody ms.
    induction ms as [|m ms IH]; cbn [filter map].
    + split; [intros _ m [] | reflexivity].
    + destruct (matches content m) eqn:Hm; cbn [negb map].
      * rewrite IH. split.
        -- intros H m' [<- | Hin]; [exact Hm | now apply H].
        -- intros H m' Hin. apply H. now right.
      * split; [discriminate|]. intros H.
        specialize (H m (or_introl eq_refl)). congruence.
  - intros fileCheck content. unfold notContainsMessages, matched.
    set (ms := orEmpty (FileContentValidation.notContains fileCheck)).
    clearbody ms.
    induction ms as [|m ms IH]; cbn [filter map].
    + split; [intros _ m [] | reflexivity].
    + destruct (matches content m) eqn:Hm; cbn [map].
      * split; [discriminate|]. intros H.
        specialize (H m (or_introl eq_refl)). congruence.
      * rewrite IH. split.
        -- intros H m' [<- | Hin]; [exact Hm | now apply H].
        -- intros H m' Hin. apply H. now right.
  - intros content t. apply includes_spec.
  - reflexivity.
  - cbv zeta. repeat split; vm_compute; reflexivity.
Qed.

End WithManager.

End FileContentFacts.

(** ** The engine at work on the container in memory *)

Module InMemoryRuns.

Import JS ScenarioRunner InMemory.

Lemma inMemory_quiescent (containerId : string) (w : World) :
  quiescent World manager containerId w.
Proof.
  split; [|split]; intros path; cbn.
  - unfold fileExists. eexists. reflexivity.
  - unfold readFile. now destruct (lookup path (files w)).
  - intros error. unfold readFile.
    destruct (lookup path (files w)); cbn; [discriminate | now intros [= <-]].
Qed.

(** [echo hi] exits with 0 and prints [hi]: the scenario passes and no error
    is reported. *)
Example echo_scenario_passes :
  exists r s', run echoScenario (fresh 3) = (inr r, s') /\
    CommandTestResult.passed r = true /\ CommandTestResult.error r = None.
Proof. do 2 eexists. split; [vm_compute; reflexivity|]. now split. Qed.

(** [false] exits with 1 and creates no [out.txt]: the scenario fails with
    two messages joined. *)
Example false_scenario_fails_twice :
  exists r s', run falseScenario (fresh 3) = (inr r, s') /\
    CommandTestResult.passed r = false /\
    CommandTestResult.error r =
    Some "Expected exit code 0, got 1; Expected file not found: out.txt".
Proof. do 2 eexists. split; [vm_compute; reflexivity|]. now split. Qed.

Lemma executeCommand_demultiplexes_witness :
  DockerManager.executeCommand asciiToString (streaming exampleChunks (Some 3%Z))
    "box" ["ls"] =
  inr {| DockerManager.exitCode := 3; DockerManager.stdout := "out1out2";
         DockerManager.stderr := "err" |}.
Proof.
  exact (DemuxFacts.executeCommand_demultiplexes asciiToString eq_refl
           (streaming exampleChunks (Some 3%Z)) "box" ["ls"]
           {| DockerManager.ExitCode := Some 3%Z |}
           eq_refl eq_refl eq_refl eq_refl).
Defined.

Lemma unknown_channel_discarded_witness :
  DockerManager.channelTag (frame x03 "zzz") = Some 3%N /\
  DockerManager.onData asciiToString ("out", "err") (frame x03 "zzz") =
  ("out", "err").
Proof.
  split; [reflexivity|].
  apply (DemuxFacts.unknown_channel_discarded asciiToString (frame x03 "zzz"));
    discriminate.
Defined.

Lemma absent_exit_code_is_zero_witness :
  exists out err,
    DockerManager.executeCommand asciiToString (streaming exampleChunks None)
      "box" ["ls"] =
    inr {| DockerManager.exitCode := 0; DockerManager.stdout := out;
           DockerManager.stderr := err |}.
Proof.
  apply (DemuxFacts.absent_exit_code_is_zero asciiToString
           (streaming exampleChunks None) "box" ["ls"]); reflexivity.
Defined.

Lemma validateScenario_collects_all_witness :
  exists s',
    validateScenario World manager "box" threeAssertions (runCommand ["false"])
      (fresh 3) =
    (inr {| Verdict.passed := false;
            Verdict.error :=
              Some ("Expected exit code 0, got 1; " ++
                    "Stdout missing expected text: " ++ dquote ++ "done" ++
                    dquote ++ "; Expected file not found: out.txt") |}, s').
Proof.
  eexists.
  apply (ValidatorFacts.validateScenario_collects_all World manager "box"
           threeAssertions (runCommand ["false"]) (fresh 3)
           (Literal "done") "out.txt");
    [apply inMemory_quiescent | discriminate | reflexivity ..].
Defined.

Lemma default_expected_exit_code_witness :
  collectErrors World manager "box" (scenarioOf None "false" None noValidation)
    (runCommand ["false"]) (fresh 0) =
  (inr ["Expected exit code 0, got 1"], fresh 0) /\
  filter isExitCodeMessage
    ["Expected exit code 0, got 1"] = ["Expected exit code 0, got 1"].
Proof.
  split; [reflexivity|].
  exact (proj2 (proj2
           (ValidatorFacts.default_expected_exit_code World manager "box"
              (scenarioOf None "false" None noValidation) (runCommand ["false"])
              (fresh 0) ["Expected exit code 0, got 1"] (fresh 0)
              eq_refl eq_refl)) eq_refl).
Defined.

(** The two sides of C2 at work: the connection lost during the setup of
    [shellScenario] is an [Error], and the run returns the failed record;
    the stream of [broken] fails with no error, and the run of [echoScenario]
    throws. *)
Lemma runScenario_contains_errors_witness :
  (exists r s',
     run shellScenario (fresh 1) = (inr r, s') /\
     CommandTestResult.passed r = false /\
     CommandTestResult.stderr r = "connection lost") /\
  (exists s',
     runScenario World brokenManager time "box" "pkg" "tool" echoScenario
       "20" cli None (fresh 3) =
     (inl (Exception
             (mkError "Cannot read properties of undefined (reading 'message')")),
      s')).
Proof.
  split.
  - destruct (proj1 (EngineFacts.runScenario_contains_errors World manager time
                       "box" "pkg" "tool" shellScenario "20" cli None (fresh 1))
                (mkError "connection lost")
                (snd (setupPhase World manager "box" "tool" shellScenario None
                        (fresh 1))))
      as (r & Hrun & Hpassed & _ & _ & Hstderr & _).
    + apply provisioningThrew. vm_compute. reflexivity.
    + exists r. eexists. split; [exact Hrun|]. now split.
  - destruct (proj1 (proj2
                (EngineFacts.runScenario_contains_errors World brokenManager
                   time "box" "pkg" "tool" echoScenario "20" cli None
                   (fresh 3)))
                ThrownUndefined
                (snd (invokePhase World brokenManager "box" "tool" echoScenario
                        None (fresh 3))))
      as (typeError & Hmessage & Hrun).
    + apply invocationThrew with (fresh 3); vm_compute; reflexivity.
    + reflexivity.
    + injection Hmessage as <-. eexists. exact Hrun.
Defined.

(** C2, as the specification states it, fails when the invocation is
    rejected with no error: the executor's stream emits ['error'] with
    [undefined], [executeCommand] rejects with it, and [runScenario], reading
    the message of what it caught, throws a [TypeError] to its caller
    instead of returning a record. *)
Lemma runScenario_throws_counterexample :
  let outcome :=
    runScenario World brokenManager time "box" "pkg" "tool" echoScenario
      "20" cli None (fresh 3) in
  invokePhase World brokenManager "box" "tool" echoScenario None (fresh 3) =
    (inl ThrownUndefined, snd outcome) /\
  fst outcome =
    inl (Exception
           (mkError "Cannot read properties of undefined (reading 'message')")) /\
  ~ (exists r, fst outcome = inr r).
Proof.
  cbv zeta. split; [vm_compute; reflexivity|].
  split; [vm_compute; reflexivity|].
  intros [r Hr]. vm_compute in Hr. discriminate.
Qed.

Lemma setup_failure_aborts_witness :
  exists s2,
    setupScenario World manager "box" (Some shellSetup) (fresh 1) =
    (inl (Exception (mkError "connection lost")), s2) /\
    run shellScenario (fresh 1) =
    (inr {| CommandTestResult.command := cli;
            CommandTestResult.nodeVersion := "20";
            CommandTestResult.passed := false;
            CommandTestResult.duration := 1;
            CommandTestResult.exitCode := 1;
            CommandTestResult.stdout := EmptyString;
            CommandTestResult.stderr := "connection lost";
            CommandTestResult.error := Some "connection lost";
            CommandTestResult.hasHelpOutput := false;
            CommandTestResult.hasVersionOutput := false |}, s2).
Proof.
  exists (snd (setupScenario World manager "box" (Some shellSetup) (fresh 1))).
  split; [reflexivity|].
  apply (proj2 (proj2 (proj2
           (EngineFacts.setup_failure_aborts World manager time "box"
              "pkg" "tool" shellScenario "20" cli None shellSetup
              (fresh 1) (fresh 1)
              (snd (setupScenario World manager "box" (Some shellSetup)
                      (fresh 1)))
              (Exception (mkError "connection lost"))
              eq_refl eq_refl eq_refl)))
           (mkError "connection lost") eq_refl).
Defined.

(** C3, as the specification states it, fails twice. On [shellScenario]
    when the daemon answers one command and then loses the connection: the
    installation of the dependencies throws, the scenario's command is not
    run after it, and yet the executor has received a call with the
    scenario's argv, the provisioner's own project initialization. And on
    the same scenario when the executor's stream fails with no error: the
    project initialization rejects with [undefined], and no record with
    [exitCode = 1] is returned, for [runScenario] throws. *)
Lemma setup_failure_counterexample :
  TestScenario.setup shellScenario = Some shellSetup /\
  (exists s2,
     setupScenario World manager "box" (Some shellSetup) (fresh 1) =
     (inl (Exception (mkError "connection lost")), s2) /\
     s2 = snd (run shellScenario (fresh 1))) /\
  In (ExecuteCommand "box" (fullCommandOf shellScenario))
     (calls (snd (run shellScenario (fresh 1)))) /\
  (exists s2,
     setupScenario World brokenManager "box" (Some shellSetup) (fresh 1) =
     (inl ThrownUndefined, s2)) /\
  ~ (exists r,
       fst (runScenario World brokenManager time "box" "pkg" "tool"
              shellScenario "20" cli None (fresh 1)) = inr r).
Proof.
  split; [reflexivity|]. split; [|split; [|split]].
  - eexists. split; vm_compute; reflexivity.
  - vm_compute. do 4 right. left. reflexivity.
  - eexists. vm_compute. reflexivity.
  - intros [r Hr]. vm_compute in Hr. discriminate.
Qed.

(** The provisioning of [shellScenario] with a daemon that answers every
    command is its plan performed: it makes the six calls of the plan and
    leaves the two declared files in the container, the one written last
    first. *)
Lemma setupScenario_follows_plan_witness :
  exists s',
    setupScenario World manager "box" (Some shellSetup) (fresh 3) =
    (inr tt, s') /\
    files (world s') = [("/test/b.txt", "y"); ("/test/src/a.txt", "x")] /\
    calls s' =
    [CreateDirectory "box" "/test/out";
     CreateDirectory "box" "/test/src";
     CreateFile "box" "/test/src/a.txt" "x";
     CreateFile "box" "/test/b.txt" "y";
     ExecuteCommand "box" ["sh"; "-c"; "cd /test && npm init -y"];
     ExecuteCommand "box"
       ["sh"; "-c"; "cd /test && npm install left-pad chalk"]].
Proof.
  rewrite (proj1 (ProvisionerFacts.setupScenario_follows_plan World manager
                    "box" shellSetup (fresh 3))).
  eexists. split; [vm_compute; reflexivity|]. split; reflexivity.
Defined.

End InMemoryRuns.

(** ** The package analyzer *)

Module AnalyzerFacts.

Import JS JSString PackageAnalyzer.

Lemma determineCommandType_cases (commandName packageName : string) :
  determineCommandType commandName packageName true = CommandType.PRIMARY /\
  (determineCommandType commandName packageName false = CommandType.PRIMARY <->
   commandName = packageName).
Proof.
  unfold determineCommandType. cbv zeta.
  destruct (String.eqb_spec commandName packageName) as [Heq|Hne].
  - split; [reflexivity | now split].
  - destruct (includes packageName commandName || includes commandName packageName)%bool.
    + split; [reflexivity | split; [discriminate | contradiction]].
    + rewrite !andb_false_r, !andb_true_r. cbn [negb].
      split; [reflexivity|].
      destruct (startsWith commandName _ || existsb _ _)%bool;
        split; try discriminate; contradiction.
Qed.

(** X1. The first command of a package is always its primary command; a later
    one is primary exactly when it bears the name of the package. *)
Theorem determineCommandType_primary (commandName packageName : string) :
  determineCommandType commandName packageName true = CommandType.PRIMARY /\
  (determineCommandType commandName packageName false = CommandType.PRIMARY <->
   commandName = packageName).
Proof. exact (determineCommandType_cases commandName packageName). Qed.

Lemma existsb_empty_part (commandName : string) (parts : list string) :
  In EmptyString parts ->
  existsb (fun part => startsWith commandName (substring0 part 3)) parts = true.
Proof.
  intros Hin. apply existsb_exists. exists EmptyString. split; [exact Hin|].
  unfold startsWith, substring0. cbn. now destruct commandName.
Qed.

(** X2. When the package name has an empty part between hyphens (a hyphen at
    either end, or two in a row), every command after the first that is not
    named as the package is an alias: none is a utility. *)
Theorem determineCommandType_empty_part (commandName packageName : string) :
  In EmptyString (split "-"%char packageName) ->
  commandName <> packageName ->
  determineCommandType commandName packageName false = CommandType.ALIAS.
Proof.
  intros Hpart Hne. unfold determineCommandType. cbv zeta.
  destruct (String.eqb_spec commandName packageName) as [Heq|_];
    [contradiction|].
  destruct (includes packageName commandName || includes commandName packageName)%bool;
    [reflexivity|].
  now rewrite (existsb_empty_part commandName _ Hpart), orb_true_r.
Qed.

Lemma commandsFrom_names (packageName : string) (index : nat)
    (binEntries : list (string * string)) :
  map CLICommand.name (commandsFrom packageName index binEntries) =
    map fst binEntries /\
  map CLICommand.path (commandsFrom packageName index binEntries) =
    map snd binEntries.
Proof.
  revert index. induction binEntries as [|[cmdName cmdPath] rest IH];
    intros index; cbn [commandsFrom map fst snd]; [now split|].
  destruct (IH (S index)) as [Hn Hp]. now rewrite Hn, Hp.
Qed.

Lemma commandsFrom_later (packageName : string) (index : nat)
    (binEntries : list (string * string)) (c : CLICommand.t) :
  In c (commandsFrom packageName (S index) binEntries) ->
  (CLICommand.type c = CommandType.PRIMARY <-> CLICommand.name c = packageName).
Proof.
  revert index. induction binEntries as [|[cmdName cmdPath] rest IH];
    intros index; cbn [commandsFrom]; [intros []|].
  intros [<- | Hin]; [|now apply (IH (S index))].
  cbn [CLICommand.type CLICommand.name Nat.eqb].
  apply determineCommandType_cases.
Qed.

(** X3. For a [bin] that maps names to paths, [extractCommands] yields one
    command per entry, with the entry's name and path, in the order of the
    entries; the first is primary, and a later one is primary exactly when it
    bears the name of the package. *)
Theorem extractCommands_of_map (name : string)
    (binEntries : list (string * string)) :
  let commands := extractCommands name (BinMap binEntries) in
  map CLICommand.name commands = map fst binEntries /\
  map CLICommand.path commands = map snd binEntries /\
  forall first later,
    commands = first :: later ->
    CLICommand.type first = CommandType.PRIMARY /\
    forall c, In c later ->
      (CLICommand.type c = CommandType.PRIMARY <-> CLICommand.name c = name).
Proof.
  cbv zeta. unfold extractCommands.
  destruct (commandsFrom_names name 0 binEntries) as [Hn Hp].
  split; [exact Hn|]. split; [exact Hp|].
  intros first later Hcommands.
  destruct binEntries as [|[cmdName cmdPath] rest]; [discriminate|].
  cbn [commandsFrom Nat.eqb] in Hcommands. injection Hcommands as <- <-.
  split.
  - cbn [CLICommand.type]. apply determineCommandType_cases.
  - intros c Hin. now apply (commandsFrom_later name 0 rest).
Qed.

Lemma isExample_spec (ex : Json) :
  isExample ex =
  if isNull ex then inl (nullTypeError "command")
  else inr (wellFormedExample ex).
Proof.
  unfold isExample, hasStringMember, wellFormedExample.
  destruct ex as [|b|n|s|items|members]; cbn; try reflexivity.
  destruct (lookup "command" members) as [[]|]; try reflexivity.
  destruct (lookup "description" members) as [[]|]; reflexivity.
Qed.

Lemma filterThrowing_spec (items : list Json) :
  filterThrowing isExample items =
  if existsb isNull items then inl (nullTypeError "command")
  else inr (filter wellFormedExample items).
Proof.
  induction items as [|ex items IH]; cbn [filterThrowing existsb filter];
    [reflexivity|].
  rewrite isExample_spec, IH.
  destruct (isNull ex); cbn [orb]; [reflexivity|].
  destruct (existsb isNull items); [reflexivity|].
  now destruct (wellFormedExample ex).
Qed.

(** X4. When [npt.examples] is an array, [extractExamples] throws a [TypeError]
    if one of its entries is [null]; if none is, it keeps, in their order,
    exactly the entries that are objects with a string [command] and a string
    [description], and yields their commands and descriptions. *)
Theorem extractExamples_of_array (packageJson nptMembers : list (string * Json))
    (items : list Json) :
  lookup "npt" packageJson = Some (JObject nptMembers) ->
  lookup "examples" nptMembers = Some (JArray items) ->
  extractExamples packageJson =
  if existsb isNull items then inl (nullTypeError "command")
  else inr (Some (map toExample (filter wellFormedExample items))).
Proof.
  intros Hnpt Hexamples. unfold extractExamples.
  rewrite Hnpt. cbn [truthy negb getMember]. rewrite Hexamples.
  cbn [truthy negb]. rewrite filterThrowing_spec.
  now destruct (existsb isNull items).
Qed.

End AnalyzerFacts.

(** ** Regular expressions: the search finds what the pattern matches *)

Module RegexFacts.

Import Regex StringFacts.

Lemma lang_nil_nullable (r : t) (s : string) :
  lang r s -> s = EmptyString -> nullable r = true.
Proof.
  induction 1 as [ | c | c Hc | r1 r2 s1 s2 _ IH1 _ IH2 | r1 r2 s _ IH
                 | r1 r2 s _ IH | r | r s1 s2 _ _ _ _ ];
    intros Hs; cbn [nullable]; try reflexivity; try discriminate.
  - destruct s1; [|discriminate]. cbn in Hs. now rewrite IH1, IH2.
  - now rewrite IH.
  - rewrite IH by assumption. apply orb_true_r.
Qed.

Lemma nullable_lang_nil (r : t) : nullable r = true -> lang r EmptyString.
Proof.
  induction r as [ | | c | | r1 IH1 r2 IH2 | r1 IH1 r2 IH2 | r IH ];
    cbn [nullable]; intros H; try discriminate.
  - constructor.
  - apply andb_true_iff in H. destruct H as [H1 H2].
    change EmptyString with (EmptyString ++ EmptyString).
    constructor; auto.
  - apply orb_true_iff in H. destruct H as [H | H];
      [apply lang_Alt_l | apply lang_Alt_r]; auto.
  - constructor.
Qed.

Lemma deriv_sound (r : t) (c : ascii) (s : string) :
  lang (deriv c r) s -> lang r (String c s).
Proof.
  revert s.
  induction r as [ | | d | | r1 IH1 r2 IH2 | r1 IH1 r2 IH2 | r IH ];
    intros s; cbn [deriv]; intros H.
  - inversion H.
  - inversion H.
  - destruct (Ascii.eqb_spec c d) as [->|]; inversion H; subst. constructor.
  - destruct (isDigit c) eqn:Hc; inversion H; subst. now constructor.
  - assert (Hseq : forall t, lang (Seq (deriv c r1) r2) t ->
                             lang (Seq r1 r2) (String c t)).
    { intros t Ht. inversion Ht; subst.
      change (String c (s1 ++ s2)) with (String c s1 ++ s2).
      constructor; auto. }
    destruct (nullable r1) eqn:Hn; [|now apply Hseq].
    inversion H; subst; [now apply Hseq|].
    change (String c s) with (EmptyString ++ String c s).
    constructor; [now apply nullable_lang_nil | auto].
  - inversion H; subst; [apply lang_Alt_l | apply lang_Alt_r]; auto.
  - inversion H; subst.
    change (String c (s1 ++ s2)) with (String c s1 ++ s2).
    constructor; auto.
Qed.

Lemma deriv_complete (r : t) (u : string) :
  lang r u -> forall c s, u = String c s -> lang (deriv c r) s.
Proof.
  induction 1 as [ | d | d Hd | r1 r2 s1 s2 H1 IH1 H2 IH2 | r1 r2 u H IH
                 | r1 r2 u H IH | r | r s1 s2 H1 IH1 H2 IH2 ];
    intros c s Hu; cbn [deriv].
  - discriminate.
  - injection Hu as <- <-. rewrite Ascii.eqb_refl. constructor.
  - injection Hu as <- <-. rewrite Hd. constructor.
  - destruct s1 as [|c1 s1].
    + cbn in Hu. rewrite (lang_nil_nullable _ _ H1 eq_refl).
      apply lang_Alt_r. now apply IH2.
    + cbn in Hu. injection Hu as -> <-.
      assert (Hseq : lang (Seq (deriv c r1) r2) (s1 ++ s2))
        by (constructor; [now apply IH1 | exact H2]).
      destruct (nullable r1); [now apply lang_Alt_l | exact Hseq].
  - apply lang_Alt_l. now apply IH.
  - apply lang_Alt_r. now apply IH.
  - discriminate.
  - destruct s1 as [|c1 s1].
    + cbn in Hu. now apply IH2.
    + cbn in Hu. injection Hu as -> <-.
      constructor; [now apply IH1 | exact H2].
Qed.

Lemma matchesPrefix_spec (r : t) (s : string) :
  matchesPrefix r s = true <-> exists m b, s = m ++ b /\ lang r m.
Proof.
  revert r. induction s as [|c s IH]; intros r; cbn [matchesPrefix];
    rewrite orb_true_iff.
  - split.
    + intros [H | H]; [|discriminate].
      exists EmptyString, EmptyString. split; [reflexivity|].
      now apply nullable_lang_nil.
    + intros (m & b & Hs & Hm). left. destruct m; [|discriminate].
      now apply (lang_nil_nullable r EmptyString).
  - rewrite IH. split.
    + intros [H | (m & b & -> & Hm)].
      * exists EmptyString, (String c s). split; [reflexivity|].
        now apply nullable_lang_nil.
      * exists (String c m), b. split; [reflexivity | now apply deriv_sound].
    + intros (m & b & Hs & Hm). destruct m as [|d m].
      * left. now apply (lang_nil_nullable r EmptyString).
      * right. cbn in Hs. injection Hs as <- ->. exists m, b.
        split; [reflexivity | now apply (deriv_complete r (String c m))].
Qed.

(** The search succeeds exactly when some part of the text is matched by
    the pattern. *)
Lemma test_spec (r : t) (s : string) :
  test r s = true <-> exists a m b, s = a ++ m ++ b /\ lang r m.
Proof.
  induction s as [|c s IH]; cbn [test]; rewrite orb_true_iff, matchesPrefix_spec.
  - split.
    + intros [(m & b & Hs & Hm) | H]; [|discriminate].
      exists EmptyString, m, b. now split.
    + intros (a & m & b & Hs & Hm). left. destruct a; [|discriminate].
      now exists m, b.
  - rewrite IH. split.
    + intros [(m & b & Hs & Hm) | (a & m & b & -> & Hm)].
      * exists EmptyString, m, b. now split.
      * exists (String c a), m, b. now split.
    + intros (a & m & b & Hs & Hm). destruct a as [|d a].
      * left. now exists m, b.
      * right. cbn in Hs. injection Hs as <- ->. now exists a, m, b.
Qed.

Lemma lang_Seq_iff (r1 r2 : t) (s : string) :
  lang (Seq r1 r2) s <-> exists s1 s2, s = s1 ++ s2 /\ lang r1 s1 /\ lang r2 s2.
Proof.
  split.
  - intros H. inversion H; subst. now exists s1, s2.
  - intros (s1 & s2 & -> & H1 & H2). now constructor.
Qed.

Lemma lang_Char_iff (c : ascii) (s : string) :
  lang (Char c) s <-> s = String c EmptyString.
Proof.
  split; [intros H; now inversion H | intros ->; constructor].
Qed.

Lemma lang_Opt_iff (r : t) (s : string) :
  lang (Opt r) s <-> s = EmptyString \/ lang r s.
Proof.
  unfold Opt. split.
  - intros H. inversion H; subst; [left | now right].
    match goal with H' : lang Empty _ |- _ => now inversion H' end.
  - intros [-> | H]; [apply lang_Alt_l; constructor | now apply lang_Alt_r].
Qed.

Lemma lang_Star_Digit (u : t) (s : string) :
  lang u s -> u = Star Digit -> allDigits s = true.
Proof.
  induction 1 as [ | | | | | | r | r s1 s2 H1 _ _ IH2 ]; intros Hu;
    try discriminate; [reflexivity|].
  injection Hu as ->. inversion H1; subst. cbn.
  rewrite IH2 by reflexivity. now rewrite andb_true_r.
Qed.

Lemma allDigits_lang (s : string) : allDigits s = true -> lang (Star Digit) s.
Proof.
  induction s as [|c s IH]; cbn [allDigits]; intros H; [constructor|].
  apply andb_true_iff in H. destruct H as [Hc Hs].
  change (String c s) with (String c EmptyString ++ s).
  constructor; [now constructor | auto].
Qed.

(** [\d+] matches the texts of one digit or more. *)
Lemma lang_Plus_Digit (s : string) :
  lang (Plus Digit) s <-> isNumber s = true.
Proof.
  unfold Plus. rewrite lang_Seq_iff. split.
  - intros (s1 & s2 & -> & H1 & H2). inversion H1; subst. cbn.
    rewrite (lang_Star_Digit _ _ H2 eq_refl). now rewrite andb_true_r.
  - destruct s as [|c s]; [discriminate|]. cbn. intros H.
    apply andb_true_iff in H. destruct H as [Hc Hs].
    exists (String c EmptyString), s.
    split; [reflexivity|]. split; [now constructor | now apply allDigits_lang].
Qed.

End RegexFacts.

(** ** The test runner: verdicts on the probes, defaults and summary *)

Module RunnerPureFacts.

Import JS JSString TestRunnerPure StringFacts.

Lemma arrayIncludes_In (arr : list string) (x : string) :
  arrayIncludes arr x = true <-> In x arr.
Proof.
  unfold arrayIncludes. rewrite existsb_exists. split.
  - intros (y & Hin & Heq). apply String.eqb_eq in Heq. now subst.
  - intros Hin. exists x. split; [exact Hin | apply String.eqb_refl].
Qed.

Lemma isTestPassed_iff (result : DockerManager.ExecResult)
    (args : list string) :
  isTestPassed result args = true <->
  DockerManager.exitCode result = 0%Z \/
  (DockerManager.exitCode result = 1%Z /\
   ~ In "--help" args /\ ~ In "--version" args).
Proof.
  unfold isTestPassed.
  destruct (arrayIncludes args "--help") eqn:Hhelp;
    destruct (arrayIncludes args "--version") eqn:Hversion; cbn [orb];
    rewrite ?orb_true_iff, !Z.eqb_eq;
    try (apply arrayIncludes_In in Hhelp);
    try (apply arrayIncludes_In in Hversion).
  1-3: split; [now left | intros [H | (_ & H1 & H2)]; [exact H | tauto]].
  assert (H1 : ~ In "--help" args)
    by (intros Hin; apply arrayIncludes_In in Hin; congruence).
  assert (H2 : ~ In "--version" args)
    by (intros Hin; apply arrayIncludes_In in Hin; congruence).
  tauto.
Qed.

(** X5. A probe passes exactly when the command exits with 0, or exits with 1
    and was given neither [--help] nor [--version]. *)
Theorem isTestPassed_spec (result : DockerManager.ExecResult)
    (args : list string) :
  isTestPassed result args = true <->
  DockerManager.exitCode result = 0%Z \/
  (DockerManager.exitCode result = 1%Z /\
   ~ In "--help" args /\ ~ In "--version" args).
Proof. exact (isTestPassed_iff result args). Qed.

Lemma toLowerCase_app (a b : string) :
  toLowerCase (a ++ b) = toLowerCase a ++ toLowerCase b.
Proof. induction a as [|c a IH]; cbn; [reflexivity | now rewrite IH]. Qed.

Lemma toLowerCase_split (s x y : string) :
  toLowerCase s = x ++ y ->
  exists s1 s2, s = s1 ++ s2 /\ toLowerCase s1 = x /\ toLowerCase s2 = y.
Proof.
  revert s. induction x as [|c x IH]; intros s H.
  - exists EmptyString, s. now repeat split.
  - destruct s as [|d s]; [discriminate|]. cbn in H. injection H as Hc Hs.
    destruct (IH s Hs) as (s1 & s2 & -> & H1 & H2).
    exists (String d s1), s2. cbn. now rewrite Hc, H1.
Qed.

Lemma includes_lower (s kw : string) :
  includes (toLowerCase s) kw = true <->
  exists a u b, s = a ++ u ++ b /\ toLowerCase u = kw.
Proof.
  rewrite FileContentFacts.includes_spec. split.
  - intros (a' & b' & H).
    destruct (toLowerCase_split _ _ _ H) as (a & rest & -> & _ & Hrest).
    destruct (toLowerCase_split _ _ _ Hrest) as (u & b & -> & Hu & _).
    now exists a, u, b.
  - intros (a & u & b & -> & <-).
    exists (toLowerCase a), (toLowerCase b). now rewrite !toLowerCase_app.
Qed.

(** X6. Help output is detected exactly when [stdout] followed by [stderr]
    holds one of the words usage, options, commands, help in whatever
    letter case, be it across the seam of the two. *)
Theorem hasHelpOutput_spec (stdout stderr : string) :
  hasHelpOutput stdout stderr = true <->
  exists kw, In kw helpKeywords /\
    exists a u b, stdout ++ stderr = a ++ u ++ b /\ toLowerCase u = kw.
Proof.
  unfold hasHelpOutput, helpKeywords. cbv zeta.
  rewrite !orb_true_iff, !includes_lower. split.
  - intros [[[H | H] | H] | H]; eexists; (split; [|exact H]); cbn; auto.
  - intros (kw & Hin & H). cbn in Hin.
    destruct Hin as [<- | [<- | [<- | [<- | []]]]]; auto.
Qed.

Lemma lowerChar_fixes (c : ascii) :
  (Regex.isDigit (lowerChar c) || Ascii.eqb (lowerChar c) ".")%bool = true ->
  lowerChar c = c.
Proof.
  destruct c as [[] [] [] [] [] [] [] []]; vm_compute;
    intros H; first [reflexivity | discriminate H].
Qed.

Lemma lowerChar_keeps (c : ascii) :
  (Regex.isDigit c || Ascii.eqb c ".")%bool = true -> lowerChar c = c.
Proof.
  destruct c as [[] [] [] [] [] [] [] []]; vm_compute;
    intros H; first [reflexivity | discriminate H].
Qed.

Lemma toLowerCase_digits (s : string) :
  Regex.allDigits s = true -> toLowerCase s = s.
Proof.
  induction s as [|c s IH]; cbn; [reflexivity|]. intros H.
  apply andb_true_iff in H. destruct H as [Hc Hs].
  rewrite IH by exact Hs. rewrite lowerChar_keeps; [reflexivity|].
  now rewrite Hc.
Qed.

Lemma toLowerCase_digits_inv (s d : string) :
  toLowerCase s = d -> Regex.allDigits d = true -> s = d.
Proof.
  revert d. induction s as [|c s IH]; intros d <-; cbn; [reflexivity|].
  intros H. apply andb_true_iff in H. destruct H as [Hc Hs].
  rewrite (IH _ eq_refl Hs) at 1. rewrite lowerChar_fixes; [reflexivity|].
  now rewrite Hc.
Qed.

Lemma isNumber_allDigits (s : string) :
  Regex.isNumber s = true -> Regex.allDigits s = true.
Proof. now destruct s. Qed.

Lemma toLowerCase_dot_inv (s : string) : toLowerCase s = "." -> s = ".".
Proof.
  destruct s as [|c [|d s]]; cbn; try discriminate.
  intros [= H]. pose proof (lowerChar_fixes c) as Hc. rewrite H in Hc.
  now rewrite <- (Hc eq_refl).
Qed.

(** What [/v?\d+\.\d+\.\d+/] matches: an optional [v], then three numbers
    with a dot between them. *)
Lemma lang_versionPattern (m : string) :
  Regex.lang versionPattern m <->
  exists v d1 d2 d3,
    m = v ++ d1 ++ "." ++ d2 ++ "." ++ d3 /\
    (v = EmptyString \/ v = "v") /\
    Regex.isNumber d1 = true /\ Regex.isNumber d2 = true /\
    Regex.isNumber d3 = true.
Proof.
  unfold versionPattern. split.
  - intros H.
    apply RegexFacts.lang_Seq_iff in H. destruct H as (v & m1 & -> & Hv & H).
    apply RegexFacts.lang_Seq_iff in H. destruct H as (d1 & m2 & -> & H1 & H).
    apply RegexFacts.lang_Seq_iff in H. destruct H as (p1 & m3 & -> & Hp1 & H).
    apply RegexFacts.lang_Seq_iff in H. destruct H as (d2 & m4 & -> & H2 & H).
    apply RegexFacts.lang_Seq_iff in H. destruct H as (p2 & d3 & -> & Hp2 & H3).
    apply RegexFacts.lang_Char_iff in Hp1, Hp2. subst p1 p2.
    apply RegexFacts.lang_Plus_Digit in H1, H2, H3.
    apply RegexFacts.lang_Opt_iff in Hv.
    exists v, d1, d2, d3. repeat split; trivial.
    destruct Hv as [-> | Hv]; [now left | right].
    now apply RegexFacts.lang_Char_iff in Hv.
  - intros (v & d1 & d2 & d3 & -> & Hv & H1 & H2 & H3).
    apply RegexFacts.lang_Plus_Digit in H1, H2, H3.
    constructor.
    + apply RegexFacts.lang_Opt_iff.
      destruct Hv as [-> | ->]; [now left | right; constructor].
    + constructor; [exact H1|].
      change ("." ++ d2 ++ "." ++ d3) with (String "." EmptyString ++ d2 ++ "." ++ d3).
      constructor; [constructor|]. constructor; [exact H2|].
      change ("." ++ d3) with (String "." EmptyString ++ d3).
      constructor; [constructor | exact H3].
Qed.

(** X7. Version output is detected exactly when [stdout] followed by [stderr]
    holds three numbers with a dot between them, such as [1.0.0]; the [v]
    that may precede them and the letter case play no part. *)
Theorem hasVersionOutput_spec (stdout stderr : string) :
  hasVersionOutput stdout stderr = true <->
  exists a d1 d2 d3 b,
    stdout ++ stderr = a ++ d1 ++ "." ++ d2 ++ "." ++ d3 ++ b /\
    Regex.isNumber d1 = true /\ Regex.isNumber d2 = true /\
    Regex.isNumber d3 = true.
Proof.
  unfold hasVersionOutput. cbv zeta. rewrite RegexFacts.test_spec. split.
  - intros (a' & m & b' & Hs & Hm).
    apply lang_versionPattern in Hm.
    destruct Hm as (v & d1 & d2 & d3 & -> & _ & H1 & H2 & H3).
    rewrite !append_assoc in Hs. rewrite <- (append_assoc a' v) in Hs.
    destruct (toLowerCase_split _ _ _ Hs) as (a & r1 & -> & _ & Hr1).
    destruct (toLowerCase_split _ _ _ Hr1) as (x1 & r2 & -> & Hx1 & Hr2).
    destruct (toLowerCase_split _ (String "." EmptyString) _ Hr2)
      as (p1 & r3 & -> & Hp1 & Hr3).
    destruct (toLowerCase_split _ _ _ Hr3) as (x2 & r4 & -> & Hx2 & Hr4).
    destruct (toLowerCase_split _ (String "." EmptyString) _ Hr4)
      as (p2 & r5 & -> & Hp2 & Hr5).
    destruct (toLowerCase_split _ _ _ Hr5) as (x3 & b & -> & Hx3 & _).
    apply toLowerCase_dot_inv in Hp1, Hp2. subst p1 p2.
    apply toLowerCase_digits_inv in Hx1, Hx2, Hx3;
      try now apply isNumber_allDigits.
    subst x1 x2 x3. exists a, d1, d2, d3, b. now repeat split.
  - intros (a & d1 & d2 & d3 & b & Hs & H1 & H2 & H3).
    exists (toLowerCase a), (d1 ++ "." ++ d2 ++ "." ++ d3), (toLowerCase b).
    split.
    + rewrite Hs, !toLowerCase_app.
      rewrite !(toLowerCase_digits _ (isNumber_allDigits _ H1)),
              !(toLowerCase_digits _ (isNumber_allDigits _ H2)),
              !(toLowerCase_digits _ (isNumber_allDigits _ H3)).
      cbn [toLowerCase]. rewrite (lowerChar_keeps "."%char eq_refl).
      now rewrite !append_assoc.
    + apply lang_versionPattern. exists EmptyString, d1, d2, d3.
      repeat split; trivial. now left.
Qed.

(** X8. [prepareConfig] never yields a timeout of 0, and preparing a prepared
    configuration again changes nothing. *)
Theorem prepareConfig_idempotent (partial : PartialTestConfig.t) :
  TestConfig.timeout (prepareConfig partial) <> 0%Z /\
  prepareConfig (asPartial (prepareConfig partial)) = prepareConfig partial.
Proof.
  destruct partial as [package nodeVersions parallel timeout keepContainers
                         customTests scenarios skipDefaultTests ai].
  unfold prepareConfig, asPartial; cbn.
  assert (Ht : orNumber timeout 30000 <> 0%Z).
  { unfold orNumber. destruct timeout as [n|]; [|discriminate].
    destruct (Z.eqb_spec n 0); [discriminate | assumption]. }
  split; [exact Ht|]. f_equal.
  - unfold orString. destruct package as [s|]; [|reflexivity].
    destruct (String.eqb_spec s EmptyString) as [->|Hs]; [reflexivity|].
    now destruct (String.eqb_spec s EmptyString).
  - apply Z.eqb_neq in Ht. now rewrite Ht.
  - f_equal. unfold orBool.
    now destruct skipDefaultTests as [[|]|].
Qed.

Lemma count_passed_failed (results : list CommandTestResult.t) :
  (List.length (filter (fun r => CommandTestResult.passed r) results) +
   List.length (filter (fun r => negb (CommandTestResult.passed r)) results) =
   List.length results)%nat /\
  (forallb (fun r => CommandTestResult.passed r) results = true <->
   List.length (filter (fun r => negb (CommandTestResult.passed r)) results) =
   0%nat).
Proof.
  induction results as [|r results [IHn IHs]]; cbn; [now split|].
  destruct (CommandTestResult.passed r); cbn.
  - split; [lia | exact IHs].
  - split; [lia | split; discriminate].
Qed.

(** X9. In a summary the passed and the failed tests add up to the total, which
    is the number of results, and [success] holds exactly when no test
    failed: so a summary of no results at all reports success. *)
Theorem summaryOf_counts (packageInfo : PackageInfo.t)
    (results : list CommandTestResult.t) (duration : Z) :
  let summary := summaryOf packageInfo results duration in
  PackageTestSummary.total summary = List.length results /\
  (PackageTestSummary.passed summary + PackageTestSummary.failed summary =
   PackageTestSummary.total summary)%nat /\
  (PackageTestSummary.success summary = true <->
   PackageTestSummary.failed summary = 0%nat) /\
  (results = [] -> PackageTestSummary.success summary = true).
Proof.
  cbv zeta. unfold summaryOf; cbn.
  destruct (count_passed_failed results) as [Hn Hs].
  repeat split; try tauto. now intros ->.
Qed.

End RunnerPureFacts.

(** ** More on the scenario runner *)

Module RunnerFacts.

Import JS ScenarioRunner RunnerConditions.

Section WithManager.

Variable World : Type.
Variable dockerManager : DockerManager World.
Variable containerId : string.

Lemma returns_ret {A : Type} (a : A) : returns (ret (World := World) a).
Proof. intros s. now exists a, s. Qed.

Lemma returns_bind {A B : Type} (m : M World A) (k : A -> M World B) :
  returns m -> (forall a, returns (k a)) -> returns (bind m k).
Proof.
  intros Hm Hk s. unfold bind. destruct (Hm s) as (a & s1 & ->).
  apply Hk.
Qed.

Lemma returns_await {A : Type} (c : Call) (method : Async World A) :
  (forall w, exists a w', method w = (inr a, w')) -> returns (await c method).
Proof.
  intros H s. unfold await. destruct (H (world s)) as (a & w' & ->).
  now eexists _, _.
Qed.

Lemma returns_forOf {A : Type} (xs : list A) (body : A -> M World unit) :
  (forall x, returns (body x)) -> returns (forOf xs body).
Proof.
  intros H. induction xs as [|x xs IH]; cbn [forOf].
  - apply returns_ret.
  - apply returns_bind; [apply H | intros _; exact IH].
Qed.

Lemma returns_forOfErrors {A : Type} (xs : list A)
    (body : A -> list string -> M World (list string)) :
  (forall x errors, returns (body x errors)) ->
  forall errors, returns (forOfErrors xs body errors).
Proof.
  intros H. induction xs as [|x xs IH]; intros errors; cbn [forOfErrors].
  - apply returns_ret.
  - apply returns_bind; [apply H | exact IH].
Qed.

Lemma returns_tryCatch {A : Type} (body : M World A)
    (handler : Thrown -> M World A) :
  (forall s v s1, body s = (inl v, s1) -> exists a s', handler v s1 = (inr a, s')) ->
  returns (tryCatch body handler).
Proof.
  intros H s. unfold tryCatch. destruct (body s) as [[v|a] s1] eqn:Hbody.
  - now apply (H s).
  - now exists a, s1.
Qed.

Lemma setupScenario_returns (setup : TestSetup.t) :
  provisioningNeverThrows World dockerManager ->
  returns (setupScenario World dockerManager containerId (Some setup)).
Proof.
  intros (Hexec & Hdir & Hfile). unfold setupScenario.
  assert (Hmkdir : forall path,
    returns (await (CreateDirectory containerId path)
               (createDirectory World dockerManager containerId path))).
  { intros path. apply returns_await. intros w.
    destruct (Hdir containerId path w) as (w' & ->). now eexists _, _. }
  assert (Hrun : forall command,
    returns (bind (await (ExecuteCommand containerId command)
                     (executeCommand World dockerManager containerId command))
               (fun _ => ret tt))).
  { intros command. apply returns_bind; [|intros _; apply returns_ret].
    apply returns_await. intros w.
    destruct (Hexec containerId command w) as (r & w' & ->). now eexists _, _. }
  apply returns_bind; [|intros _; apply returns_bind;
                         [|intros _; apply returns_bind; [|intros _]]].
  - destruct (TestSetup.directories setup);
      [apply returns_forOf; intros dir; apply Hmkdir | apply returns_ret].
  - destruct (TestSetup.files setup); [|apply returns_ret].
    apply returns_forOf. intros file. cbv zeta. apply returns_bind.
    + destruct (negb _); [apply Hmkdir | apply returns_ret].
    + intros _. apply returns_await. intros w.
      destruct (Hfile containerId ("/test/" ++ TestFile.path file)
                  (TestFile.content file) w) as (w' & ->).
      now eexists _, _.
  - destruct (TestSetup.initNpm setup) as [[|]|];
      [apply Hrun | apply returns_ret | apply returns_ret].
  - destruct (TestSetup.dependencies setup) as [deps|]; [|apply returns_ret].
    destruct (0 <? List.length deps)%nat; [apply Hrun | apply returns_ret].
Qed.

(** X10. Provisioning fails only by a call that throws: with a manager whose
    [executeCommand], [createDirectory] and [createFile] never throw,
    [setupScenario] returns after all the steps of its plan, whatever exit
    codes the project initialization and the installation report. *)
Theorem setupScenario_ignores_exit_codes (setup : TestSetup.t)
    (s : State World) :
  provisioningNeverThrows World dockerManager ->
  exists s',
    setupScenario World dockerManager containerId (Some setup) s = (inr tt, s') /\
    calls s' = (calls s ++ provisioningPlan containerId setup)%list.
Proof.
  intros Hnever.
  destruct (setupScenario_returns setup Hnever s) as ([] & s' & Hrun).
  exists s'. split; [exact Hrun|].
  pose proof (ProvisionerFacts.setupScenario_keepsTo World dockerManager
                containerId setup s) as Hplan.
  now rewrite Hrun in Hplan.
Qed.


(** X12. When the file of a [fileContents] entry cannot be read, the read
    throwing an [Error], the entry yields one message, which carries the
    error's, none of its checks is made, and validation goes on with the
    entries that follow. *)
Theorem unreadable_file_one_message (validation : TestValidation.t)
    (fileCheck : FileContentValidation.t)
    (rest : list FileContentValidation.t) (errors : list string)
    (s : State World) (e : Error) (w' : World) :
  TestValidation.fileContents validation = Some (fileCheck :: rest) ->
  readFile World dockerManager containerId
    ("/test/" ++ FileContentValidation.path fileCheck) (world s) =
    (inl (Exception e), w') ->
  checkFileContents World dockerManager containerId validation errors s =
  checkFileContents World dockerManager containerId
    (withFileContents validation rest)
    (errors ++ [("Failed to read file " ++
                 FileContentValidation.path fileCheck ++ ": " ++
                 message e)%string])%list
    (mkState w'
       (calls s ++
        [ReadFile containerId
           ("/test/" ++ FileContentValidation.path fileCheck)%string])%list).
Proof.
  intros Hchecks Hread. unfold checkFileContents. rewrite Hchecks.
  cbn [withFileContents TestValidation.fileContents forOfErrors].
  unfold bind at 1. unfold tryCatch, bind, await. now rewrite Hread.
Qed.

End WithManager.

End RunnerFacts.

(** ** A run that nothing interrupts, and what it takes to pass *)

Module RunFacts.

Import JS ScenarioRunner RunnerConditions.

Lemma filter_nil_iff {A : Type} (p : A -> bool) (xs : list A) :
  filter p xs = [] <-> forall x, In x xs -> p x = false.
Proof.
  induction xs as [|x xs IH]; cbn.
  - split; [intros _ y [] | reflexivity].
  - destruct (p x) eqn:Hx.
    + split; [discriminate|]. intros H.
      specialize (H x (or_introl eq_refl)). congruence.
    + rewrite IH. split.
      * intros H y [<- | Hin]; [exact Hx | now apply H].
      * intros H y Hin. apply H. now right.
Qed.

Lemma map_nil_iff {A B : Type} (f : A -> B) (xs : list A) :
  map f xs = [] <-> xs = [].
Proof. destruct xs; cbn; split; trivial; discriminate. Qed.

Lemma flat_map_nil_iff {A B : Type} (f : A -> list B) (xs : list A) :
  flat_map f xs = [] <-> forall x, In x xs -> f x = [].
Proof.
  induction xs as [|x xs IH]; cbn.
  - split; [intros _ y [] | reflexivity].
  - split.
    + intros H. apply app_eq_nil in H. destruct H as [Hx Hxs].
      intros y [<- | Hin]; [exact Hx | now apply IH].
    + intros H. rewrite (H x (or_introl eq_refl)). cbn.
      apply IH. intros y Hin. apply H. now right.
Qed.

Lemma app_nil_iff {A : Type} (xs ys : list A) :
  (xs ++ ys)%list = [] <-> xs = [] /\ ys = [].
Proof.
  split; [apply app_eq_nil | now intros [-> ->]].
Qed.

Lemma unmatched_nil_iff (text : string) (ms : list Matcher) :
  unmatched text ms = [] <-> forall m, In m ms -> matches text m = true.
Proof.
  unfold unmatched. rewrite filter_nil_iff. split; intros H m Hin.
  - apply negb_false_iff. now apply H.
  - apply negb_false_iff. now apply H.
Qed.

Lemma matched_nil_iff (text : string) (ms : list Matcher) :
  matched text ms = [] <-> forall m, In m ms -> matches text m = false.
Proof. unfold matched. apply filter_nil_iff. Qed.

Lemma equalsMessages_nil_iff fileCheck content :
  equalsMessages fileCheck content = [] <->
  forall expected,
    FileContentValidation.equals fileCheck = Some expected ->
    trim content = trim expected.
Proof.
  unfold equalsMessages.
  destruct (FileContentValidation.equals fileCheck) as [expected|].
  - destruct (String.eqb_spec (trim content) (trim expected)) as [Heq|Hne].
    + split; [now intros _ e [= <-] | reflexivity].
    + split; [discriminate | intros H; elim Hne; now apply H].
  - split; [intros _ e; discriminate | reflexivity].
Qed.

Lemma verdictOf_passed (errors : list string) :
  Verdict.passed (verdictOf errors) = true <-> errors = [].
Proof. destruct errors; cbn; split; trivial; discriminate. Qed.

Section WithManager.

Variable World : Type.
Variable dockerManager : DockerManager World.
Variable clock : World -> Z.
Variable containerId : string.

Lemma fileContentMessages_nil_iff (w : World) fileCheck :
  quiescent World dockerManager containerId w ->
  fileContentMessages World dockerManager containerId w fileCheck = [] <->
  entryHolds World dockerManager containerId w fileCheck.
Proof.
  intros (_ & _ & Herror).
  specialize (Herror ("/test/" ++ FileContentValidation.path fileCheck)).
  unfold fileContentMessages, entryHolds. cbv zeta.
  destruct (fst (readFile World dockerManager containerId _ w)) as [v|content].
  - specialize (Herror v eq_refl).
    destruct v as [e| |]; try discriminate.
    split; [discriminate | intros (content & H & _); discriminate].
  - rewrite !app_nil_iff, equalsMessages_nil_iff.
    unfold containsMessages, notContainsMessages.
    rewrite !map_nil_iff, unmatched_nil_iff, matched_nil_iff. split.
    + intros (H1 & H2 & H3). now exists content.
    + intros (c & [= <-] & H1 & H2 & H3). now repeat split.
Qed.

Lemma violationMessages_nil_iff (w : World) validation result :
  quiescent World dockerManager containerId w ->
  violationMessages World dockerManager containerId w validation result = [] <->
  assertionsHold World dockerManager containerId w validation result.
Proof.
  intros Hq. unfold violationMessages, assertionsHold.
  rewrite !app_nil_iff, !map_nil_iff, !unmatched_nil_iff, flat_map_nil_iff.
  unfold missingFiles, presentFiles. rewrite !filter_nil_iff.
  assert (Hexit : exitCodeMessages validation result = [] <->
                  DockerManager.exitCode result = expectedExitCodeOf validation).
  { unfold exitCodeMessages.
    destruct (Z.eqb_spec (DockerManager.exitCode result)
                (expectedExitCodeOf validation));
      split; trivial; [discriminate | contradiction]. }
  rewrite Hexit.
  split; intros (H1 & H2 & H3 & H4 & H5 & H6); repeat split; trivial.
  - intros path Hin. apply negb_false_iff. now apply H4.
  - intros fileCheck Hin. apply (fileContentMessages_nil_iff w _ Hq).
    now apply H6.
  - intros path Hin. apply negb_false_iff. now apply H4.
  - intros fileCheck Hin. apply (fileContentMessages_nil_iff w _ Hq).
    now apply H6.
Qed.

(** X13. In a world the validator's queries leave alone, a validation passes
    exactly when the exit code is the expected one, every [stdout] and
    [stderr] matcher holds, every file of [filesExist] exists, none of
    [filesNotExist] does, and every entry of [fileContents] can be read and
    holds. *)
Theorem validateScenario_passes_iff (scenario : TestScenario.t)
    (result : ExecResult) (s : State World) :
  quiescent World dockerManager containerId (world s) ->
  exists verdict s',
    validateScenario World dockerManager containerId scenario result s =
      (inr verdict, s') /\
    (Verdict.passed verdict = true <->
     assertionsHold World dockerManager containerId (world s)
       (TestScenario.validate scenario) result).
Proof.
  intros Hq. destruct s as [w cs]. cbn [world] in *.
  unfold validateScenario, bind.
  rewrite (ValidatorFacts.collectErrors_steady World dockerManager containerId
             scenario result w cs Hq).
  eexists _, _. split; [reflexivity|].
  rewrite verdictOf_passed. now apply violationMessages_nil_iff.
Qed.

Lemma setupPhase_no_listener (commandName : string) (scenario : TestScenario.t)
    (s : State World) :
  setupPhase World dockerManager containerId commandName scenario None s =
  setupScenario World dockerManager containerId (TestScenario.setup scenario) s.
Proof.
  unfold setupPhase. destruct (TestScenario.setup scenario); reflexivity.
Qed.

(** X14. A run without a listener that nothing interrupts: when provisioning
    returns, the command returns [result] and the validator's queries leave
    the world alone, [runScenario] makes the calls of the provisioning plan,
    then the one invocation of the scenario's command, then the validator's
    queries, and returns the exit code and the output of [result] as they
    are, with the verdict on the violations found. *)
Theorem runScenario_uninterrupted (packageName commandName : string)
    (scenario : TestScenario.t) (nodeVersion : string) (command : CLICommand.t)
    (s s1 : State World) (result : ExecResult) (w2 : World) :
  setupScenario World dockerManager containerId (TestScenario.setup scenario) s =
    (inr tt, s1) ->
  executeCommand World dockerManager containerId (fullCommandOf scenario)
    (world s1) = (inr result, w2) ->
  quiescent World dockerManager containerId w2 ->
  let verdict :=
    verdictOf (violationMessages World dockerManager containerId w2
                 (TestScenario.validate scenario) result) in
  runScenario World dockerManager clock containerId packageName commandName
    scenario nodeVersion command None s =
  (inr {| CommandTestResult.command := command;
          CommandTestResult.nodeVersion := nodeVersion;
          CommandTestResult.passed := Verdict.passed verdict;
          CommandTestResult.duration := clock w2 - clock (world s);
          CommandTestResult.exitCode := DockerManager.exitCode result;
          CommandTestResult.stdout := DockerManager.stdout result;
          CommandTestResult.stderr := DockerManager.stderr result;
          CommandTestResult.error := Verdict.error verdict;
          CommandTestResult.hasHelpOutput := false;
          CommandTestResult.hasVersionOutput := false |},
   mkState w2 (calls s ++ runCalls containerId scenario)%list).
Proof.
  intros Hsetup Hexec Hq verdict.
  assert (Hcalls : calls s1 =
    (calls s ++ match TestScenario.setup scenario with
                | Some setup => provisioningPlan containerId setup
                | None => []
                end)%list).
  { destruct (TestScenario.setup scenario) as [setup|].
    - pose proof (ProvisionerFacts.setupScenario_keepsTo World dockerManager
                    containerId setup s) as Hplan.
      now rewrite Hsetup in Hplan.
    - cbn in Hsetup. injection Hsetup as <-. now rewrite app_nil_r. }
  apply EngineFacts.runScenario_returned.
  unfold runScenarioTry, bind.
  rewrite setupPhase_no_listener, Hsetup.
  unfold invokePhase, bind, notify, ret, await. rewrite Hexec.
  unfold validateScenario, bind.
  rewrite (ValidatorFacts.collectErrors_steady World dockerManager containerId
             scenario result w2 _ Hq).
  unfold ret, dateNow. cbn [world calls]. unfold runCalls.
  now rewrite Hcalls, <- !app_assoc.
Qed.

(** X15. An empty literal holds of every text: listed in [notContains] it makes
    the entry fail for every content that can be read. *)
Theorem empty_literal_always_matches (fileCheck : FileContentValidation.t)
    (content : string) (errors : list string) :
  In (Literal EmptyString)
     (orEmpty (FileContentValidation.notContains fileCheck)) ->
  matches content (Literal EmptyString) = true /\
  (List.length errors < List.length (checkContent fileCheck content errors))%nat.
Proof.
  intros Hin.
  assert (Hm : matches content (Literal EmptyString) = true)
    by (cbn; now destruct content).
  split; [exact Hm|].
  rewrite ValidatorFacts.checkContent_spec, !length_app.
  assert (Hlen : (0 < List.length (notContainsMessages fileCheck content))%nat).
  { unfold notContainsMessages, matched. rewrite length_map.
    assert (Hf : In (Literal EmptyString)
                   (filter (matches content)
                      (orEmpty (FileContentValidation.notContains fileCheck))))
      by (apply filter_In; now split).
    destruct (filter _ _); [destruct Hf | cbn; lia]. }
  lia.
Qed.

End WithManager.

End RunFacts.

(** ** Containers: which ones the manager tracks *)

Module LifecycleFacts.

Import JS DockerLifecycle StringFacts.

Lemma setAdd_In (id : string) (containers : list string) :
  In id (setAdd id containers).
Proof.
  unfold setAdd. destruct (existsb _ containers) eqn:H.
  - apply existsb_exists in H. destruct H as (x & Hin & Heq).
    apply String.eqb_eq in Heq. now subst.
  - apply in_or_app. right. now left.
Qed.

Lemma setAdd_NoDup (id : string) (containers : list string) :
  NoDup containers -> NoDup (setAdd id containers).
Proof.
  intros Hnd. unfold setAdd. destruct (existsb _ containers) eqn:H;
    [exact Hnd|].
  apply NoDup_app; [exact Hnd | repeat constructor; intros [] |].
  intros x Hin [Heq | []]. subst x.
  assert (Ht : existsb (fun y => y =? id) containers = true)
    by (apply existsb_exists; exists id; split;
        [exact Hin | apply String.eqb_refl]).
  congruence.
Qed.

Section WithDaemon.

Variable World : Type.
Variables Stream Container : Type.
Variable docker : Dockerode World Stream Container.
Variable toString : DockerManager.Buffer -> string.

Lemma keeps_api {A : Type} (call : ScenarioRunner.Async World A) :
  keepsContainers (api World call).
Proof. intros s. unfold api. now destruct (call (daemon s)). Qed.

Lemma keeps_dret {A : Type} (a : A) : keepsContainers (dret World a).
Proof. now intros s. Qed.

Lemma keeps_dbind {A B : Type} (m : D World A) (k : A -> D World B) :
  keepsContainers m -> (forall a, keepsContainers (k a)) ->
  keepsContainers (dbind World m k).
Proof.
  intros Hm Hk s. unfold dbind. specialize (Hm s).
  destruct (m s) as [[e|a] s1]; cbn [snd] in *; [exact Hm|].
  now rewrite (Hk a s1).
Qed.

Lemma keeps_emit onProgress event : keepsContainers (emit World onProgress event).
Proof.
  unfold emit. destruct onProgress; [apply keeps_api | apply keeps_dret].
Qed.

Lemma keeps_pullImage image : keepsContainers (pullImage World Stream Container docker image).
Proof.
  unfold pullImage. apply keeps_dbind; [apply keeps_api|].
  intros stream. apply keeps_api.
Qed.

(** X16. The manager tracks a container only once it has started: when
    [createTestContainer] returns, the container it reports, which is
    running, has been added to the tracked set; when it throws, be it at
    [container.start()] after the container was created, the set is as it
    was. The set never holds an identifier twice. *)
Theorem createTestContainer_tracks (environment : TestEnvironment.t)
    (packageName : string) (onProgress : ScenarioRunner.Listener World)
    (s : ManagerState World) :
  match createTestContainer World Stream Container docker environment
          packageName onProgress s with
  | (inr state, s') =>
      containers s' = setAdd (ContainerState.id state) (containers s) /\
      In (ContainerState.id state) (containers s') /\
      ContainerState.status state = ContainerStatus.running /\
      ContainerState.nodeVersion state = TestEnvironment.nodeVersion environment /\
      ContainerState.packageName state = packageName /\
      (NoDup (containers s) -> NoDup (containers s'))
  | (inl _, s') => containers s' = containers s
  end.
Proof.
  unfold createTestContainer, dbind.
  repeat
    lazymatch goal with
    | |- context [match ?m ?st with _ => _ end] =>
        let H := fresh "Hkeep" in
        assert (H : containers (snd (m st)) = containers st)
          by first [apply keeps_emit | apply keeps_pullImage | apply keeps_api];
        destruct (m st) as [[?e|?a] ?s]; cbn [snd] in H; [congruence|]
    end.
  unfold track, dret. cbn [containers ContainerState.id ContainerState.status
    ContainerState.nodeVersion ContainerState.packageName].
  match goal with
  | |- setAdd ?id (containers ?t) = _ /\ _ =>
      replace (containers t) with (containers s) by congruence
  end.
  repeat split; trivial.
  - apply setAdd_In.
  - apply setAdd_NoDup.
Qed.

(** X17. [installPackage] does not look at the exit code: without a
    listener, when the [npm install -g] session runs to its end, it returns,
    whatever exit code the installation reports. *)
Theorem installPackage_ignores_exit_code (containerId packageName : string)
    (s : ManagerState World) (session : DockerManager.ExecSession)
    (w' : World) (code : option Z) :
  runExec World Stream Container docker containerId
    ["npm"; "install"; "-g"; packageName] (daemon s) = (session, w') ->
  DockerManager.exec_create session = inr tt ->
  DockerManager.exec_start session = inr tt ->
  DockerManager.stream_close session = inr tt ->
  DockerManager.exec_inspect session =
    inr {| DockerManager.ExitCode := code |} ->
  installPackage World Stream Container docker toString containerId
    packageName None s =
  (inr tt, mkManagerState w' (containers s)).
Proof.
  intros Hexec Hcreate Hstart Hclose Hinspect.
  unfold installPackage, dbind, emit, dret, executeCommand.
  rewrite Hexec. unfold DockerManager.executeCommand.
  rewrite Hcreate, Hstart, Hclose, Hinspect.
  now destruct (DockerManager.collectOutput toString _).
Qed.

End WithDaemon.

(** X18. What [executeCommand] returns as [stdout] and [stderr] neither begins
    nor ends with white space. *)
Theorem executeCommand_output_trimmed (toString : DockerManager.Buffer -> string)
    (docker : DockerManager.Docker) (containerId : string)
    (command : list string) (result : DockerManager.ExecResult) :
  DockerManager.executeCommand toString docker containerId command =
    inr result ->
  startsWhite (DockerManager.stdout result) = false /\
  endsWhite (DockerManager.stdout result) = false /\
  startsWhite (DockerManager.stderr result) = false /\
  endsWhite (DockerManager.stderr result) = false.
Proof.
  unfold DockerManager.executeCommand.
  destruct (DockerManager.exec_create _); [discriminate|].
  destruct (DockerManager.exec_start _); [discriminate|].
  destruct (DockerManager.collectOutput toString _) as [out err].
  destruct (DockerManager.stream_close _); [discriminate|].
  destruct (DockerManager.exec_inspect _); [discriminate|].
  intros [= <-]. cbn.
  destruct (trim_spec out) as (_ & H1 & H2).
  destruct (trim_spec err) as (_ & H3 & H4).
  now repeat split.
Qed.

End LifecycleFacts.

(** ** The test runner at work *)

Module TestRunnerFacts.

Import JS JSString TestRunnerPure TestRunner.

Section WithCollaborators.

Variable World : Type.
Variable parts : Collaborators World.
Variable clock : World -> Z.

Lemma ofRunner_await {A : Type} (c : ScenarioRunner.Call)
    (method : ScenarioRunner.Async World A) (s : RunState World) :
  ofRunner World (ScenarioRunner.await c method) s =
  (fst (method (rworld s)),
   mkRunState (snd (method (rworld s))) (rlog s ++ [OnManager c])%list).
Proof.
  unfold ofRunner, ScenarioRunner.await. cbn.
  now destruct (method (rworld s)).
Qed.

(** X19. [testCommand] calls the executor exactly once, with the command
    name followed by the arguments, leaves the world as that call left it,
    and contains every [Error]: when that
    call throws an [Error], the result is a failure with exit code 1 and the
    error's message; when it returns, the result carries its exit code and
    output, and has passed only if the exit code is 0, or is 1 and neither
    [--help] nor [--version] was among the arguments. When the call rejects
    with [undefined] or [null], [testCommand] throws the [TypeError] of
    reading its message. *)
Theorem testCommand_outcomes (containerId commandName : string)
    (args : list string) (nodeVersion : string) (command : CLICommand.t)
    (s : RunState World) :
  let outcome :=
    testCommand World parts clock containerId commandName args nodeVersion
      command s in
  rlog (snd outcome) =
    (rlog s ++
     [OnManager (ScenarioRunner.ExecuteCommand containerId
                   (commandName :: args))])%list /\
  rworld (snd outcome) =
    snd (ScenarioRunner.executeCommand World (dockerManager World parts)
           containerId (commandName :: args) (rworld s)) /\
  match ScenarioRunner.executeCommand World (dockerManager World parts)
          containerId (commandName :: args) (rworld s) with
  | (inl (Exception e), _) =>
      exists r,
        fst outcome = inr r /\
        CommandTestResult.nodeVersion r = nodeVersion /\
        CommandTestResult.command r = command /\
        CommandTestResult.passed r = false /\
        CommandTestResult.exitCode r = 1%Z /\
        CommandTestResult.stdout r = EmptyString /\
        CommandTestResult.stderr r = message e /\
        CommandTestResult.error r = Some (message e)
  | (inl ThrownUndefined, _) =>
      fst outcome =
      inl (Exception
             (mkError "Cannot read properties of undefined (reading 'message')"))
  | (inl ThrownNull, _) =>
      fst outcome =
      inl (Exception
             (mkError "Cannot read properties of null (reading 'message')"))
  | (inr result, _) =>
      exists r,
        fst outcome = inr r /\
        CommandTestResult.nodeVersion r = nodeVersion /\
        CommandTestResult.command r = command /\
        CommandTestResult.exitCode r = DockerManager.exitCode result /\
        CommandTestResult.stdout r = DockerManager.stdout result /\
        CommandTestResult.stderr r = DockerManager.stderr result /\
        CommandTestResult.error r = None /\
        (CommandTestResult.passed r = true <->
         DockerManager.exitCode result = 0%Z \/
         (DockerManager.exitCode result = 1%Z /\
          ~ In "--help" args /\ ~ In "--version" args))
  end.
Proof.
  cbv zeta. unfold testCommand, tbind, ttry, dateNow, teval. cbv zeta.
  rewrite ofRunner_await. unfold tret.
  destruct (ScenarioRunner.executeCommand World (dockerManager World parts)
              containerId (commandName :: args) (rworld s))
    as [[[e| |]|result] w']; cbn [fst snd messageOf];
    (split; [reflexivity|]); (split; [reflexivity|]).
  - eexists. split; [reflexivity|]. now repeat split.
  - reflexivity.
  - reflexivity.
  - eexists. split; [reflexivity|]. cbn.
    repeat split; trivial; apply RunnerPureFacts.isTestPassed_iff.
Qed.

Lemma testCommand_returns (containerId commandName : string)
    (args : list string) (nodeVersion : string) (command : CLICommand.t)
    (s : RunState World) :
  executorThrowsErrors World parts ->
  exists r s',
    testCommand World parts clock containerId commandName args nodeVersion
      command s = (inr r, s') /\
    CommandTestResult.nodeVersion r = nodeVersion /\
    exists added, rlog s' = (rlog s ++ added)%list.
Proof.
  intros Herrors.
  unfold testCommand, tbind, ttry, dateNow, teval. cbv zeta.
  rewrite ofRunner_await. unfold tret.
  destruct (ScenarioRunner.executeCommand World (dockerManager World parts)
              containerId (commandName :: args) (rworld s))
    as [[v|result] w'] eqn:Hexec; cbn [fst snd].
  - apply Herrors in Hexec. destruct v as [e| |]; try discriminate.
    cbn [messageOf]. eexists _, _. split; [reflexivity|]. cbn.
    split; [reflexivity | eexists; reflexivity].
  - eexists _, _. split; [reflexivity|]. cbn.
    split; [reflexivity | eexists; reflexivity].
Qed.

Lemma testEachCommand_returns (containerId nodeVersion : string)
    (commands : list CLICommand.t) (results : list CommandTestResult.t)
    (s : RunState World) :
  executorThrowsErrors World parts ->
  exists extra s',
    testEachCommand World parts clock containerId nodeVersion None commands
      results s = (inr (results ++ extra)%list, s') /\
    map CommandTestResult.nodeVersion extra =
      repeat nodeVersion (3 * List.length commands) /\
    exists added, rlog s' = (rlog s ++ added)%list.
Proof.
  intros Herrors. revert results s. induction commands as [|command rest IH]; intros results s;
    cbn [testEachCommand].
  - exists [], s. unfold tret. rewrite !app_nil_r. repeat split.
    exists []. now rewrite app_nil_r.
  - unfold tbind. cbn [emitProgress]. unfold tret at 1.
    destruct (testCommand_returns containerId (CLICommand.name command)
                ["--help"] nodeVersion command s Herrors)
      as (r1 & s1 & -> & Hv1 & a1 & Ha1).
    destruct (testCommand_returns containerId (CLICommand.name command)
                ["--version"] nodeVersion command s1 Herrors)
      as (r2 & s2 & -> & Hv2 & a2 & Ha2).
    destruct (testCommand_returns containerId (CLICommand.name command)
                [] nodeVersion command s2 Herrors)
      as (r3 & s3 & -> & Hv3 & a3 & Ha3).
    destruct (IH (results ++ [r1; r2; r3])%list s3)
      as (extra & s' & -> & Hextra & a4 & Ha4).
    exists ([r1; r2; r3] ++ extra)%list, s'. split; [|split].
    + now rewrite app_assoc.
    + rewrite map_app, Hextra. cbn [map app List.length]. rewrite Hv1, Hv2, Hv3.
      replace (3 * S (List.length rest))%nat
        with (3 + 3 * List.length rest)%nat by lia.
      reflexivity.
    + exists (a1 ++ a2 ++ a3 ++ a4)%list.
      now rewrite Ha4, Ha3, Ha2, Ha1, <- !app_assoc.
Qed.

(** X20. The number of probes: without an AI configuration and without a
    listener, when no container creation and no installation throws, and
    what the executor throws is an [Error], [runTests] returns, for each
    Node version in turn, three results for each command of the package, and
    none where the default tests are skipped. *)
Theorem runTests_default_results (packageInfo : PackageInfo.t)
    (config : TestConfig.t) (s : RunState World) :
  TestConfig.ai config = None ->
  containersNeverFail World parts ->
  executorThrowsErrors World parts ->
  let perVersion :=
    match TestConfig.skipDefaultTests config with
    | Some true => 0%nat
    | _ => (3 * List.length (PackageInfo.commands packageInfo))%nat
    end in
  exists results s',
    runTests World parts clock packageInfo config None s = (inr results, s') /\
    map CommandTestResult.nodeVersion results =
      flat_map (fun nodeVersion => repeat nodeVersion perVersion)
        (TestConfig.nodeVersions config) /\
    List.length results =
      (List.length (TestConfig.nodeVersions config) * perVersion)%nat.
Proof.
  intros Hai (Hcreate & Hinstall) Herrors perVersion.
  assert (Hversions : forall nodeVersions results s0,
    exists extra s',
      testVersions World parts clock packageInfo config None nodeVersions
        results s0 = (inr (results ++ extra)%list, s') /\
      map CommandTestResult.nodeVersion extra =
        flat_map (fun nodeVersion => repeat nodeVersion perVersion) nodeVersions).
  { induction nodeVersions as [|nodeVersion rest IH]; intros results s0;
      cbn [testVersions flat_map].
    - exists [], s0. unfold tret. now rewrite app_nil_r.
    - unfold tbind at 1. unfold testVersion. cbv zeta. unfold tbind, ask.
      destruct (Hcreate (environmentOf nodeVersion)
                  (PackageInfo.name packageInfo) None (rworld s0))
        as (container & w1 & ->).
      cbn [rworld rlog].
      destruct (Hinstall (ContainerState.id container)
                  (PackageInfo.name packageInfo) None w1) as (w2 & ->).
      unfold aiPhase. rewrite Hai. unfold tret at 1.
      assert (Hdefault : forall s1, exists extra s',
        defaultPhase World parts clock config (ContainerState.id container)
          packageInfo nodeVersion None results s1 =
          (inr (results ++ extra)%list, s') /\
        map CommandTestResult.nodeVersion extra = repeat nodeVersion perVersion).
      { intros s1. unfold defaultPhase, perVersion.
        destruct (TestConfig.skipDefaultTests config) as [[|]|].
        - exists [], s1. unfold tret. now rewrite app_nil_r.
        - destruct (testEachCommand_returns (ContainerState.id container)
                      nodeVersion (PackageInfo.commands packageInfo) results s1
                      Herrors)
            as (extra & s' & H & Hmap & _).
          now exists extra, s'.
        - destruct (testEachCommand_returns (ContainerState.id container)
                      nodeVersion (PackageInfo.commands packageInfo) results s1
                      Herrors)
            as (extra & s' & H & Hmap & _).
          now exists extra, s'. }
      destruct (Hdefault
                  {| rworld := w2;
                     rlog := ((rlog s0 ++
                               [CreateTestContainer (environmentOf nodeVersion)
                                  (PackageInfo.name packageInfo)]) ++
                              [InstallPackage (ContainerState.id container)
                                 (PackageInfo.name packageInfo)])%list |})
        as (extra1 & s1 & -> & Hmap1).
      destruct (IH (results ++ extra1)%list s1) as (extra2 & s' & -> & Hmap2).
      exists (extra1 ++ extra2)%list, s'. split.
      + now rewrite app_assoc.
      + now rewrite map_app, Hmap1, Hmap2. }
  destruct (Hversions (TestConfig.nodeVersions config) [] s)
    as (results & s' & Hrun & Hmap).
  exists results, s'. split; [exact Hrun|]. split; [exact Hmap|].
  rewrite <- (length_map CommandTestResult.nodeVersion), Hmap.
  clear. induction (TestConfig.nodeVersions config) as [|v vs IH]; cbn;
    [reflexivity|].
  now rewrite length_app, repeat_length, IH.
Qed.

End WithCollaborators.

End TestRunnerFacts.

(** ** The test runner: the AI block and the cleanup *)

Module TestPackageFacts.

Import JS JSString TestRunnerPure TestRunner.

Section WithCollaborators.

Variable World : Type.
Variable parts : Collaborators World.
Variable clock : World -> Z.

Lemma grows_tret {A : Type} (a : A) : logGrows (tret World a).
Proof. intros s. exists []. cbn. now rewrite app_nil_r. Qed.

Lemma grows_throw {A : Type} (e : Thrown) : logGrows (throw World (A := A) e).
Proof. intros s. exists []. cbn. now rewrite app_nil_r. Qed.

Lemma grows_teval {A : Type} (r : Thrown + A) : logGrows (teval World r).
Proof. intros s. exists []. cbn. now rewrite app_nil_r. Qed.

Lemma grows_dateNow : logGrows (dateNow World clock).
Proof. intros s. exists []. cbn. now rewrite app_nil_r. Qed.

Lemma grows_tbind {A B : Type} (m : T World A) (k : A -> T World B) :
  logGrows m -> (forall a, logGrows (k a)) -> logGrows (tbind World m k).
Proof.
  intros Hm Hk s. unfold tbind. destruct (Hm s) as (a1 & H1).
  destruct (m s) as [[e|a] s1]; cbn [snd] in *; [now exists a1|].
  destruct (Hk a s1) as (a2 & H2). exists (a1 ++ a2)%list.
  now rewrite H2, H1, app_assoc.
Qed.

Lemma grows_ttry {A : Type} (body : T World A) (handler : Thrown -> T World A) :
  logGrows body -> (forall e, logGrows (handler e)) ->
  logGrows (ttry World body handler).
Proof.
  intros Hm Hk s. unfold ttry. destruct (Hm s) as (a1 & H1).
  destruct (body s) as [[e|a] s1]; cbn [snd] in *; [|now exists a1].
  destruct (Hk e s1) as (a2 & H2). exists (a1 ++ a2)%list.
  now rewrite H2, H1, app_assoc.
Qed.

Lemma grows_ask {A : Type} (event : Event)
    (method : ScenarioRunner.Async World A) :
  logGrows (ask World event method).
Proof.
  intros s. unfold ask. destruct (method (rworld s)). now exists [event].
Qed.

Lemma grows_ofRunner {A : Type} (m : ScenarioRunner.M World A) :
  logGrows (ofRunner World m).
Proof.
  intros s. unfold ofRunner.
  destruct (m (ScenarioRunner.mkState (rworld s) [])) as [r s'].
  now eexists.
Qed.

Lemma grows_emitProgress callback event :
  logGrows (emitProgress World callback event).
Proof.
  unfold emitProgress. destruct callback as [cb|]; [|apply grows_tret].
  intros s. destruct (cb event (rworld s)). exists []. cbn.
  now rewrite app_nil_r.
Qed.

Lemma grows_testCommand containerId commandName args nodeVersion command :
  logGrows (testCommand World parts clock containerId commandName args
              nodeVersion command).
Proof.
  unfold testCommand. apply grows_tbind; [apply grows_dateNow | intros t0].
  apply grows_ttry.
  - cbv zeta. apply grows_tbind; [apply grows_ofRunner | intros r].
    apply grows_tbind; [apply grows_dateNow | intros t1]. apply grows_tret.
  - intros e. apply grows_tbind; [apply grows_dateNow | intros t1].
    apply grows_tbind; [apply grows_teval | intros text]. apply grows_tret.
Qed.

Lemma grows_aiFailed onProgress e results :
  logGrows (aiFailed World onProgress e results).
Proof.
  unfold aiFailed. apply grows_tbind; [apply grows_teval | intros text].
  apply grows_tbind; [apply grows_emitProgress | intros _].
  apply grows_tret.
Qed.

(** What [runScenario] returns is a result for the command and the Node
    version it was given. *)
Lemma runScenario_result_for containerId packageName commandName scenario
    nodeVersion command onProgress (s s' : ScenarioRunner.State World)
    (r : CommandTestResult.t) :
  ScenarioRunner.runScenario World (dockerManager World parts) clock
    containerId packageName commandName scenario nodeVersion command
    onProgress s = (inr r, s') ->
  CommandTestResult.command r = command /\
  CommandTestResult.nodeVersion r = nodeVersion.
Proof.
  unfold ScenarioRunner.runScenario, ScenarioRunner.runScenarioTry.
  unfold ScenarioRunner.bind, ScenarioRunner.dateNow, ScenarioRunner.tryCatch,
    ScenarioRunner.ret, ScenarioRunner.eval.
  destruct (ScenarioRunner.setupPhase _ _ _ _ _ _ s) as [[e|[]] s1];
    [destruct e; cbn [messageOf]; try discriminate; now intros [= <- _]|].
  destruct (ScenarioRunner.invokePhase _ _ _ _ _ _ s1) as [[e|result] s2];
    [destruct e; cbn [messageOf]; try discriminate; now intros [= <- _]|].
  destruct (ScenarioRunner.validateScenario _ _ _ _ _ s2) as [[e|verdict] s3];
    [destruct e; cbn [messageOf]; try discriminate; now intros [= <- _]|].
  now intros [= <- _].
Qed.

(** What [runScenario] throws is the [TypeError] of its handler, an
    [Error]. *)
Lemma runScenario_throws_errors containerId packageName commandName scenario
    nodeVersion command onProgress (s s' : ScenarioRunner.State World)
    (v : Thrown) :
  ScenarioRunner.runScenario World (dockerManager World parts) clock
    containerId packageName commandName scenario nodeVersion command
    onProgress s = (inl v, s') ->
  isNullish v = false.
Proof.
  unfold ScenarioRunner.runScenario.
  unfold ScenarioRunner.bind at 1. unfold ScenarioRunner.dateNow at 1.
  unfold ScenarioRunner.tryCatch.
  destruct (ScenarioRunner.runScenarioTry _ _ _ _ _ _ _ _ _ _ s)
    as [[e|r] s1]; [|discriminate].
  unfold ScenarioRunner.bind, ScenarioRunner.dateNow, ScenarioRunner.eval,
    ScenarioRunner.ret.
  destruct e; cbn [messageOf]; [discriminate | |]; now intros [= <- _].
Qed.

(** The loop over the AI scenarios only adds results, all for the first
    command; with no command it adds none and asks nothing; and what ends it
    by a throw is an [Error]. *)
Lemma runAiScenarios_adds containerId packageInfo nodeVersion onProgress
    (aiScenarios : list TestScenario.t) (results : list CommandTestResult.t)
    (s : RunState World) :
  exists extra added,
    snd (fst (runAiScenarios World parts clock containerId packageInfo
                nodeVersion onProgress aiScenarios results s)) =
      (results ++ extra)%list /\
    rlog (snd (runAiScenarios World parts clock containerId packageInfo
                 nodeVersion onProgress aiScenarios results s)) =
      (rlog s ++ added)%list /\
    (forall r, In r extra ->
       hd_error (PackageInfo.commands packageInfo) =
         Some (CommandTestResult.command r) /\
       CommandTestResult.nodeVersion r = nodeVersion) /\
    (PackageInfo.commands packageInfo = [] -> extra = [] /\ added = []) /\
    (forall v,
       fst (fst (runAiScenarios World parts clock containerId packageInfo
                   nodeVersion onProgress aiScenarios results s)) = Some v ->
       isNullish v = false).
Proof.
  revert results s.
  induction aiScenarios as [|scenario rest IH]; intros results s;
    cbn [runAiScenarios].
  - exists [], []. cbn. rewrite !app_nil_r.
    split; [reflexivity|]. split; [reflexivity|].
    split; [intros r [] |]. split; [now split | discriminate].
  - destruct (PackageInfo.commands packageInfo) as [|command others] eqn:Hc.
    + exists [], []. cbn. rewrite !app_nil_r.
      split; [reflexivity|]. split; [reflexivity|].
      split; [intros r [] |]. split; [now split | now intros v [= <-]].
    + unfold ofRunner.
      destruct (ScenarioRunner.runScenario World (dockerManager World parts)
                  clock containerId (PackageInfo.name packageInfo)
                  (CLICommand.name command) scenario nodeVersion command
                  onProgress (ScenarioRunner.mkState (rworld s) []))
        as [[e|result] s1] eqn:Hrun.
      * exists [], (map OnManager (ScenarioRunner.calls s1)). cbn.
        rewrite app_nil_r.
        split; [reflexivity|]. split; [reflexivity|].
        split; [intros r [] |]. split; [discriminate|].
        intros v [= <-]. now apply runScenario_throws_errors in Hrun.
      * destruct (IH (results ++ [result])%list
                    {| rworld := ScenarioRunner.world s1;
                       rlog := (rlog s ++
                                map OnManager (ScenarioRunner.calls s1))%list |})
          as (extra & added & Hres & Hlog & Hfor & _ & Hthrown).
        exists (result :: extra),
               (map OnManager (ScenarioRunner.calls s1) ++ added)%list.
        split; [|split; [|split; [|split]]].
        -- rewrite Hres, <- app_assoc. reflexivity.
        -- rewrite Hlog. cbn [rlog]. now rewrite app_assoc.
        -- intros r [<- | Hin]; [|now apply Hfor].
           apply runScenario_result_for in Hrun. destruct Hrun as [-> ->].
           now split.
        -- discriminate.
        -- exact Hthrown.
Qed.

(** X21. Without a listener the AI block aborts a run in one case only: when
    the generation of the scenarios rejects with [undefined] or [null], the
    handler's read of the message throws a [TypeError], and the block throws
    it, having asked for the generation alone. In every other case, the
    generation throwing an [Error] or a scenario that cannot be run among
    them, [results] comes back with what was pushed. Every result the block
    adds is for the first command of the package and the Node version at
    hand; with no command it adds none and asks nothing of the manager. *)
Theorem aiPhase_contains_errors (config : TestConfig.t) (containerId : string)
    (packageInfo : PackageInfo.t) (nodeVersion : string)
    (results : list CommandTestResult.t) (s : RunState World) :
  (forall ai v w1,
     TestConfig.ai config = Some ai ->
     generateScenarios World parts packageInfo ai (Some containerId)
       (rworld s) = (inl v, w1) ->
     isNullish v = true ->
     exists typeError,
       messageOf v = inl (Exception typeError) /\
       aiPhase World parts clock config containerId packageInfo nodeVersion
         None results s =
       (inl (Exception typeError),
        mkRunState w1
          (rlog s ++
           [GenerateScenarios (PackageInfo.name packageInfo) containerId])%list)) /\
  ((forall ai v w1,
      TestConfig.ai config = Some ai ->
      generateScenarios World parts packageInfo ai (Some containerId)
        (rworld s) = (inl v, w1) ->
      isNullish v = false) ->
   exists extra added s',
     aiPhase World parts clock config containerId packageInfo nodeVersion None
       results s = (inr (results ++ extra)%list, s') /\
     rlog s' = (rlog s ++ added)%list /\
     (forall r, In r extra ->
        hd_error (PackageInfo.commands packageInfo) =
          Some (CommandTestResult.command r) /\
        CommandTestResult.nodeVersion r = nodeVersion) /\
     (PackageInfo.commands packageInfo = [] ->
      extra = [] /\ existsb isOnManager added = false)).
Proof.
  split.
  - intros ai v w1 Hai Hgenerate Hnullish.
    unfold aiPhase. rewrite Hai.
    unfold tbind. cbn [emitProgress]. unfold tret at 1. unfold ask.
    rewrite Hgenerate. unfold aiFailed, tbind, teval.
    destruct v as [e| |]; [discriminate | |]; eexists; split; reflexivity.
  - intros Herrors.
    unfold aiPhase. destruct (TestConfig.ai config) as [ai|].
    + unfold tbind. cbn [emitProgress]. unfold tret at 1.
      unfold ask.
      destruct (generateScenarios World parts packageInfo ai (Some containerId)
                  (rworld s)) as [[v|aiScenarios] w1] eqn:Hgenerate.
      * specialize (Herrors ai v w1 eq_refl Hgenerate).
        destruct v as [e| |]; try discriminate.
        exists [], [GenerateScenarios (PackageInfo.name packageInfo) containerId].
        eexists. unfold aiFailed, tbind, teval, tret. cbn. rewrite app_nil_r.
        split; [reflexivity|]. split; [reflexivity|].
        split; [intros r [] | now split].
      * unfold tret.
        set (s1 := {| rworld := w1;
                      rlog := (rlog s ++
                               [GenerateScenarios (PackageInfo.name packageInfo)
                                  containerId])%list |}).
        destruct (runAiScenarios_adds containerId packageInfo nodeVersion None
                    aiScenarios results s1)
          as (extra & added & Hres & Hlog & Hfor & Hnone & Hthrown).
        destruct (runAiScenarios World parts clock containerId packageInfo
                    nodeVersion None aiScenarios results s1)
          as [[[v|] results'] s3]; cbn [fst snd] in Hres, Hlog, Hthrown;
          subst results'.
        -- specialize (Hthrown v eq_refl).
           destruct v as [e| |]; try discriminate.
           exists extra,
             (GenerateScenarios (PackageInfo.name packageInfo) containerId
              :: added),
             s3.
           unfold aiFailed, tbind, teval, tret. cbn [emitProgress messageOf].
           split; [reflexivity|]. split; [|split; [exact Hfor|]].
           ++ rewrite Hlog. subst s1. cbn [rlog]. now rewrite <- app_assoc.
           ++ intros Hc. destruct (Hnone Hc) as [-> ->]. now split.
        -- exists extra,
             (GenerateScenarios (PackageInfo.name packageInfo) containerId
              :: added),
             s3.
           split; [reflexivity|]. split; [|split; [exact Hfor|]].
           ++ rewrite Hlog. subst s1. cbn [rlog]. now rewrite <- app_assoc.
           ++ intros Hc. destruct (Hnone Hc) as [-> ->]. now split.
    + exists [], [], s. unfold tret. rewrite !app_nil_r.
      split; [reflexivity|]. split; [reflexivity|].
      split; [intros r [] | now split].
Qed.

Lemma grows_aiPhase config containerId packageInfo nodeVersion onProgress
    results :
  logGrows (aiPhase World parts clock config containerId packageInfo
              nodeVersion onProgress results).
Proof.
  unfold aiPhase. destruct (TestConfig.ai config) as [ai|]; [|apply grows_tret].
  apply grows_tbind; [apply grows_emitProgress | intros _].
  intros s.
  destruct (grows_ask (GenerateScenarios (PackageInfo.name packageInfo)
                         containerId)
              (generateScenarios World parts packageInfo ai (Some containerId)) s)
    as (a1 & H1).
  destruct (ask World _ _ s) as [[e|aiScenarios] s1]; cbn [snd] in H1.
  - destruct (grows_aiFailed onProgress e results s1) as (a2 & H2).
    exists (a1 ++ a2)%list. now rewrite H2, H1, app_assoc.
  - match goal with
    | |- context [emitProgress World onProgress ?ev s1] =>
        destruct (grows_emitProgress onProgress ev s1) as (a2 & H2);
        destruct (emitProgress World onProgress ev s1) as [[e|[]] s2];
        cbn [snd] in H2
    end.
    + destruct (grows_aiFailed onProgress e results s2) as (a3 & H3).
      exists (a1 ++ a2 ++ a3)%list. now rewrite H3, H2, H1, <- !app_assoc.
    + destruct (runAiScenarios_adds containerId packageInfo nodeVersion
                  onProgress aiScenarios results s2)
        as (extra & a3 & _ & H3 & _).
      destruct (runAiScenarios World parts clock containerId packageInfo
                  nodeVersion onProgress aiScenarios results s2)
        as [[[e|] results'] s3]; cbn [snd] in H3.
      * destruct (grows_aiFailed onProgress e results' s3) as (a4 & H4).
        exists (a1 ++ a2 ++ a3 ++ a4)%list.
        now rewrite H4, H3, H2, H1, <- !app_assoc.
      * exists (a1 ++ a2 ++ a3)%list. cbn [snd].
        now rewrite H3, H2, H1, <- !app_assoc.
Qed.

Lemma grows_testEachCommand containerId nodeVersion onProgress commands :
  forall results,
    logGrows (testEachCommand World parts clock containerId nodeVersion
                onProgress commands results).
Proof.
  induction commands as [|command rest IH]; intros results;
    cbn [testEachCommand]; [apply grows_tret|].
  apply grows_tbind; [apply grows_emitProgress | intros _].
  apply grows_tbind; [apply grows_testCommand | intros r1].
  apply grows_tbind; [apply grows_testCommand | intros r2].
  apply grows_tbind; [apply grows_testCommand | intros r3].
  apply IH.
Qed.

Lemma grows_testVersions packageInfo config onProgress nodeVersions :
  forall results,
    logGrows (testVersions World parts clock packageInfo config onProgress
                nodeVersions results).
Proof.
  induction nodeVersions as [|nodeVersion rest IH]; intros results;
    cbn [testVersions]; [apply grows_tret|].
  apply grows_tbind; [|intros results'; apply IH].
  unfold testVersion. cbv zeta.
  apply grows_tbind; [apply grows_ask | intros container].
  apply grows_tbind; [apply grows_ask | intros _].
  apply grows_tbind; [apply grows_aiPhase | intros results1].
  unfold defaultPhase.
  destruct (TestConfig.skipDefaultTests config) as [[|]|];
    [apply grows_tret | apply grows_testEachCommand
     | apply grows_testEachCommand].
Qed.

Lemma grows_testPackageTry startTime packageSource config onProgress :
  logGrows (testPackageTry World parts clock startTime packageSource config
              onProgress).
Proof.
  unfold testPackageTry.
  apply grows_tbind; [apply grows_emitProgress | intros _].
  apply grows_tbind; [apply grows_ask | intros packageInfo].
  apply grows_tbind; [apply grows_emitProgress | intros _].
  apply grows_tbind; [apply grows_ask | intros available].
  destruct (negb available); [apply grows_throw|]. cbv zeta.
  apply grows_tbind; [apply grows_testVersions | intros results].
  apply grows_tbind; [apply grows_dateNow | intros now].
  apply grows_tbind; [apply grows_emitProgress | intros _].
  apply grows_tret.
Qed.


(** X23. A listener that throws at the cleaning-up event keeps the cleanup from
    being asked: what it throws becomes the outcome of [testPackage], in
    place of the summary or of the error of the run. *)
Theorem throwing_listener_prevents_cleanup (packageSource : string)
    (config : PartialTestConfig.t)
    (callback : ProgressEvent.t -> ScenarioRunner.Async World unit)
    (s : RunState World) (e : Thrown) (w2 : World) :
  let s1 := snd (testPackageTry World parts clock (clock (rworld s))
                   packageSource config (Some callback) s) in
  callback (progressOf TestStage.CLEANING_UP "Cleaning up containers" None)
    (rworld s1) = (inl e, w2) ->
  testPackage World parts clock packageSource config (Some callback) s =
  (inl e, mkRunState w2 (rlog s1)).
Proof.
  intros s1 Hthrow. unfold testPackage, tbind at 1, dateNow, tfinally.
  subst s1.
  destruct (testPackageTry World parts clock (clock (rworld s)) packageSource
              config (Some callback) s) as [r s1]; cbn [snd] in Hthrow.
  unfold tbind. cbn [emitProgress]. now rewrite Hthrow.
Qed.

(** X24. When Docker is not available, [testPackage] throws the error that says
    so: it has asked for the analysis and for the Docker check, it creates
    no container and runs no test, and it still asks for the cleanup. *)
Theorem testPackage_without_docker (packageSource : string)
    (config : PartialTestConfig.t) (s : RunState World)
    (packageInfo : PackageInfo.t) (w1 w2 w3 : World) :
  analyze World parts packageSource (rworld s) = (inr packageInfo, w1) ->
  isDockerAvailable World parts w1 = (inr false, w2) ->
  cleanup World parts (orBool (PartialTestConfig.keepContainers config) false)
    w2 = (inr tt, w3) ->
  testPackage World parts clock packageSource config None s =
  (inl (Exception dockerUnavailableError),
   mkRunState w3
     (rlog s ++
      [Analyze packageSource; IsDockerAvailable;
       Cleanup (orBool (PartialTestConfig.keepContainers config) false)])%list).
Proof.
  intros Hanalyze Hdocker Hcleanup.
  unfold testPackage, tbind at 1, dateNow, tfinally, testPackageTry.
  unfold tbind, ask, throw. cbn [emitProgress]. unfold tret.
  rewrite Hanalyze. cbn [rworld rlog]. rewrite Hdocker. cbn [negb rworld rlog].
  rewrite Hcleanup. now rewrite <- !app_assoc.
Qed.

End WithCollaborators.

End TestPackageFacts.

(** ** The further properties at work *)

Module MoreRuns.

Import JS JSString ScenarioRunner InMemory RunnerConditions InMemoryRunner.

Lemma determineCommandType_empty_part_witness :
  PackageAnalyzer.determineCommandType "whatever" "my-cli-" false =
  CommandType.ALIAS.
Proof.
  apply (AnalyzerFacts.determineCommandType_empty_part "whatever" "my-cli-");
    [vm_compute; auto | discriminate].
Defined.

Lemma extractExamples_of_array_witness :
  PackageAnalyzer.extractExamples examplesJson =
  inr (Some [{| CLIExample.command := "tool --help";
                CLIExample.description := "shows the help" |}]).
Proof.
  exact (AnalyzerFacts.extractExamples_of_array examplesJson _ _ eq_refl eq_refl).
Defined.

Lemma failingCommands_never_throw :
  provisioningNeverThrows InMemory.World failingCommands.
Proof.
  repeat split; intros; cbn; eexists; try eexists; reflexivity.
Qed.

Lemma setupScenario_ignores_exit_codes_witness :
  exists s',
    setupScenario InMemory.World failingCommands "box" (Some shellSetup)
      (fresh 0) = (inr tt, s') /\
    calls s' = ([] ++ provisioningPlan "box" shellSetup)%list.
Proof.
  exact (RunnerFacts.setupScenario_ignores_exit_codes InMemory.World
           failingCommands "box" shellSetup (fresh 0)
           failingCommands_never_throw).
Defined.

Lemma manager_fileExists_never_throws :
  fileExistsNeverThrows InMemory.World manager.
Proof. intros containerId path w. cbn. unfold fileExists. now eexists _, _. Qed.

Lemma manager_readFile_throws_errors :
  readFileThrowsErrors InMemory.World manager.
Proof.
  intros containerId path w error w'. cbn. unfold readFile.
  destruct (lookup path (files w)); [discriminate | now intros [= <- _]].
Qed.


Lemma unreadable_file_one_message_witness :
  checkFileContents InMemory.World manager "box"
    (withFileContents noValidation [unreadable]) [] (fresh 0) =
  checkFileContents InMemory.World manager "box"
    (withFileContents (withFileContents noValidation [unreadable]) [])
    ["Failed to read file missing.txt: cat: /test/missing.txt: No such file or directory"]
    (mkState (world (fresh 0)) [ReadFile "box" "/test/missing.txt"]).
Proof.
  exact (RunnerFacts.unreadable_file_one_message InMemory.World manager "box"
           (withFileContents noValidation [unreadable]) unreadable [] []
           (fresh 0) _ _ eq_refl eq_refl).
Defined.

Lemma validateScenario_passes_iff_witness :
  exists verdict s',
    validateScenario InMemory.World manager "box" greetingScenario
      (runCommand ["echo"; "hello"; "world"])
      (holding [("/test/in/name.txt", "world" ++ LF)]) = (inr verdict, s') /\
    (Verdict.passed verdict = true <->
     assertionsHold InMemory.World manager "box"
       (world (holding [("/test/in/name.txt", "world" ++ LF)]))
       (TestScenario.validate greetingScenario)
       (runCommand ["echo"; "hello"; "world"])).
Proof.
  apply (RunFacts.validateScenario_passes_iff InMemory.World manager "box"
           greetingScenario (runCommand ["echo"; "hello"; "world"])
           (holding [("/test/in/name.txt", "world" ++ LF)])).
  apply InMemoryRuns.inMemory_quiescent.
Defined.

Lemma runScenario_uninterrupted_witness :
  exists r s',
    run greetingScenario (fresh 3) = (inr r, s') /\
    CommandTestResult.passed r = true /\
    CommandTestResult.stdout r = "hello world" /\
    calls s' = runCalls "box" greetingScenario.
Proof.
  eexists _, _. split.
  - apply (RunFacts.runScenario_uninterrupted InMemory.World manager time "box"
             "pkg" "tool" greetingScenario "20" cli (fresh 3)
             (snd (setupScenario InMemory.World manager "box"
                     (TestScenario.setup greetingScenario) (fresh 3)))
             (runCommand ["echo"; "hello"; "world"])
             {| files := [("/test/in/name.txt", "world" ++ LF)];
                answers := 2; time := 1 |});
      [reflexivity | reflexivity | apply InMemoryRuns.inMemory_quiescent].
  - repeat split.
Defined.

Lemma empty_literal_always_matches_witness :
  (List.length ([] : list string) <
   List.length (checkContent noEmptyText "anything" []))%nat.
Proof.
  apply (RunFacts.empty_literal_always_matches noEmptyText "anything" []).
  now left.
Defined.

Lemma createTestContainer_tracks_witness :
  (* the daemon answers the pull, the creation and the inspection, and
     throws at the start *)
  exists e s',
    DockerLifecycle.createTestContainer nat unit string
      (DockerLifecycle.countingDaemon None) DockerLifecycle.node20 "tool" None
      (DockerLifecycle.mkManagerState 4%nat ["old"]) = (inl e, s') /\
    DockerLifecycle.containers s' = ["old"].
Proof.
  pose proof (LifecycleFacts.createTestContainer_tracks nat unit string
                (DockerLifecycle.countingDaemon None) DockerLifecycle.node20
                "tool" None (DockerLifecycle.mkManagerState 4%nat ["old"])) as H.
  destruct (DockerLifecycle.createTestContainer nat unit string
              (DockerLifecycle.countingDaemon None) DockerLifecycle.node20
              "tool" None (DockerLifecycle.mkManagerState 4%nat ["old"]))
    as [[e|state] s'] eqn:Hrun.
  - exists e, s'. now split.
  - vm_compute in Hrun. discriminate Hrun.
Defined.

Lemma installPackage_ignores_exit_code_witness :
  DockerLifecycle.installPackage nat unit string
    (DockerLifecycle.countingDaemon (Some 1%Z)) asciiToString "box" "no-such-pkg"
    None (DockerLifecycle.mkManagerState 0%nat ["box"]) =
  (inr tt, DockerLifecycle.mkManagerState 0%nat ["box"]).
Proof.
  exact (LifecycleFacts.installPackage_ignores_exit_code nat unit string
           (DockerLifecycle.countingDaemon (Some 1%Z)) asciiToString "box"
           "no-such-pkg" (DockerLifecycle.mkManagerState 0%nat ["box"])
           _ 0%nat (Some 1%Z) eq_refl eq_refl eq_refl eq_refl eq_refl).
Defined.

Lemma executeCommand_output_trimmed_witness :
  startsWhite "out1out2" = false /\ endsWhite "out1out2" = false /\
  startsWhite "err" = false /\ endsWhite "err" = false.
Proof.
  exact (LifecycleFacts.executeCommand_output_trimmed asciiToString
           (streaming exampleChunks None) "box" ["ls"]
           {| DockerManager.exitCode := 0; DockerManager.stdout := "out1out2";
              DockerManager.stderr := "err" |} eq_refl).
Defined.

Lemma parts_containers_never_fail :
  TestRunner.containersNeverFail InMemory.World parts.
Proof. split; intros; cbn; eexists; try eexists; reflexivity. Qed.

Lemma parts_executor_throws_errors :
  TestRunner.executorThrowsErrors InMemory.World parts.
Proof.
  intros containerId command w error w'. cbn. unfold executeCommand.
  destruct (answers w); [now intros [= <- _] | discriminate].
Qed.

Lemma runTests_default_results_witness :
  exists results s',
    TestRunner.runTests InMemory.World parts time toolInfo
      (TestRunnerPure.prepareConfig noConfig) None (start 9) =
      (inr results, s') /\
    map CommandTestResult.nodeVersion results =
      ["18"; "18"; "18"; "20"; "20"; "20"] /\
    List.length results = 6%nat.
Proof.
  exact (TestRunnerFacts.runTests_default_results InMemory.World parts time
           toolInfo (TestRunnerPure.prepareConfig noConfig) (start 9)
           eq_refl parts_containers_never_fail parts_executor_throws_errors).
Defined.

Lemma testCommand_outcomes_witness :
  (exists r,
     fst (TestRunner.testCommand InMemory.World parts time "box" "tool"
            ["--help"] "20" cli (start 0)) = inr r /\
     CommandTestResult.nodeVersion r = "20" /\
     CommandTestResult.command r = cli /\
     CommandTestResult.passed r = false /\
     CommandTestResult.exitCode r = 1%Z /\
     CommandTestResult.stdout r = EmptyString /\
     CommandTestResult.stderr r = "connection lost" /\
     CommandTestResult.error r = Some "connection lost") /\
  fst (TestRunner.testCommand InMemory.World silentParts time "box" "tool"
         ["--help"] "20" cli (start 3)) =
  inl (Exception
         (mkError "Cannot read properties of undefined (reading 'message')")).
Proof.
  split.
  - exact (proj2 (proj2
             (TestRunnerFacts.testCommand_outcomes InMemory.World parts
                time "box" "tool" ["--help"] "20" cli (start 0)))).
  - exact (proj2 (proj2
             (TestRunnerFacts.testCommand_outcomes InMemory.World
                silentParts time "box" "tool" ["--help"] "20" cli
                (start 3)))).
Defined.

Lemma aiPhase_contains_errors_witness :
  (exists extra s',
     TestRunner.aiPhase InMemory.World parts time
       (TestRunnerPure.prepareConfig aiConfig) "box" toolInfo "20" None []
       (start 3) = (inr ([] ++ extra)%list, s')) /\
  TestRunner.aiPhase InMemory.World silentParts time
    (TestRunnerPure.prepareConfig aiConfig) "box" toolInfo "20" None []
    (start 3) =
  (inl (Exception
          (mkError "Cannot read properties of undefined (reading 'message')")),
   TestRunner.mkRunState (TestRunner.rworld (start 3))
     [TestRunner.GenerateScenarios "tool" "box"]).
Proof.
  split.
  - destruct (proj2 (TestPackageFacts.aiPhase_contains_errors InMemory.World
                       parts time (TestRunnerPure.prepareConfig aiConfig)
                       "box" toolInfo "20" [] (start 3)))
      as (extra & added & s' & Hrun & _).
    + intros ai v w1 _. cbn. now intros [= <- _].
    + now exists extra, s'.
  - destruct (proj1 (TestPackageFacts.aiPhase_contains_errors InMemory.World
                       silentParts time (TestRunnerPure.prepareConfig aiConfig)
                       "box" toolInfo "20" [] (start 3))
                _ ThrownUndefined (TestRunner.rworld (start 3))
                eq_refl eq_refl eq_refl)
      as (typeError & Hmessage & Hrun).
    injection Hmessage as <-. exact Hrun.
Defined.

Lemma throwing_listener_prevents_cleanup_witness :
  exists s',
    TestRunner.testPackage InMemory.World parts time "tool" noConfig
      (Some fragileListener) (start 9) =
    (inl (Exception (mkError "listener failed")), s') /\
    existsb (fun event =>
               match event with TestRunner.Cleanup _ => true | _ => false end)
      (TestRunner.rlog s') = false.
Proof.
  eexists. split.
  - apply (TestPackageFacts.throwing_listener_prevents_cleanup InMemory.World
             parts time "tool" noConfig fragileListener (start 9)).
    reflexivity.
  - vm_compute. reflexivity.
Defined.

Lemma testPackage_without_docker_witness :
  exists s',
    TestRunner.testPackage InMemory.World parts time "tool" noConfig None
      (start 0) = (inl (Exception TestRunner.dockerUnavailableError), s') /\
    TestRunner.rlog s' =
      [TestRunner.Analyze "tool"; TestRunner.IsDockerAvailable;
       TestRunner.Cleanup false].
Proof.
  eexists. split.
  - eapply (TestPackageFacts.testPackage_without_docker InMemory.World parts
              time "tool" noConfig (start 0) toolInfo); reflexivity.
  - reflexivity.
Defined.

End MoreRuns.
